(** * Central-bank rate loader: incremental and backfill pipelines

    A shallow embedding of [currency_api.py] (the incremental loader) and
    [currency_api_date.py] (the historical backfill), with the properties of
    the ingestion pipeline proved about it.

    Modelling conventions.
    - A calendar date ([datetime.date], and a midnight [Timestamp] yielded by
      [pd.date_range]) is its proleptic Gregorian ordinal, a [Z]; the
      conversions are those of CPython's [datetime] module.
    - Python exceptions deriving from [Exception] are values of [exn]; a
      computation is a function from the process state to an outcome and a
      new state.
    - Everything outside the process (clock, provider, XML parser, numeric
      parsers, database and file-system faults) is a field of [World].
    - A [DataFrame] is a list of labelled, typed columns over a shared index
      length; [NaN] is the float [nan]. *)

From Stdlib Require Import ZArith List String Ascii Bool Lia Floats.
Import ListNotations.

#[local] Open Scope string_scope.
#[local] Open Scope list_scope.
#[local] Open Scope Z_scope.

(* ------------------------------------------------------------------ *)
(** ** Exceptions and outcomes *)

Inductive exn_class :=
| OperationalError      (* sqlalchemy.exc *)
| ProgrammingError      (* sqlalchemy.exc *)
| RequestException      (* requests: connection errors, timeouts *)
| HTTPError             (* requests: raise_for_status *)
| XMLSyntaxError        (* pandas.read_xml *)
| KeyError
| AttributeError
| ValueError
| TypeError
| OverflowError
| InvalidIndexError     (* pandas *)
| OSError
| OtherException.

Record exn := mk_exn { exn_class_of : exn_class; exn_msg : string }.

Inductive result (A : Type) :=
| Ok (a : A)
| Raise (e : exn).

Arguments Ok {A} a.
Arguments Raise {A} e.

(* ------------------------------------------------------------------ *)
(** ** Calendar dates, after CPython's [datetime] *)

Module Calendar.

(** [date.max.toordinal()] *)
Definition MAXORDINAL : Z := 3652059.

Definition DI400Y : Z := 146097.
Definition DI100Y : Z := 36524.
Definition DI4Y : Z := 1461.

Definition is_leap (year : Z) : bool :=
  (year mod 4 =? 0) && (negb (year mod 100 =? 0) || (year mod 400 =? 0)).

Definition days_before_year (year : Z) : Z :=
  let y := year - 1 in y * 365 + y / 4 - y / 100 + y / 400.

(** [_DAYS_IN_MONTH], indexed from 1. *)
Definition DAYS_IN_MONTH (month : Z) : Z :=
  match month with
  | 1 => 31 | 2 => 28 | 3 => 31 | 4 => 30 | 5 => 31 | 6 => 30
  | 7 => 31 | 8 => 31 | 9 => 30 | 10 => 31 | 11 => 30 | 12 => 31
  | _ => 0
  end.

(** [_DAYS_BEFORE_MONTH], indexed from 1. *)
Definition DAYS_BEFORE_MONTH (month : Z) : Z :=
  match month with
  | 1 => 0 | 2 => 31 | 3 => 59 | 4 => 90 | 5 => 120 | 6 => 151
  | 7 => 181 | 8 => 212 | 9 => 243 | 10 => 273 | 11 => 304 | 12 => 334
  | _ => 0
  end.

Definition days_in_month (year month : Z) : Z :=
  if (month =? 2) && is_leap year then 29 else DAYS_IN_MONTH month.

Definition days_before_month (year month : Z) : Z :=
  DAYS_BEFORE_MONTH month + (if (2 <? month) && is_leap year then 1 else 0).

Definition ymd2ord (year month day : Z) : Z :=
  days_before_year year + days_before_month year month + day.

Definition ord2ymd (ordinal : Z) : Z * Z * Z :=
  let n := ordinal - 1 in
  let n400 := n / DI400Y in
  let n := n mod DI400Y in
  let year := n400 * 400 + 1 in
  let n100 := n / DI100Y in
  let n := n mod DI100Y in
  let n4 := n / DI4Y in
  let n := n mod DI4Y in
  let n1 := n / 365 in
  let n := n mod 365 in
  let year := year + n100 * 100 + n4 * 4 + n1 in
  if (n1 =? 4) || (n100 =? 4) then (year - 1, 12, 31)
  else
    let leapyear := (n1 =? 3) && (negb (n4 =? 24) || (n100 =? 3)) in
    let month := Z.shiftr (n + 50) 5 in
    let preceding :=
      DAYS_BEFORE_MONTH month + (if (2 <? month) && leapyear then 1 else 0) in
    if n <? preceding then
      let month := month - 1 in
      let preceding :=
        preceding
        - (DAYS_IN_MONTH month + (if (month =? 2) && leapyear then 1 else 0)) in
      (year, month, n - preceding + 1)
    else (year, month, n - preceding + 1).

(** [d + timedelta(days=n)]: the sum is a date only inside
    [date.min .. date.max]. *)
Definition add_days (d n : Z) : result Z :=
  let o := d + n in
  if (0 <? o) && (o <=? MAXORDINAL) then Ok o
  else Raise (mk_exn OverflowError "date value out of range").

(** The digit characters of a zero-padded decimal field. *)
Definition digit (k : Z) : ascii := ascii_of_nat (48 + Z.to_nat (k mod 10)).

Definition digit_val (c : ascii) : option Z :=
  let n := Z.of_nat (nat_of_ascii c) in
  if (48 <=? n) && (n <=? 57) then Some (n - 48) else None.

(** [%Y] as the C library of Linux writes it: the decimal digits of the
    year without padding, so fewer than four below the year 1000. *)
Definition year_digits (y : Z) : string :=
  if y <? 10 then String (digit y) EmptyString
  else if y <? 100 then String (digit (y / 10)) (String (digit y) EmptyString)
  else if y <? 1000 then
    String (digit (y / 100)) (String (digit (y / 10)) (String (digit y) EmptyString))
  else
    String (digit (y / 1000)) (String (digit (y / 100))
    (String (digit (y / 10)) (String (digit y) EmptyString))).

(** [strftime('%d/%m/%Y')]: day and month on two digits, then the year. *)
Definition strftime_dmY (d : Z) : string :=
  let '(y, m, dd) := ord2ymd d in
  String (digit (dd / 10)) (String (digit dd) (String "/"
  (String (digit (m / 10)) (String (digit m) (String "/" (year_digits y)))))).

(** [datetime.strptime(s, '%d/%m/%Y').date()] on the strings
    [strftime_dmY] produces: [%Y] takes exactly four digits, so a shorter
    year, like anything else, is a [ValueError]. *)
Definition strptime_dmY (s : string) : result Z :=
  let bad := Raise (mk_exn ValueError "time data does not match format") in
  match s with
  | String d1 (String d0 (String "/" (String m1 (String m0 (String "/"
    (String y3 (String y2 (String y1 (String y0 EmptyString))))))))) =>
      match digit_val d1, digit_val d0, digit_val m1, digit_val m0,
            digit_val y3, digit_val y2, digit_val y1, digit_val y0 with
      | Some d1, Some d0, Some m1, Some m0,
        Some y3, Some y2, Some y1, Some y0 =>
          let day := 10 * d1 + d0 in
          let month := 10 * m1 + m0 in
          let year := 1000 * y3 + 100 * y2 + 10 * y1 + y0 in
          if (1 <=? year) && (1 <=? month) && (month <=? 12)
             && (1 <=? day) && (day <=? days_in_month year month)
          then Ok (ymd2ord year month day)
          else bad
      | _, _, _, _, _, _, _, _ => bad
      end
  | _ => bad
  end.

(** [pd.date_range(start, end)]: every day from [start] through [end],
    ascending; empty when [end < start]. *)
Definition date_range (start_date end_date : Z) : list Z :=
  map (fun i => start_date + Z.of_nat i)
      (seq 0 (Z.to_nat (end_date - start_date + 1))).

End Calendar.

(* ------------------------------------------------------------------ *)
(** ** Data frames *)

(** A Python object held in a column of dtype [object], or read out of a
    row: an [int], a [float] ([NaN] marks a missing value), a [str] or a
    [datetime.date]. *)
Inductive cell :=
| VInt (z : Z)
| VFloat (f : float)
| VStr (s : string)
| VDate (d : Z).

(** A column with its dtype: integer ([int64], or [uint64] when a value
    is beyond [int64]), [float64] or [object]. *)
Inductive column :=
| ColInt (l : list Z)
| ColFloat (l : list float)
| ColObj (l : list cell).

Record DataFrame := mk_df {
  index_len : nat;
  columns : list (string * column)
}.

Definition column_cells (c : column) : list cell :=
  match c with
  | ColInt l => map VInt l
  | ColFloat l => map VFloat l
  | ColObj l => l
  end.

Definition column_len (c : column) : nat := List.length (column_cells c).

Definition column_names (df : DataFrame) : list string := map fst (columns df).

(** [len(df)] *)
Definition df_len (df : DataFrame) : nat := index_len df.

(** [pd.DataFrame()] *)
Definition empty_frame : DataFrame := mk_df 0 [].

(** [df.empty]: some axis has length zero. *)
Definition df_empty (df : DataFrame) : bool :=
  (index_len df =? 0)%nat || (match columns df with [] => true | _ => false end).

(** One record of the frame: its labelled cells. *)
Definition row := list (string * cell).

Definition row_at (df : DataFrame) (i : nat) : row :=
  map (fun nc => (fst nc, nth i (column_cells (snd nc)) (VFloat nan))) (columns df).

Definition rows_of (df : DataFrame) : list row :=
  map (row_at df) (seq 0 (index_len df)).

Module Pandas.

Definition key_error (name : string) : exn := mk_exn KeyError name.

Fixpoint lookup (name : string) (cols : list (string * column)) : option column :=
  match cols with
  | [] => None
  | (n, c) :: rest => if String.eqb n name then Some c else lookup name rest
  end.

(** [df[name]] *)
Definition getitem (df : DataFrame) (name : string) : result column :=
  match lookup name (columns df) with
  | Some c => Ok c
  | None => Raise (key_error name)
  end.

Fixpoint set_col (name : string) (c : column) (cols : list (string * column))
  : list (string * column) :=
  match cols with
  | [] => [(name, c)]
  | (n, c0) :: rest =>
      if String.eqb n name then (n, c) :: rest else (n, c0) :: set_col name c rest
  end.

(** [df[name] = series]: an existing column keeps its place, a new one
    goes last. *)
Definition setitem (df : DataFrame) (name : string) (c : column) : DataFrame :=
  mk_df (index_len df) (set_col name c (columns df)).

(** A scalar broadcast over the index. *)
Definition broadcast (v : cell) (n : nat) : column :=
  match v with
  | VInt z => ColInt (repeat z n)
  | VFloat f => ColFloat (repeat f n)
  | _ => ColObj (repeat v n)
  end.

(** [df[name] = scalar] *)
Definition setitem_scalar (df : DataFrame) (name : string) (v : cell) : DataFrame :=
  setitem df name (broadcast v (index_len df)).

Definition is_missing (v : cell) : bool :=
  match v with VFloat f => PrimFloat.is_nan f | _ => false end.

Definition is_str (v : cell) : bool := match v with VStr _ => true | _ => false end.
Definition is_int (v : cell) : bool := match v with VInt _ => true | _ => false end.
Definition is_float (v : cell) : bool := match v with VFloat _ => true | _ => false end.
Definition is_date (v : cell) : bool := match v with VDate _ => true | _ => false end.

(** The check behind the [.str] accessor: the values, missing ones
    skipped, must be inferred as strings, as empty or as mixed; a purely
    numeric or purely date column is refused. *)
Definition str_accessor_ok (c : column) : bool :=
  match c with
  | ColObj l =>
      let vals := filter (fun v => negb (is_missing v)) l in
      match vals with
      | [] => true
      | _ =>
          forallb is_str vals
          || negb (forallb (fun v => is_int v || is_float v) vals
                   || forallb is_date vals)
      end
  | _ => false
  end.

Fixpoint replace_char (old new : ascii) (s : string) : string :=
  match s with
  | EmptyString => EmptyString
  | String a rest =>
      String (if Ascii.eqb a old then new else a) (replace_char old new rest)
  end.

(** [series.str.replace(old, new)] for one-character [old] and [new];
    a value that is not a string becomes [NaN]. *)
Definition str_replace (old new : ascii) (c : column) : result column :=
  if str_accessor_ok c then
    Ok (ColObj (map (fun v => match v with
                              | VStr s => VStr (replace_char old new s)
                              | _ => VFloat nan
                              end) (column_cells c)))
  else Raise (mk_exn AttributeError "Can only use .str accessor with string values!").

(** The nearest [float64] to an integer. *)
Definition Z_to_float (z : Z) : float :=
  SF2Prim (binary_normalize prec emax z 0 false).

Definition int64_min : Z := - 2 ^ 63.
Definition int64_max : Z := 2 ^ 63 - 1.

(** A finite float cut towards zero; [None] for [NaN] and the
    infinities. *)
Definition float_trunc (f : float) : option Z :=
  match Prim2SF f with
  | S754_zero _ => Some 0
  | S754_finite s m e =>
      let mag := if 0 <=? e then Z.shiftl (Zpos m) e else Z.shiftr (Zpos m) (- e) in
      Some (if s then - mag else mag)
  | _ => None
  end.

(** Collects the results of a fallible conversion of every element. *)
Fixpoint traverse {A B : Type} (f : A -> result B) (l : list A) : result (list B) :=
  match l with
  | [] => Ok []
  | a :: rest =>
      match f a with
      | Raise e => Raise e
      | Ok b =>
          match traverse f rest with
          | Raise e => Raise e
          | Ok bs => Ok (b :: bs)
          end
      end
  end.

Section Conversions.
(** Python's [float(str)] and [int(str)], [None] where they raise
    [ValueError]. *)
Variable py_float : string -> option float.
Variable py_int : string -> option Z.

Definition cell_to_float (v : cell) : result float :=
  match v with
  | VInt z => Ok (Z_to_float z)
  | VFloat f => Ok f
  | VStr s =>
      match py_float s with
      | Some f => Ok f
      | None => Raise (mk_exn ValueError ("could not convert string to float: " ++ s)%string)
      end
  | VDate _ => Raise (mk_exn TypeError "float() argument must be a string or a real number")
  end.

(** [series.astype(float)] *)
Definition astype_float (c : column) : result column :=
  match c with
  | ColInt l => Ok (ColFloat (map Z_to_float l))
  | ColFloat l => Ok (ColFloat l)
  | ColObj l =>
      match traverse cell_to_float l with
      | Ok fs => Ok (ColFloat fs)
      | Raise e => Raise e
      end
  end.

(** The C cast of an integer to [int64]: wrap-around modulo [2^64]. *)
Definition to_int64 (z : Z) : Z := (z + 2 ^ 63) mod 2 ^ 64 - 2 ^ 63.

Definition in_int64 (z : Z) : result Z :=
  if (int64_min <=? z) && (z <=? int64_max) then Ok z
  else Raise (mk_exn OverflowError "Python int too large to convert to C long").

Definition cell_to_int (v : cell) : result Z :=
  match v with
  | VInt z => in_int64 z
  | VFloat f =>
      match float_trunc f with
      | Some z => in_int64 z
      | None => Raise (mk_exn ValueError "cannot convert float NaN or infinity to integer")
      end
  | VStr s =>
      match py_int s with
      | Some z => in_int64 z
      | None => Raise (mk_exn ValueError ("invalid literal for int() with base 10: " ++ s)%string)
      end
  | VDate _ => Raise (mk_exn TypeError "int() argument must be a string or a real number")
  end.

(** The C cast of a finite float to [int64]; outside the range the
    x86-64 conversion yields the minimum. *)
Definition float_to_int64 (f : float) : result Z :=
  match float_trunc f with
  | Some z => Ok (if (int64_min <=? z) && (z <=? int64_max) then z else int64_min)
  | None => Raise (mk_exn ValueError "Cannot convert non-finite values (NA or inf) to integer")
  end.

(** [series.astype(int)]: the target dtype is [int64]. *)
Definition astype_int (c : column) : result column :=
  match c with
  | ColInt l => Ok (ColInt (map to_int64 l))
  | ColFloat l =>
      match traverse float_to_int64 l with
      | Ok zs => Ok (ColInt zs)
      | Raise e => Raise e
      end
  | ColObj l =>
      match traverse cell_to_int l with
      | Ok zs => Ok (ColInt zs)
      | Raise e => Raise e
      end
  end.
End Conversions.

Fixpoint zip_with {A B C : Type} (f : A -> B -> C) (l : list A) (l' : list B) : list C :=
  match l, l' with
  | a :: t, b :: t' => f a b :: zip_with f t t'
  | _, _ => []
  end.

(** [a / b] on two columns of one frame: true division in [float64]. *)
Definition truediv (a b : column) : result column :=
  match a, b with
  | ColFloat x, ColInt y =>
      Ok (ColFloat (zip_with (fun v n => PrimFloat.div v (Z_to_float n)) x y))
  | ColFloat x, ColFloat y => Ok (ColFloat (zip_with PrimFloat.div x y))
  | ColInt x, ColInt y =>
      Ok (ColFloat (zip_with (fun v n => PrimFloat.div (Z_to_float v) (Z_to_float n)) x y))
  | ColInt x, ColFloat y =>
      Ok (ColFloat (zip_with (fun v n => PrimFloat.div (Z_to_float v) n) x y))
  | _, _ => Raise (mk_exn TypeError "unsupported operand type(s) for /")
  end.

Definition rename_label (mapping : list (string * string)) (n : string) : string :=
  match find (fun kv => String.eqb (fst kv) n) mapping with
  | Some kv => snd kv
  | None => n
  end.

(** [df.rename(columns=mapping)] *)
Definition rename (mapping : list (string * string)) (df : DataFrame) : DataFrame :=
  mk_df (index_len df)
        (map (fun nc => (rename_label mapping (fst nc), snd nc)) (columns df)).

Definition columns_named (name : string) (cols : list (string * column))
  : list (string * column) :=
  filter (fun nc => String.eqb (fst nc) name) cols.

Fixpoint select_cols (names : list string) (cols : list (string * column))
  : result (list (string * column)) :=
  match names with
  | [] => Ok []
  | n :: rest =>
      match columns_named n cols with
      | [] => Raise (key_error n)
      | found =>
          match select_cols rest cols with
          | Ok more => Ok (found ++ more)
          | Raise e => Raise e
          end
      end
  end.

(** [df[[n1, ..., nk]]]: the columns carrying each label, in the order
    asked; a label carried by no column is a [KeyError]. *)
Definition select (names : list string) (df : DataFrame) : result DataFrame :=
  match select_cols names (columns df) with
  | Ok cols => Ok (mk_df (index_len df) cols)
  | Raise e => Raise e
  end.

(** The common dtype of two stacked columns. *)
Definition stack (a b : column) : column :=
  match a, b with
  | ColInt x, ColInt y => ColInt (x ++ y)
  | ColFloat x, ColFloat y => ColFloat (x ++ y)
  | ColInt x, ColFloat y => ColFloat (map Z_to_float x ++ y)
  | ColFloat x, ColInt y => ColFloat (x ++ map Z_to_float y)
  | _, _ => ColObj (column_cells a ++ column_cells b)
  end.

Definition nan_column (n : nat) : column := ColFloat (repeat nan n).

Definition same_labels (a b : DataFrame) : bool :=
  if list_eq_dec string_dec (column_names a) (column_names b) then true else false.

Fixpoint distinct (l : list string) : bool :=
  match l with
  | [] => true
  | x :: rest => negb (existsb (String.eqb x) rest) && distinct rest
  end.

Definition stack_positional (a b : DataFrame) : DataFrame :=
  mk_df (index_len a + index_len b)
        (zip_with (fun x y => (fst x, stack (snd x) (snd y))) (columns a) (columns b)).

Fixpoint union_labels (l l' : list string) : list string :=
  match l' with
  | [] => l
  | x :: rest =>
      if existsb (String.eqb x) l then union_labels l rest
      else union_labels (l ++ [x]) rest
  end.

Definition column_or_nan (name : string) (df : DataFrame) : column :=
  match lookup name (columns df) with
  | Some c => c
  | None => nan_column (index_len df)
  end.

Definition stack_union (a b : DataFrame) : DataFrame :=
  mk_df (index_len a + index_len b)
        (map (fun n => (n, stack (column_or_nan n a) (column_or_nan n b)))
             (union_labels (column_names a) (column_names b))).

(** Stacks [b] under [a]: label by label when both carry the same labels
    in the same order, over the union of the labels when each frame's
    labels are distinct; otherwise the labels cannot be aligned. *)
Definition concat2 (a b : DataFrame) : result DataFrame :=
  if same_labels a b then Ok (stack_positional a b)
  else if distinct (column_names a) && distinct (column_names b)
       then Ok (stack_union a b)
       else Raise (mk_exn InvalidIndexError
                          "Reindexing only valid with uniquely valued Index objects").

Fixpoint concat_onto (acc : DataFrame) (frames : list DataFrame) : result DataFrame :=
  match frames with
  | [] => Ok acc
  | f :: rest =>
      match concat2 acc f with
      | Ok acc' => concat_onto acc' rest
      | Raise e => Raise e
      end
  end.

(** [pd.concat(frames, ignore_index=True)] *)
Definition concat (frames : list DataFrame) : result DataFrame :=
  match frames with
  | [] => Raise (mk_exn ValueError "No objects to concatenate")
  | f :: rest => concat_onto f rest
  end.

End Pandas.

(* ------------------------------------------------------------------ *)
(** ** The world outside the process, and the process state *)

Inductive http_outcome :=
| HttpFails (e : exn)                          (* no response: network error, timeout *)
| HttpResponse (status_code : Z) (text : string).

Record World := {
  (** [datetime.now().date()] *)
  now_date : Z;
  (** [create_engine] and the [SELECT 1] probe: the exception raised, if any *)
  connect_fault : option exn;
  (** a fault of the round trip of the [MAX] query *)
  query_fault : option exn;
  (** [requests.get(url, timeout=10, verify=False)] *)
  requests_get : string -> http_outcome;
  (** [pd.read_xml] on a response body *)
  read_xml : string -> result DataFrame;
  (** Python's [float(str)] and [int(str)] *)
  py_float : string -> option float;
  py_int : string -> option Z;
  (** a fault of [to_sql] and of [to_csv] on a frame *)
  to_sql_fault : DataFrame -> option exn;
  to_csv_fault : DataFrame -> option exn;
  (** where a faulting [to_csv] stops: [None] when the file cannot be
      opened, [Some k] when the fault comes after the file was opened and
      [k] whole lines had reached it *)
  to_csv_flushed : DataFrame -> option nat
}.

Inductive level := INFO | WARNING | ERROR | CRITICAL.

(** The pieces of a formatted log message: literal text and the
    interpolated values. *)
Inductive fragment :=
| Lit (s : string)
| FExn (e : exn)           (* str(e) *)
| FDate (d : Z)
| FNat (n : nat)
| FCell (v : cell)
| FTraceback (e : exn).    (* exc_info=True *)

Definition log_record : Type := level * list fragment.

Inductive event :=
| EvGet (url : string)                        (* a request sent to the provider *)
| EvToSql (df : DataFrame)                    (* a call of to_sql *)
| EvToCsv (header : bool) (df : DataFrame)    (* a call of to_csv *)
| EvSleep.                                    (* time.sleep(0.5) *)

Inductive csv_line :=
| CsvHeader (names : list string)
| CsvRow (cells : list cell).

Record State := mk_state {
  log : list log_record;
  trace : list event;
  (** the rows of [public.currency_rates]; [None] while the table does not exist *)
  db_table : option (list row);
  (** the lines of [currency_backup.csv]; [None] while the file does not exist *)
  csv_file : option (list csv_line)
}.

(** A computation: state in, outcome and state out. *)
Definition M (A : Type) : Type := State -> result A * State.

Definition ret {A : Type} (a : A) : M A := fun s => (Ok a, s).

Definition raise {A : Type} (e : exn) : M A := fun s => (Raise e, s).

Definition bind {A B : Type} (m : M A) (k : A -> M B) : M B :=
  fun s =>
    match m s with
    | (Ok a, s') => k a s'
    | (Raise e, s') => (Raise e, s')
    end.

Declare Scope py_scope.
Delimit Scope py_scope with py.
Notation "x <- m ;; k" := (bind m (fun x => k))
  (at level 61, m at next level, right associativity) : py_scope.
Notation "m ;; k" := (bind m (fun _ => k))
  (at level 61, right associativity) : py_scope.
#[local] Open Scope py_scope.

Definition lift {A : Type} (r : result A) : M A := fun s => (r, s).

(** Sequencing of fallible pure steps. *)
Definition and_then {A B : Type} (r : result A) (k : A -> result B) : result B :=
  match r with
  | Ok a => k a
  | Raise e => Raise e
  end.

Notation "x <~ r ;; k" := (and_then r (fun x => k))
  (at level 61, r at next level, right associativity) : py_scope.

(** [try: body / except Exception as e: handler e] *)
Definition try_except {A : Type} (body : M A) (handler : exn -> M A) : M A :=
  fun s =>
    match body s with
    | (Ok a, s') => (Ok a, s')
    | (Raise e, s') => handler e s'
    end.

Definition logger (lv : level) (msg : list fragment) : M unit :=
  fun s => (Ok tt, mk_state (log s ++ [(lv, msg)]) (trace s) (db_table s) (csv_file s)).

Definition emit (ev : event) : M unit :=
  fun s => (Ok tt, mk_state (log s) (trace s ++ [ev]) (db_table s) (csv_file s)).

(** A live connection pool. *)
Inductive Engine := PgEngine.

Fixpoint contains (needle hay : string) : bool :=
  String.prefix needle hay
  || match hay with
     | EmptyString => false
     | String _ rest => contains needle rest
     end.

Definition data_lines (df : DataFrame) : list csv_line :=
  map (fun r => CsvRow (map snd r)) (rows_of df).

(** What [to_csv] writes: the header line if asked, then one line per
    record. *)
Definition lines_of (header : bool) (df : DataFrame) : list csv_line :=
  (if header then [CsvHeader (column_names df)] else []) ++ data_lines df.

(** [df.to_sql('currency_rates', engine, schema='public', if_exists='append',
    index=False, method='multi', chunksize=1000)]: the rows are appended in
    one transaction, the table created if it is missing; a fault leaves the
    table as it was. *)
Definition to_sql (W : World) (df : DataFrame) : M unit :=
  emit (EvToSql df) ;;
  fun s =>
    match to_sql_fault W df with
    | Some e => (Raise e, s)
    | None =>
        (Ok tt, mk_state (log s) (trace s)
                         (Some (match db_table s with
                                | Some rows => rows ++ rows_of df
                                | None => rows_of df
                                end))
                         (csv_file s))
    end.

(** [csv_path.exists()] *)
Definition csv_exists : M bool :=
  fun s => (Ok (match csv_file s with Some _ => true | None => false end), s).

(** [df.to_csv(csv_path, mode='a', header=header, index=False,
    encoding='utf-8')]: the file is opened for appending, which creates it
    if it is missing, and the lines are written. A fault in opening leaves
    the file as it was; a later one leaves it created, with the lines
    written so far. *)
Definition to_csv (W : World) (df : DataFrame) (header : bool) : M unit :=
  emit (EvToCsv header df) ;;
  fun s =>
    let appended lines :=
      mk_state (log s) (trace s) (db_table s)
               (Some (match csv_file s with
                      | Some ls => ls ++ lines
                      | None => lines
                      end)) in
    match to_csv_fault W df with
    | Some e =>
        (Raise e,
         match to_csv_flushed W df with
         | None => s
         | Some k => appended (firstn k (lines_of header df))
         end)
    | None => (Ok tt, appended (lines_of header df))
    end.

Definition date_of_cell (v : cell) : option Z :=
  match v with VDate d => Some d | _ => None end.

Definition max_opt (a : option Z) (b : option Z) : option Z :=
  match a, b with
  | Some x, Some y => Some (Z.max x y)
  | Some x, None => Some x
  | None, b => b
  end.

Fixpoint cell_of (name : string) (r : row) : option cell :=
  match r with
  | [] => None
  | (n, v) :: rest => if String.eqb n name then Some v else cell_of name rest
  end.

Definition row_date (r : row) : option Z :=
  match cell_of "Date" r with
  | Some v => date_of_cell v
  | None => None
  end.

(** The aggregate [MAX("Date")] over the rows: [None] is SQL's [NULL]. *)
Definition max_date (rows : list row) : option Z :=
  fold_right (fun r acc => max_opt (row_date r) acc) None rows.

(** [conn.execute(text('SELECT MAX("Date") FROM public.currency_rates')).scalar()] *)
Definition select_max_date (W : World) : M (option Z) :=
  fun s =>
    match query_fault W with
    | Some e => (Raise e, s)
    | None =>
        match db_table s with
        | None => (Raise (mk_exn ProgrammingError
                                 "relation public.currency_rates does not exist"), s)
        | Some rows => (Ok (max_date rows), s)
        end
    end.

(** [conn.execute(text('SELECT 1 FROM public.currency_rates WHERE date =
    :date LIMIT 1'), {'date': date}).scalar()]: [1] when some row has the
    date in its column [date], [None] when none has; the unquoted name is
    the lower-case column, and a table without it is an error. The round
    trip can fail as the one of the [MAX] query does. *)
Definition select_one_where_date (W : World) (date : Z) : M (option Z) :=
  fun s =>
    match query_fault W with
    | Some e => (Raise e, s)
    | None =>
        match db_table s with
        | None => (Raise (mk_exn ProgrammingError
                                 "relation public.currency_rates does not exist"), s)
        | Some rows =>
            if forallb (fun r => match cell_of "date" r with
                                 | Some _ => true
                                 | None => false
                                 end) rows
            then (Ok (if existsb (fun r => match cell_of "date" r with
                                           | Some (VDate d) => d =? date
                                           | _ => false
                                           end) rows
                      then Some 1 else None), s)
            else (Raise (mk_exn ProgrammingError "column date does not exist"), s)
        end
    end.

(** [requests.get(url, timeout=10, verify=False)] followed by
    [response.raise_for_status()] and [response.text]: the body of a
    response whose status is not a client or server error. *)
Definition response_text (W : World) (url : string) : result string :=
  match requests_get W url with
  | HttpFails e => Raise e
  | HttpResponse status text =>
      if (400 <=? status) && (status <? 600)
      then Raise (mk_exn HTTPError "Client or Server Error for url")
      else Ok text
  end.

Definition http_get_text (W : World) (url : string) : M string :=
  emit (EvGet url) ;;
  lift (response_text W url).

Definition cbr_url (date_str : string) : string :=
  ("https://www.cbr.ru/scripts/XML_daily.asp?date_req=" ++ date_str)%string.

Definition out_columns : list string :=
  ["Date"; "CurrencyCode"; "CurrencyName"; "Nominal"; "Value"; "Rate"].

Definition renaming : list (string * string) :=
  [("CharCode", "CurrencyCode"); ("Name", "CurrencyName")].

(** The processing steps shared by both loaders, after the [Date] column
    is set: lines 88-95 of [currency_api.py], 62-69 of
    [currency_api_date.py]. *)
Definition transform (W : World) (df : DataFrame) : result DataFrame :=
  value <~ Pandas.getitem df "Value" ;;
  replaced <~ Pandas.str_replace "," "." value ;;
  value <~ Pandas.astype_float (py_float W) replaced ;;
  let df := Pandas.setitem df "Value" value in
  nominal <~ Pandas.getitem df "Nominal" ;;
  nominal <~ Pandas.astype_int (py_int W) nominal ;;
  let df := Pandas.setitem df "Nominal" nominal in
  v <~ Pandas.getitem df "Value" ;;
  n <~ Pandas.getitem df "Nominal" ;;
  rate <~ Pandas.truediv v n ;;
  let df := Pandas.setitem df "Rate" rate in
  Pandas.select out_columns (Pandas.rename renaming df).

(* ------------------------------------------------------------------ *)
(** ** [currency_api.py]: the incremental loader *)

Module Incremental.

Definition get_db_engine (W : World) : M (option Engine) :=
  try_except
    (lift (match connect_fault W with
           | Some e => Raise e
           | None => Ok tt
           end) ;;
     logger INFO [Lit "Подключение к PostgreSQL успешно"] ;;
     ret (Some PgEngine))
    (fun e =>
       match exn_class_of e with
       | OperationalError =>
           logger ERROR [Lit "Ошибка подключения (сервер недоступен): "; FExn e]
       | ProgrammingError =>
           if contains "password authentication failed" (exn_msg e) then
             logger ERROR [Lit "Неверный логин/пароль PostgreSQL"]
           else if contains "database" (exn_msg e)
                   && contains "does not exist" (exn_msg e) then
             logger ERROR
               [Lit "База данных не существует. Создайте базу данных currency_rates"]
           else logger ERROR [Lit "SQL ошибка: "; FExn e]
       | _ => logger ERROR [Lit "Неизвестная ошибка: "; FExn e; FTraceback e]
       end ;;
       ret None).

(** [datetime.now().date() - timedelta(days=1)] *)
Definition yesterday (W : World) : M Z := lift (Calendar.add_days (now_date W) (-1)).

Definition get_last_loaded_date (W : World) (engine : option Engine) : M Z :=
  try_except
    (match engine with
     | None => raise (mk_exn AttributeError
                             "'NoneType' object has no attribute 'connect'")
     | Some _ =>
         last_date <- select_max_date W ;;
         match last_date with
         | Some d => ret d
         | None => yesterday W
         end
     end)
    (fun e =>
       logger ERROR [Lit "Ошибка получения последней даты: "; FExn e] ;;
       yesterday W).

Definition get_cbr_rates (W : World) (date_req : option Z) : M DataFrame :=
  try_except
    (let date_str :=
       Calendar.strftime_dmY (match date_req with
                              | Some d => d
                              | None => now_date W
                              end) in
     let url := cbr_url date_str in
     text <- http_get_text W url ;;
     df <- lift (read_xml W text) ;;
     d <- lift (Calendar.strptime_dmY date_str) ;;
     let df := Pandas.setitem_scalar df "Date" (VDate d) in
     lift (transform W df))
    (fun e =>
       logger ERROR [Lit "Ошибка получения данных ЦБ: "; FExn e] ;;
       ret empty_frame).

Definition save_data (W : World) (df : DataFrame) (engine : option Engine) : M bool :=
  match engine with
  | Some _ =>
      try_except
        (to_sql W df ;;
         logger INFO [Lit "Данные сохранены в PostgreSQL ("; FNat (df_len df);
                      Lit " записей)"] ;;
         ret true)
        (fun e =>
           logger ERROR [Lit "Ошибка сохранения в PostgreSQL: "; FExn e] ;;
           ret false)
  | None =>
      try_except
        (present <- csv_exists ;;
         to_csv W df (negb present) ;;
         logger INFO [Lit "Данные сохранены в CSV: "; Lit "currency_backup.csv"] ;;
         ret true)
        (fun e =>
           logger ERROR [Lit "Ошибка сохранения в CSV: "; FExn e] ;;
           ret false)
  end.

(** The [for date in dates] loop of [main], [all_data] threaded through. *)
Fixpoint fetch_all (W : World) (dates : list Z) (all_data : list DataFrame)
  : M (list DataFrame) :=
  match dates with
  | [] => ret all_data
  | date :: rest =>
      df <- get_cbr_rates W (Some date) ;;
      if negb (df_empty df) then
        logger INFO [Lit "Получены данные за "; FDate date] ;;
        fetch_all W rest (all_data ++ [df])
      else fetch_all W rest all_data
  end.

(** The body of the [try] block of [main]. *)
Definition main_body (W : World) : M unit :=
  engine <- get_db_engine W ;;
  match engine with
  | None => logger ERROR
              [Lit "Не удалось подключиться к БД, используем резервное сохранение"]
  | Some _ => ret tt
  end ;;
  last_date <- match engine with
               | Some _ => get_last_loaded_date W engine
               | None => yesterday W
               end ;;
  start_date <- lift (Calendar.add_days last_date 1) ;;
  let end_date := now_date W in
  if end_date <? start_date then
    logger INFO [Lit "Нет новых данных для загрузки (последняя дата: ";
                 FDate last_date; Lit ")"]
  else
    logger INFO [Lit "Загрузка данных с "; FDate start_date; Lit " по ";
                 FDate end_date] ;;
    let dates := Calendar.date_range start_date end_date in
    all_data <- fetch_all W dates [] ;;
    match all_data with
    | [] => logger WARNING [Lit "Нет новых данных для сохранения"]
    | _ =>
        final_df <- lift (Pandas.concat all_data) ;;
        save_data W final_df engine ;;
        ret tt
    end.

Definition main (W : World) : M unit :=
  try_except
    (main_body W)
    (fun e => logger CRITICAL [Lit "Критическая ошибка: "; FExn e; FTraceback e]).

Definition check_data_exists (W : World) (engine : option Engine) (date : Z) : M bool :=
  try_except
    (match engine with
     | None => raise (mk_exn AttributeError
                             "'NoneType' object has no attribute 'connect'")
     | Some _ =>
         found <- select_one_where_date W date ;;
         ret (match found with
              | Some _ => true
              | None => false
              end)
     end)
    (fun _ => ret false).

End Incremental.

(* ------------------------------------------------------------------ *)
(** ** [currency_api_date.py]: the historical backfill *)

Module Backfill.

Definition get_db_engine (W : World) : M (option Engine) :=
  try_except
    (lift (match connect_fault W with
           | Some e => Raise e
           | None => Ok tt
           end) ;;
     logger INFO [Lit "Подключение к PostgreSQL успешно"] ;;
     ret (Some PgEngine))
    (fun e =>
       logger ERROR [Lit "Ошибка подключения: "; FExn e] ;;
       ret None).

Definition get_cbr_rates (W : World) (date_req : Z) : M DataFrame :=
  try_except
    (let date_str := Calendar.strftime_dmY date_req in
     let url := cbr_url date_str in
     text <- http_get_text W url ;;
     df <- lift (read_xml W text) ;;
     let df := Pandas.setitem_scalar df "Date" (VDate date_req) in
     lift (transform W df))
    (fun e =>
       logger ERROR [Lit "Ошибка получения данных за "; FDate date_req; Lit ": ";
                     FExn e] ;;
       ret empty_frame).

(** [df['Date'].iloc[0]] *)
Definition first_date (df : DataFrame) : result cell :=
  c <~ Pandas.getitem df "Date" ;;
  match column_cells c with
  | v :: _ => Ok v
  | [] => Raise (mk_exn OtherException "single positional indexer is out-of-bounds")
  end.

Definition save_data (W : World) (df : DataFrame) (engine : Engine) : M bool :=
  try_except
    (to_sql W df ;;
     v <- lift (first_date df) ;;
     logger INFO [Lit "Сохранено "; FNat (df_len df); Lit " записей за "; FCell v] ;;
     ret true)
    (fun e =>
       logger ERROR [Lit "Ошибка сохранения: "; FExn e] ;;
       ret false).

(** How the process ends: [main] returns, or [sys.exit(code)]. *)
Inductive ending := Returned | SysExit (code : Z).

Definition start_date : Z := Eval cbv in Calendar.ymd2ord 2000 1 2.
Definition end_date : Z := Eval cbv in Calendar.ymd2ord 2015 6 24.

(** The [for date in dates] loop of [main]. *)
Fixpoint load_all (W : World) (engine : Engine) (dates : list Z) : M unit :=
  match dates with
  | [] => ret tt
  | date :: rest =>
      df <- get_cbr_rates W date ;;
      (if negb (df_empty df) then
         saved <- save_data W df engine ;;
         if negb saved then
           logger WARNING [Lit "Пропуск данных за "; FDate date;
                           Lit " из-за ошибки сохранения"]
         else ret tt
       else logger WARNING [Lit "Нет данных за "; FDate date]) ;;
      emit EvSleep ;;
      load_all W engine rest
  end.

Definition main (W : World) : M ending :=
  engine <- get_db_engine W ;;
  match engine with
  | None => ret (SysExit 1)
  | Some engine =>
      logger INFO [Lit "Начинаем загрузку данных с "; FDate start_date; Lit " по ";
                   FDate end_date] ;;
      let dates := Calendar.date_range start_date end_date in
      load_all W engine dates ;;
      logger INFO [Lit "Загрузка исторических данных завершена"] ;;
      ret Returned
  end.

End Backfill.

(* ------------------------------------------------------------------ *)
(** ** Vocabulary of the statements *)

(** [p] holds of [k] consecutive integers from [lo]. *)
Fixpoint all_from (k : nat) (lo : Z) (p : Z -> bool) : bool :=
  match k with
  | O => true
  | S k' => if p lo then all_from k' (lo + 1) p else false
  end.

(** The day [r + 1] of the first 400-year cycle converts to a valid
    year, month and day, and back. *)
Definition cycle_ok (r : Z) : bool :=
  let '(y, m, d) := Calendar.ord2ymd (r + 1) in
  (Calendar.ymd2ord y m d =? r + 1)
  && (1 <=? y) && (y <=? 400)
  && (1 <=? m) && (m <=? 12)
  && (1 <=? d) && (d <=? Calendar.days_in_month y m)
  && ((145730 <? r) || (y <=? 399)).

Definition valid_ymd (n : Z) (ymd : Z * Z * Z) : Prop :=
  let '(y, m, d) := ymd in
  Calendar.ymd2ord y m d = n /\ 1 <= y <= 9999 /\ 1 <= m <= 12
  /\ 1 <= d <= Calendar.days_in_month y m.

(** A date of [datetime.date]'s range. *)
Definition valid_date (d : Z) : Prop := 1 <= d <= Calendar.MAXORDINAL.

(** [date.year] *)
Definition year_of (d : Z) : Z := fst (fst (Calendar.ord2ymd d)).

Definition add_log (r : log_record) (s : State) : State :=
  mk_state (log s ++ [r]) (trace s) (db_table s) (csv_file s).

Definition add_event (ev : event) (s : State) : State :=
  mk_state (log s) (trace s ++ [ev]) (db_table s) (csv_file s).

(** What the [try] block of [get_cbr_rates] computes for a date, in each
    loader. *)
Definition parse_incremental (W : World) (date : Z) : result DataFrame :=
  let date_str := Calendar.strftime_dmY date in
  text <~ response_text W (cbr_url date_str) ;;
  df <~ read_xml W text ;;
  d <~ Calendar.strptime_dmY date_str ;;
  transform W (Pandas.setitem_scalar df "Date" (VDate d)).

Definition parse_backfill (W : World) (date : Z) : result DataFrame :=
  text <~ response_text W (cbr_url (Calendar.strftime_dmY date)) ;;
  df <~ read_xml W text ;;
  transform W (Pandas.setitem_scalar df "Date" (VDate date)).

Definition frame_or_empty (r : result DataFrame) : DataFrame :=
  match r with
  | Ok df => df
  | Raise _ => empty_frame
  end.


Definition fetch_error_record (e : exn) : log_record :=
  (ERROR, [Lit "Ошибка получения данных ЦБ: "; FExn e]).

Definition fetch_error_record_for (date : Z) (e : exn) : log_record :=
  (ERROR, [Lit "Ошибка получения данных за "; FDate date; Lit ": "; FExn e]).

(** The date a call of the incremental [get_cbr_rates] asks for. *)
Definition requested (W : World) (date_req : option Z) : Z :=
  match date_req with
  | Some d => d
  | None => now_date W
  end.

Definition request_of (date : Z) : event := EvGet (cbr_url (Calendar.strftime_dmY date)).

Definition int64 (z : Z) : Prop := - 2 ^ 63 <= z <= 2 ^ 63 - 1.

(** The integer a raw [Nominal] value stands for: an integer is itself, a
    finite float is cut towards zero, a string is what Python's [int]
    reads in it. *)
Inductive nominal_of (W : World) : cell -> Z -> Prop :=
| NominalInt (z : Z) : nominal_of W (VInt z) z
| NominalFloat (f : float) (z : Z) :
    Pandas.float_trunc f = Some z -> nominal_of W (VFloat f) z
| NominalStr (s : string) (z : Z) :
    py_int W s = Some z -> nominal_of W (VStr s) z.

(** [z'] is the [int64] the integer [z] becomes: [z] itself when it fits,
    and otherwise, for a value of a [uint64] column, the one that differs
    from it by a multiple of [2^64]. *)
Definition wraps_to (z z' : Z) : Prop := int64 z' /\ exists k, z' = z + k * 2 ^ 64.

(** The integers a [Nominal] column stands for, dtype by dtype: an
    integer column is cast, a float column is cut towards zero, an object
    column is read value by value; in the last two every integer has to
    fit [int64]. *)
Definition coerced (W : World) (c : column) (noms : list Z) : Prop :=
  match c with
  | ColInt l => Forall2 wraps_to l noms
  | ColFloat l => Forall2 (fun f z => Pandas.float_trunc f = Some z /\ int64 z) l noms
  | ColObj l => Forall2 (fun v z => nominal_of W v z /\ int64 z) l noms
  end.

(** A provider table as the contract describes it: distinct labels, the
    four provider fields present, [Value] a column of strings each of which
    is a number once its comma is a dot, [Nominal] a column, of any dtype,
    of values that stand for integers, and no column already carrying a
    canonical name. *)
Record provider_frame (W : World) (df : DataFrame) (codes names nominal : column)
       (noms : list Z) (raw : list string) (vals : list float) : Prop := {
  pf_distinct : Pandas.distinct (column_names df) = true;
  pf_code : Pandas.lookup "CharCode" (columns df) = Some codes;
  pf_name : Pandas.lookup "Name" (columns df) = Some names;
  pf_nominal : Pandas.lookup "Nominal" (columns df) = Some nominal;
  pf_nominal_int : coerced W nominal noms;
  pf_value : Pandas.lookup "Value" (columns df) = Some (ColObj (map VStr raw));
  pf_parse :
    map (fun s => py_float W (Pandas.replace_char "," "." s)) raw = map Some vals;
  pf_no_code : existsb (String.eqb "CurrencyCode") (column_names df) = false;
  pf_no_name : existsb (String.eqb "CurrencyName") (column_names df) = false
}.

(** [rate = face_value / nominal], record by record. *)
Definition rates (vals : list float) (noms : list Z) : list float :=
  Pandas.zip_with (fun v k => PrimFloat.div v (Pandas.Z_to_float k)) vals noms.

(** The canonical table of a day. *)
Definition canonical_frame (n : nat) (date : Z) (codes names : column)
           (noms : list Z) (vals : list float) : DataFrame :=
  mk_df n [("Date", ColObj (repeat (VDate date) n));
           ("CurrencyCode", codes);
           ("CurrencyName", names);
           ("Nominal", ColInt noms);
           ("Value", ColFloat vals);
           ("Rate", ColFloat (rates vals noms))].

(* ------------------------------------------------------------------ *)
(** ** Sample worlds, for concrete runs *)

Definition day_2024_01_04 : Z := Eval cbv in Calendar.ymd2ord 2024 1 4.
Definition day_2024_01_05 : Z := Eval cbv in Calendar.ymd2ord 2024 1 5.
Definition day_2024_02_29 : Z := Eval cbv in Calendar.ymd2ord 2024 2 29.
Definition day_2024_03_01 : Z := Eval cbv in Calendar.ymd2ord 2024 3 1.
Definition day_2024_03_02 : Z := Eval cbv in Calendar.ymd2ord 2024 3 2.
Definition day_2024_03_03 : Z := Eval cbv in Calendar.ymd2ord 2024 3 3.

(** A provider table of two currencies. *)
Definition sample_frame : DataFrame :=
  mk_df 2 [("ID", ColObj [VStr "R01235"; VStr "R01820"]);
           ("NumCode", ColInt [840; 392]);
           ("CharCode", ColObj [VStr "USD"; VStr "JPY"]);
           ("Nominal", ColInt [1; 100]);
           ("Name", ColObj [VStr "US Dollar"; VStr "Yen"]);
           ("Value", ColObj [VStr "90,50"; VStr "25,00"])].

Definition sample_float (s : string) : option float :=
  if String.eqb s "90.50" then Some 90.5%float
  else if String.eqb s "25.00" then Some 25%float
  else None.

Definition timeout : exn := mk_exn RequestException "Read timed out".

(** A world in which the provider answers with [sample_frame], except on
    the days in [down], when the request times out. *)
Definition sample_world (today : Z) (down : list Z)
           (connect query sql csv : option exn) : World :=
  {| now_date := today;
     connect_fault := connect;
     query_fault := query;
     requests_get := fun url =>
       if existsb (fun d => String.eqb url (cbr_url (Calendar.strftime_dmY d))) down
       then HttpFails timeout
       else HttpResponse 200 "<ValCurs/>";
     read_xml := fun _ => Ok sample_frame;
     py_float := sample_float;
     py_int := fun _ => None;
     to_sql_fault := fun _ => sql;
     to_csv_fault := fun _ => csv;
     to_csv_flushed := fun _ => None |}.

Definition initial_state : State := mk_state [] [] None None.

(** The same provider table with [Nominal] read as text and as floats. *)
Definition sample_frame_text : DataFrame :=
  mk_df 2 [("ID", ColObj [VStr "R01235"; VStr "R01820"]);
           ("NumCode", ColInt [840; 392]);
           ("CharCode", ColObj [VStr "USD"; VStr "JPY"]);
           ("Nominal", ColObj [VStr "1"; VStr "100"]);
           ("Name", ColObj [VStr "US Dollar"; VStr "Yen"]);
           ("Value", ColObj [VStr "90,50"; VStr "25,00"])].

Definition sample_frame_float : DataFrame :=
  mk_df 2 [("ID", ColObj [VStr "R01235"; VStr "R01820"]);
           ("NumCode", ColInt [840; 392]);
           ("CharCode", ColObj [VStr "USD"; VStr "JPY"]);
           ("Nominal", ColFloat [1%float; 100.5%float]);
           ("Name", ColObj [VStr "US Dollar"; VStr "Yen"]);
           ("Value", ColObj [VStr "90,50"; VStr "25,00"])].

(** The same with a [Nominal] beyond [int64], read as [uint64]. *)
Definition sample_frame_uint64 : DataFrame :=
  mk_df 2 [("ID", ColObj [VStr "R01235"; VStr "R01820"]);
           ("NumCode", ColInt [840; 392]);
           ("CharCode", ColObj [VStr "USD"; VStr "JPY"]);
           ("Nominal", ColInt [1; 2 ^ 63]);
           ("Name", ColObj [VStr "US Dollar"; VStr "Yen"]);
           ("Value", ColObj [VStr "90,50"; VStr "25,00"])].

Definition sample_int (s : string) : option Z :=
  if String.eqb s "1" then Some 1
  else if String.eqb s "100" then Some 100
  else None.

(** The world [W], except that the provider's table is [df] and [int]
    reads the sample numerals. *)
Definition with_frame (df : DataFrame) (W : World) : World :=
  {| now_date := now_date W;
     connect_fault := connect_fault W;
     query_fault := query_fault W;
     requests_get := requests_get W;
     read_xml := fun _ => Ok df;
     py_float := py_float W;
     py_int := sample_int;
     to_sql_fault := to_sql_fault W;
     to_csv_fault := to_csv_fault W;
     to_csv_flushed := to_csv_flushed W |}.

(** The world [W], except that [to_csv] fails with [e] once the file is
    open and [k] lines are written. *)
Definition failing_midway (e : exn) (k : nat) (W : World) : World :=
  {| now_date := now_date W;
     connect_fault := connect_fault W;
     query_fault := query_fault W;
     requests_get := requests_get W;
     read_xml := read_xml W;
     py_float := py_float W;
     py_int := py_int W;
     to_sql_fault := to_sql_fault W;
     to_csv_fault := fun _ => Some e;
     to_csv_flushed := fun _ => Some k |}.

(* ------------------------------------------------------------------ *)
(** ** Vocabulary of the statements about persistence and the run *)

Definition add_logs (rs : list log_record) (s : State) : State :=
  mk_state (log s ++ rs) (trace s) (db_table s) (csv_file s).

Definition add_events (evs : list event) (s : State) : State :=
  mk_state (log s) (trace s ++ evs) (db_table s) (csv_file s).

(** The state once [rows] are appended to the table. *)
Definition append_rows (rows : list row) (s : State) : State :=
  mk_state (log s) (trace s)
           (Some (match db_table s with
                  | Some old => old ++ rows
                  | None => rows
                  end))
           (csv_file s).

(** The state once [lines] are appended to the fallback file. *)
Definition append_lines (lines : list csv_line) (s : State) : State :=
  mk_state (log s) (trace s) (db_table s)
           (Some (match csv_file s with
                  | Some old => old ++ lines
                  | None => lines
                  end)).

Definition file_exists (s : State) : bool :=
  match csv_file s with Some _ => true | None => false end.

(** The fault, if any, of the write [save_data] of the incremental loader
    attempts: on the store with a live engine, on the file without. *)
Definition write_fault (W : World) (df : DataFrame) (engine : option Engine)
  : option exn :=
  match engine with
  | Some _ => to_sql_fault W df
  | None => to_csv_fault W df
  end.

Definition sql_saved_record (df : DataFrame) : log_record :=
  (INFO, [Lit "Данные сохранены в PostgreSQL ("; FNat (df_len df); Lit " записей)"]).

Definition sql_error_record (e : exn) : log_record :=
  (ERROR, [Lit "Ошибка сохранения в PostgreSQL: "; FExn e]).

Definition csv_saved_record : log_record :=
  (INFO, [Lit "Данные сохранены в CSV: "; Lit "currency_backup.csv"]).

Definition csv_error_record (e : exn) : log_record :=
  (ERROR, [Lit "Ошибка сохранения в CSV: "; FExn e]).

Definition save_error_record (e : exn) : log_record :=
  (ERROR, [Lit "Ошибка сохранения: "; FExn e]).

Definition saved_record (df : DataFrame) (v : cell) : log_record :=
  (INFO, [Lit "Сохранено "; FNat (df_len df); Lit " записей за "; FCell v]).

Definition level_of (r : log_record) : level := fst r.

(** A run of fallback writes, one call of [save_data] without an engine per
    run of the loader, the file carried from one run to the next. *)
Fixpoint fallback_writes (calls : list (World * DataFrame)) (s : State) : State :=
  match calls with
  | [] => s
  | (W, df) :: rest => fallback_writes rest (snd (Incremental.save_data W df None s))
  end.

Definition is_header (l : csv_line) : bool :=
  match l with CsvHeader _ => true | CsvRow _ => false end.

Definition header_count (lines : list csv_line) : nat :=
  List.length (filter is_header lines).

Definition written (c : World * DataFrame) : bool :=
  match to_csv_fault (fst c) (snd c) with
  | None => true
  | Some _ => false
  end.

(** A fallback write that gets as far as opening the file, and so creates
    it when it is missing. *)
Definition opens_file (c : World * DataFrame) : bool :=
  match to_csv_fault (fst c) (snd c), to_csv_flushed (fst c) (snd c) with
  | Some _, None => false
  | _, _ => true
  end.

(** A fallback write that does not fail midway: it goes through, or fails
    before the file is opened. *)
Definition clean (c : World * DataFrame) : bool := written c || negb (opens_file c).

Definition disk_full : exn := mk_exn OSError "No space left on device".
Definition server_gone : exn := mk_exn OperationalError "server closed the connection".

(* ------------------------------------------------------------------ *)
(** ** Vocabulary of the statements about the watermark and the run *)

(** The clock shows a date that has a day before it. *)
Definition clock_ok (W : World) : Prop := 1 < now_date W <= Calendar.MAXORDINAL.

Definition connected_record : log_record :=
  (INFO, [Lit "Подключение к PostgreSQL успешно"]).

(** The record the incremental [get_db_engine] logs for a failure. *)
Definition connect_error_record (e : exn) : log_record :=
  match exn_class_of e with
  | OperationalError =>
      (ERROR, [Lit "Ошибка подключения (сервер недоступен): "; FExn e])
  | ProgrammingError =>
      if contains "password authentication failed" (exn_msg e) then
        (ERROR, [Lit "Неверный логин/пароль PostgreSQL"])
      else if contains "database" (exn_msg e) && contains "does not exist" (exn_msg e) then
        (ERROR, [Lit "База данных не существует. Создайте базу данных currency_rates"])
      else (ERROR, [Lit "SQL ошибка: "; FExn e])
  | _ => (ERROR, [Lit "Неизвестная ошибка: "; FExn e; FTraceback e])
  end.

Definition connect_error_record_backfill (e : exn) : log_record :=
  (ERROR, [Lit "Ошибка подключения: "; FExn e]).

Definition no_engine_record : log_record :=
  (ERROR, [Lit "Не удалось подключиться к БД, используем резервное сохранение"]).

Definition watermark_error_record (e : exn) : log_record :=
  (ERROR, [Lit "Ошибка получения последней даты: "; FExn e]).

(** The engine [get_db_engine] hands back. *)
Definition engine_of (W : World) : option Engine :=
  match connect_fault W with
  | None => Some PgEngine
  | Some _ => None
  end.

Definition no_table : exn :=
  mk_exn ProgrammingError "relation public.currency_rates does not exist".

(** The outcome of the [MAX] query: the aggregate, or the error raised. *)
Definition max_query (W : World) (s : State) : result (option Z) :=
  match query_fault W with
  | Some e => Raise e
  | None =>
      match db_table s with
      | None => Raise no_table
      | Some rows => Ok (max_date rows)
      end
  end.

(** [m] is the greatest date of the rows. *)
Definition greatest_date (rows : list row) (m : Z) : Prop :=
  (exists r, In r rows /\ row_date r = Some m)
  /\ forall r d, In r rows -> row_date r = Some d -> d <= m.

(** What the incremental [get_cbr_rates] returns for a date. *)
Definition fetched_incremental (W : World) (date : Z) : DataFrame :=
  frame_or_empty (parse_incremental W date).

Definition fetched_backfill (W : World) (date : Z) : DataFrame :=
  frame_or_empty (parse_backfill W date).

Definition nonempty (df : DataFrame) : bool := negb (df_empty df).

Definition got_record (date : Z) : log_record :=
  (INFO, [Lit "Получены данные за "; FDate date]).

(** The records the loop of the incremental [main] logs for a date. *)
Definition fetch_log (W : World) (date : Z) : list log_record :=
  match parse_incremental W date with
  | Ok df => if nonempty df then [got_record date] else []
  | Raise e => [fetch_error_record e]
  end.

(** The tables the loop of the incremental [main] accumulates over
    [dates]: the non-empty ones, in the order of the dates. *)
Definition batch (W : World) (dates : list Z) : list DataFrame :=
  filter nonempty (map (fetched_incremental W) dates).

(** The watermark a run resolves: the greatest persisted date when the
    engine is live and the query answers with one, yesterday otherwise. *)
Definition watermark (W : World) (s : State) : Z :=
  match engine_of W with
  | None => now_date W - 1
  | Some _ =>
      match max_query W s with
      | Ok (Some d) => d
      | _ => now_date W - 1
      end
  end.

Definition watermark_logs (W : World) (s : State) : list log_record :=
  match connect_fault W with
  | Some e => [connect_error_record e; no_engine_record]
  | None =>
      connected_record
        :: match max_query W s with
           | Raise e => [watermark_error_record e]
           | Ok _ => []
           end
  end.

Definition no_new_record (last_date : Z) : log_record :=
  (INFO, [Lit "Нет новых данных для загрузки (последняя дата: "; FDate last_date;
          Lit ")"]).

Definition loading_record (start_date end_date : Z) : log_record :=
  (INFO, [Lit "Загрузка данных с "; FDate start_date; Lit " по "; FDate end_date]).

Definition nothing_record : log_record :=
  (WARNING, [Lit "Нет новых данных для сохранения"]).

Definition critical_record (e : exn) : log_record :=
  (CRITICAL, [Lit "Критическая ошибка: "; FExn e; FTraceback e]).

(** The state after the loop of the incremental [main] over [dates]. *)
Definition after_fetches (W : World) (dates : list Z) (s : State) : State :=
  add_logs (flat_map (fetch_log W) dates) (add_events (map request_of dates) s).

Definition is_request (ev : event) : bool :=
  match ev with EvGet _ => true | _ => false end.

Definition is_write (ev : event) : bool :=
  match ev with EvToSql _ | EvToCsv _ _ => true | _ => false end.

(** The requests sent to the provider, and the write attempts, of a trace. *)
Definition requests (t : list event) : list event := filter is_request t.
Definition writes (t : list event) : list event := filter is_write t.

(** A stored record of the given date. *)
Definition stored_row (date : Z) (code : string) : row :=
  [("Date", VDate date); ("CurrencyCode", VStr code)].

(** The last record of a log. *)
Definition last_record (l : list log_record) : option log_record :=
  match rev l with
  | [] => None
  | r :: _ => Some r
  end.

(** The table after [frames] are appended one by one. *)
Definition extend_table (db : option (list row)) (frames : list DataFrame)
  : option (list row) :=
  fold_left (fun db df => Some (match db with
                                | Some old => old ++ rows_of df
                                | None => rows_of df
                                end))
            frames db.

(** The tables the backfill hands to [to_sql] over [dates], and those of
    them that are stored. *)
Definition attempted (W : World) (dates : list Z) : list DataFrame :=
  filter nonempty (map (fetched_backfill W) dates).

Definition stored (W : World) (dates : list Z) : list DataFrame :=
  filter (fun df => match to_sql_fault W df with None => true | Some _ => false end)
         (attempted W dates).

Definition table_rows (s : State) : list row :=
  match db_table s with
  | Some rows => rows
  | None => []
  end.

Definition backfill_done_record : log_record :=
  (INFO, [Lit "Загрузка исторических данных завершена"]).


(** Tables of one shape: every column as long as the index, and, column by
    column, the same label and the same dtype. *)
Definition well_formed (df : DataFrame) : bool :=
  forallb (fun nc => Nat.eqb (column_len (snd nc)) (index_len df)) (columns df).

Definition same_dtype (a b : column) : bool :=
  match a, b with
  | ColInt _, ColInt _ | ColFloat _, ColFloat _ | ColObj _, ColObj _ => true
  | _, _ => false
  end.

Fixpoint alike_cols (x y : list (string * column)) : bool :=
  match x, y with
  | [], [] => true
  | (n, c) :: x', (m, d) :: y' => String.eqb n m && same_dtype c d && alike_cols x' y'
  | _, _ => false
  end.

Definition alike (a b : DataFrame) : bool := alike_cols (columns a) (columns b).

Definition uniform (frames : list DataFrame) : Prop :=
  match frames with
  | [] => True
  | f :: fs =>
      well_formed f = true
      /\ Forall (fun x => well_formed x = true /\ alike f x = true) fs
  end.

(** The record at position [i] of a list of columns. *)
Definition cells_at (i : nat) (cols : list (string * column)) : row :=
  map (fun nc => (fst nc, nth i (column_cells (snd nc)) (VFloat nan))) cols.

(** Successive incremental runs, the store and the file carried from one
    to the next. *)
Fixpoint run_all (worlds : list World) (s : State) : State :=
  match worlds with
  | [] => s
  | W :: rest => run_all rest (snd (Incremental.main W s))
  end.

(** The records of a table, read off its columns: record [i] holds, label
    by label, the [i]-th value of each column. *)
Definition records (df : DataFrame) : list row :=
  map (fun i => cells_at i (columns df)) (seq 0 (index_len df)).

(** The line of the fallback file for a record: its values in the order
    of the columns. *)
Definition record_line (r : row) : csv_line := CsvRow (map snd r).

Definition record_lines (df : DataFrame) : list csv_line := map record_line (records df).

(** The dates of [dates] whose fetch yields a table, for each loader. *)
Definition yielding_incremental (W : World) (dates : list Z) : list Z :=
  filter (fun d => nonempty (fetched_incremental W d)) dates.

Definition yielding_backfill (W : World) (dates : list Z) : list Z :=
  filter (fun d => nonempty (fetched_backfill W d)) dates.

(** The dates of [dates] whose table the backfill stores: the fetch
    yields one and [to_sql] takes it. *)
Definition stored_dates (W : World) (dates : list Z) : list Z :=
  filter (fun d => match to_sql_fault W (fetched_backfill W d) with
                   | None => true
                   | Some _ => false
                   end)
         (yielding_backfill W dates).


(* ------------------------------------------------------------------ *)
(** ** Vocabulary of the further properties *)

(** The XML parser yields tables with distinct labels, none of them a
    canonical name the renaming introduces. *)
Definition parser_ok (W : World) : Prop :=
  forall text df,
    read_xml W text = Ok df ->
    Pandas.distinct (column_names df) = true
    /\ existsb (String.eqb "CurrencyCode") (column_names df) = false
    /\ existsb (String.eqb "CurrencyName") (column_names df) = false.

(** The events of one turn of the backfill loop: the request, the write of
    the table when the fetch gave one, the pause. *)
Definition visit (W : World) (date : Z) : list event :=
  request_of date
    :: (if nonempty (fetched_backfill W date)
        then [EvToSql (fetched_backfill W date)] else [])
    ++ [EvSleep].

Definition is_sleep (ev : event) : bool :=
  match ev with EvSleep => true | _ => false end.

Definition file_lines (s : State) : list csv_line :=
  match csv_file s with
  | Some lines => lines
  | None => []
  end.



(* ------------------------------------------------------------------ *)
(** ** Facts about the calendar *)

Lemma all_from_spec (p : Z -> bool) (k : nat) (lo : Z) :
  all_from k lo p = true ->
  forall x, lo <= x < lo + Z.of_nat k -> p x = true.
Proof.
  revert lo. induction k as [|k IH]; intros lo H x Hx; [lia|].
  simpl in H. destruct (p lo) eqn:E; [|discriminate].
  destruct (Z.eq_dec x lo) as [->|Hne]; [exact E|].
  apply (IH (lo + 1) H). lia.
Qed.

Lemma ord2ymd_shift (n k : Z) :
  0 <= n - 1 < Calendar.DI400Y ->
  Calendar.ord2ymd (n + Calendar.DI400Y * k) =
  let '(y, m, d) := Calendar.ord2ymd n in (y + 400 * k, m, d).
Proof.
  intros Hn. unfold Calendar.ord2ymd.
  replace (n + Calendar.DI400Y * k - 1) with ((n - 1) + k * Calendar.DI400Y) by lia.
  assert (HD : Calendar.DI400Y <> 0) by (unfold Calendar.DI400Y; lia).
  rewrite Z.div_add by exact HD. rewrite Z.mod_add by exact HD.
  rewrite (Z.div_small (n - 1)) by exact Hn.
  rewrite (Z.mod_small (n - 1)) by exact Hn.
  cbv zeta.
  repeat match goal with |- context [if ?b then _ else _] => destruct b end;
    f_equal; f_equal; lia.
Qed.

Lemma is_leap_shift (y k : Z) : Calendar.is_leap (y + 400 * k) = Calendar.is_leap y.
Proof.
  unfold Calendar.is_leap.
  replace (y + 400 * k) with (y + (100 * k) * 4) at 1 by lia.
  replace (y + 400 * k) with (y + (4 * k) * 100) at 1 by lia.
  replace (y + 400 * k) with (y + k * 400) by lia.
  rewrite !Z.mod_add by lia. reflexivity.
Qed.

Lemma ymd2ord_shift (y m d k : Z) :
  Calendar.ymd2ord (y + 400 * k) m d = Calendar.ymd2ord y m d + Calendar.DI400Y * k.
Proof.
  unfold Calendar.ymd2ord, Calendar.days_before_month, Calendar.days_before_year,
    Calendar.DI400Y.
  rewrite is_leap_shift. cbv zeta.
  replace (y + 400 * k - 1) with (y - 1 + (100 * k) * 4) at 2 by lia.
  replace (y + 400 * k - 1) with (y - 1 + (4 * k) * 100) at 2 by lia.
  replace (y + 400 * k - 1) with (y - 1 + k * 400) at 2 by lia.
  rewrite !Z.div_add by lia. lia.
Qed.

(** Every day of one 400-year cycle, checked by evaluation. *)
Lemma cycle_checked : all_from (Z.to_nat Calendar.DI400Y) 0 cycle_ok = true.
Proof. vm_cast_no_check (eq_refl true). Qed.

Lemma ord2ymd_valid (n : Z) : valid_date n -> valid_ymd n (Calendar.ord2ymd n).
Proof.
  intros Hn. unfold valid_date, Calendar.MAXORDINAL in Hn.
  set (k := (n - 1) / Calendar.DI400Y).
  set (r := (n - 1) mod Calendar.DI400Y).
  assert (Hr : 0 <= r < 146097) by (apply Z.mod_pos_bound; reflexivity).
  assert (Hsplit : n = (r + 1) + Calendar.DI400Y * k).
  { pose proof (Z.div_mod (n - 1) Calendar.DI400Y ltac:(discriminate)).
    subst k r. lia. }
  assert (Hk : 0 <= k <= 24).
  { split.
    - apply Z.div_pos; [lia | reflexivity].
    - enough (k < 25) by lia.
      apply Z.div_lt_upper_bound; [reflexivity | unfold Calendar.DI400Y; lia]. }
  assert (Hk24 : k = 24 -> r <= 145730).
  { intros E. unfold Calendar.DI400Y in Hsplit. lia. }
  pose proof (all_from_spec cycle_ok _ _ cycle_checked r) as Hc.
  rewrite Z2Nat.id in Hc by discriminate.
  specialize (Hc ltac:(unfold Calendar.DI400Y; lia)).
  rewrite Hsplit at 2. rewrite ord2ymd_shift by (unfold Calendar.DI400Y; lia).
  unfold cycle_ok in Hc.
  destruct (Calendar.ord2ymd (r + 1)) as [[y m] d].
  unfold valid_ymd.
  repeat (apply andb_prop in Hc; destruct Hc as [Hc ?]).
  rewrite ymd2ord_shift.
  unfold Calendar.days_in_month in *. rewrite is_leap_shift.
  apply Z.eqb_eq in Hc.
  repeat match goal with
         | H : (_ <=? _) = true |- _ => apply Z.leb_le in H
         | H : (_ || _) = true |- _ => apply orb_prop in H
         end.
  repeat split; lia.
Qed.

Lemma digit_val_digit (k : Z) : Calendar.digit_val (Calendar.digit k) = Some (k mod 10).
Proof.
  unfold Calendar.digit.
  pose proof (Z.mod_pos_bound k 10 ltac:(reflexivity)) as Hb.
  assert (H : k mod 10 = 0 \/ k mod 10 = 1 \/ k mod 10 = 2 \/ k mod 10 = 3
              \/ k mod 10 = 4 \/ k mod 10 = 5 \/ k mod 10 = 6 \/ k mod 10 = 7
              \/ k mod 10 = 8 \/ k mod 10 = 9) by lia.
  repeat (destruct H as [H | H]; [rewrite H; reflexivity|]).
  rewrite H. reflexivity.
Qed.

(** Parsing the formatted date gives the date back, from the year 1000
    on. *)
Lemma strptime_strftime (n : Z) :
  valid_date n -> 1000 <= year_of n ->
  Calendar.strptime_dmY (Calendar.strftime_dmY n) = Ok n.
Proof.
  intros Hn Hy4. pose proof (ord2ymd_valid n Hn) as Hv.
  unfold Calendar.strftime_dmY. unfold year_of in Hy4.
  destruct (Calendar.ord2ymd n) as [[y m] d]. cbn [fst] in Hy4.
  destruct Hv as (Hord & Hy & Hm & Hd).
  unfold Calendar.year_digits.
  replace (y <? 10) with false by (symmetry; apply Z.ltb_ge; lia).
  replace (y <? 100) with false by (symmetry; apply Z.ltb_ge; lia).
  replace (y <? 1000) with false by (symmetry; apply Z.ltb_ge; lia).
  assert (Hd31 : d <= 31).
  { unfold Calendar.days_in_month, Calendar.DAYS_IN_MONTH in Hd.
    destruct ((m =? 2) && Calendar.is_leap y); [lia|].
    assert (Hm' : m = 1 \/ m = 2 \/ m = 3 \/ m = 4 \/ m = 5 \/ m = 6 \/ m = 7
                  \/ m = 8 \/ m = 9 \/ m = 10 \/ m = 11 \/ m = 12) by lia.
    repeat (destruct Hm' as [-> | Hm']; [lia|]). subst m. lia. }
  unfold Calendar.strptime_dmY.
  rewrite !digit_val_digit.
  replace (10 * ((d / 10) mod 10) + d mod 10) with d
    by (Z.div_mod_to_equations; lia).
  replace (10 * ((m / 10) mod 10) + m mod 10) with m
    by (Z.div_mod_to_equations; lia).
  replace (1000 * ((y / 1000) mod 10) + 100 * ((y / 100) mod 10)
           + 10 * ((y / 10) mod 10) + y mod 10) with y
    by (Z.div_mod_to_equations; lia).
  replace ((1 <=? y) && (1 <=? m) && (m <=? 12) && (1 <=? d)
           && (d <=? Calendar.days_in_month y m)) with true.
  - rewrite Hord. reflexivity.
  - symmetry. rewrite !andb_true_iff, !Z.leb_le. lia.
Qed.

(** Below the year 1000 the formatted date is refused. *)
Lemma strptime_strftime_short (n : Z) :
  year_of n < 1000 ->
  Calendar.strptime_dmY (Calendar.strftime_dmY n)
  = Raise (mk_exn ValueError "time data does not match format").
Proof.
  unfold year_of, Calendar.strftime_dmY. intros Hy.
  destruct (Calendar.ord2ymd n) as [[y m] d]. cbn [fst] in Hy.
  unfold Calendar.year_digits.
  destruct (y <? 10); [reflexivity|].
  destruct (y <? 100); [reflexivity|].
  replace (y <? 1000) with true by (symmetry; apply Z.ltb_lt; lia).
  reflexivity.
Qed.

(** Whenever the formatted date parses, it parses to the date. *)
Lemma strptime_strftime_inv (n d : Z) :
  valid_date n -> Calendar.strptime_dmY (Calendar.strftime_dmY n) = Ok d -> d = n.
Proof.
  intros Hn H. destruct (Z_lt_le_dec (year_of n) 1000) as [Hy | Hy].
  - rewrite strptime_strftime_short in H by exact Hy. discriminate.
  - rewrite strptime_strftime in H by assumption. congruence.
Qed.

Lemma date_range_length (a b : Z) :
  List.length (Calendar.date_range a b) = Z.to_nat (b - a + 1).
Proof. unfold Calendar.date_range. rewrite length_map, length_seq. reflexivity. Qed.

Lemma date_range_In (a b d : Z) : In d (Calendar.date_range a b) <-> a <= d <= b.
Proof.
  unfold Calendar.date_range. rewrite in_map_iff. split.
  - intros (i & <- & Hi). apply in_seq in Hi. lia.
  - intros H. exists (Z.to_nat (d - a)). split; [lia|]. apply in_seq. lia.
Qed.

Lemma date_range_nth (a b : Z) (i : nat) :
  (i < Z.to_nat (b - a + 1))%nat ->
  nth i (Calendar.date_range a b) 0 = a + Z.of_nat i.
Proof.
  intros Hi. unfold Calendar.date_range.
  rewrite (nth_indep _ 0 (a + Z.of_nat 0)) by (rewrite length_map, length_seq; exact Hi).
  rewrite (map_nth (fun j => a + Z.of_nat j)), seq_nth by exact Hi. reflexivity.
Qed.

Lemma date_range_empty (a b : Z) : b < a -> Calendar.date_range a b = [].
Proof.
  intros H. unfold Calendar.date_range.
  replace (Z.to_nat (b - a + 1)) with O by lia. reflexivity.
Qed.

(* ------------------------------------------------------------------ *)
(** ** Running the fetch *)


Lemma lookup_set_col_same (n : string) (c : column) (cols : list (string * column)) :
  Pandas.lookup n (Pandas.set_col n c cols) = Some c.
Proof.
  induction cols as [|[m c0] cols IH]; simpl.
  - rewrite String.eqb_refl. reflexivity.
  - destruct (String.eqb m n) eqn:E; simpl; rewrite E; [reflexivity | exact IH].
Qed.

Lemma lookup_set_col_other (n n' : string) (c : column) (cols : list (string * column)) :
  n <> n' -> Pandas.lookup n' (Pandas.set_col n c cols) = Pandas.lookup n' cols.
Proof.
  intros Hne. induction cols as [|[m c0] cols IH]; simpl.
  - destruct (String.eqb_spec n n'); [contradiction | reflexivity].
  - destruct (String.eqb_spec m n) as [->|Hmn]; simpl.
    + destruct (String.eqb_spec n n'); [contradiction | reflexivity].
    + destruct (String.eqb m n'); [reflexivity | exact IH].
Qed.

Lemma get_cbr_rates_incremental_run (W : World) (date_req : option Z) (s : State) :
  Incremental.get_cbr_rates W date_req s =
  match parse_incremental W (requested W date_req) with
  | Ok df => (Ok df, add_event (request_of (requested W date_req)) s)
  | Raise e =>
      (Ok empty_frame,
       add_log (fetch_error_record e) (add_event (request_of (requested W date_req)) s))
  end.
Proof.
  unfold Incremental.get_cbr_rates, parse_incremental, requested, request_of,
    try_except, http_get_text, bind, emit, lift, and_then, logger, ret, add_log,
    add_event, fetch_error_record.
  simpl.
  destruct (response_text W _) as [text|e]; [|reflexivity].
  destruct (read_xml W text) as [df|e]; [|reflexivity].
  destruct (Calendar.strptime_dmY _) as [d|e]; [|reflexivity].
  destruct (transform W _) as [out|e]; reflexivity.
Qed.

Lemma get_cbr_rates_backfill_run (W : World) (date : Z) (s : State) :
  Backfill.get_cbr_rates W date s =
  match parse_backfill W date with
  | Ok df => (Ok df, add_event (request_of date) s)
  | Raise e =>
      (Ok empty_frame, add_log (fetch_error_record_for date e) (add_event (request_of date) s))
  end.
Proof.
  unfold Backfill.get_cbr_rates, parse_backfill, request_of,
    try_except, http_get_text, bind, emit, lift, and_then, logger, ret, add_log,
    add_event, fetch_error_record_for.
  simpl.
  destruct (response_text W _) as [text|e]; [|reflexivity].
  destruct (read_xml W text) as [df|e]; [|reflexivity].
  destruct (transform W _) as [out|e]; reflexivity.
Qed.




(* ------------------------------------------------------------------ *)
(** ** Columns by label *)

Lemma existsb_eqb_In (n : string) (l : list string) :
  existsb (String.eqb n) l = true <-> In n l.
Proof.
  rewrite existsb_exists. split.
  - intros (x & Hx & E). apply String.eqb_eq in E. subst. exact Hx.
  - intros H. exists n. split; [exact H | apply String.eqb_refl].
Qed.

Lemma existsb_eqb_not_In (n : string) (l : list string) :
  existsb (String.eqb n) l = false <-> ~ In n l.
Proof.
  rewrite <- existsb_eqb_In. destruct (existsb _ l); intuition congruence.
Qed.

Lemma distinct_NoDup (l : list string) : Pandas.distinct l = true <-> NoDup l.
Proof.
  induction l as [|x l IH]; simpl.
  - split; [constructor | reflexivity].
  - rewrite andb_true_iff, negb_true_iff, existsb_eqb_not_In, IH. split.
    + intros [H1 H2]. constructor; assumption.
    + intros H. inversion H. split; assumption.
Qed.

Lemma names_set_col (n : string) (c : column) (cols : list (string * column)) :
  map fst (Pandas.set_col n c cols) =
  if existsb (String.eqb n) (map fst cols) then map fst cols else map fst cols ++ [n].
Proof.
  induction cols as [|[m c0] cols IH]; simpl; [reflexivity|].
  rewrite (String.eqb_sym n m).
  destruct (String.eqb m n) eqn:E; simpl; [reflexivity|].
  rewrite IH. destruct (existsb _ _); reflexivity.
Qed.

Lemma In_names_set_col (n n' : string) (c : column) (cols : list (string * column)) :
  In n' (map fst (Pandas.set_col n c cols)) <-> In n' (map fst cols) \/ n' = n.
Proof.
  rewrite names_set_col. destruct (existsb _ _) eqn:E.
  - apply existsb_eqb_In in E. split; [auto|]. intros [H | ->]; assumption.
  - rewrite in_app_iff. simpl. split.
    + intros [H | [H | []]]; auto.
    + intros [H | H]; auto.
Qed.

Lemma NoDup_set_col (n : string) (c : column) (cols : list (string * column)) :
  NoDup (map fst cols) -> NoDup (map fst (Pandas.set_col n c cols)).
Proof.
  intros H. rewrite names_set_col. destruct (existsb _ _) eqn:E; [exact H|].
  apply existsb_eqb_not_In in E.
  apply NoDup_app; [exact H | repeat constructor; simpl; tauto |].
  intros x Hx [<- | []]. contradiction.
Qed.

Lemma filter_none {A : Type} (f : A -> bool) (l : list A) :
  (forall x, In x l -> f x = false) -> filter f l = [].
Proof.
  induction l as [|a l IH]; intros H; simpl; [reflexivity|].
  rewrite (H a) by (left; reflexivity). apply IH. intros x Hx. apply H. right. exact Hx.
Qed.

(** In a frame of distinct labels the columns a test selects are the one
    column of the only label passing it. *)
Lemma filter_single (p : string -> bool) (k : string) (c : column)
      (cols : list (string * column)) :
  NoDup (map fst cols) ->
  Pandas.lookup k cols = Some c ->
  p k = true ->
  (forall n, In n (map fst cols) -> p n = true -> n = k) ->
  filter (fun nc => p (fst nc)) cols = [(k, c)].
Proof.
  induction cols as [|[m c0] cols IH]; simpl; intros Hnd Hl Hk Hall; [discriminate|].
  inversion Hnd as [|? ? Hm Hnd']; subst.
  destruct (String.eqb_spec m k) as [->|Hne].
  - injection Hl as ->. rewrite Hk. f_equal.
    apply filter_none.
    intros [n' c'] Hin. simpl. destruct (p n') eqn:E; [|reflexivity].
    exfalso. apply Hm.
    assert (n' = k) as <-.
    { apply Hall; [right; apply in_map_iff; exists (n', c'); auto | exact E]. }
    apply in_map_iff. exists (n', c'). auto.
  - destruct (p m) eqn:E.
    + exfalso. apply Hne. apply Hall; [left; reflexivity | exact E].
    + apply IH; auto.
Qed.

(* ------------------------------------------------------------------ *)
(** ** The processing steps on a provider table *)

Lemma forallb_is_str_filter (f : cell -> bool) (raw : list string) :
  forallb Pandas.is_str (filter f (map VStr raw)) = true.
Proof.
  induction raw as [|s raw IH]; simpl; [reflexivity|].
  destruct (f (VStr s)); simpl; exact IH.
Qed.

Lemma str_accessor_strings (raw : list string) :
  Pandas.str_accessor_ok (ColObj (map VStr raw)) = true.
Proof.
  unfold Pandas.str_accessor_ok.
  pose proof (forallb_is_str_filter (fun v => negb (Pandas.is_missing v)) raw) as H.
  destruct (filter _ (map VStr raw)); [reflexivity|]. rewrite H. reflexivity.
Qed.

Lemma str_replace_strings (old new : ascii) (raw : list string) :
  Pandas.str_replace old new (ColObj (map VStr raw)) =
  Ok (ColObj (map VStr (map (Pandas.replace_char old new) raw))).
Proof.
  unfold Pandas.str_replace. rewrite str_accessor_strings. cbn [column_cells].
  rewrite !map_map. reflexivity.
Qed.

Lemma astype_float_strings (pf : string -> option float) (strs : list string)
      (vals : list float) :
  map pf strs = map Some vals ->
  Pandas.astype_float pf (ColObj (map VStr strs)) = Ok (ColFloat vals).
Proof.
  intros H. unfold Pandas.astype_float.
  enough (E : Pandas.traverse (Pandas.cell_to_float pf) (map VStr strs) = Ok vals)
    by (rewrite E; reflexivity).
  revert vals H. induction strs as [|s strs IH]; intros [|v vals] H;
    try discriminate; [reflexivity|].
  simpl in H. injection H as Hs Hrest.
  simpl. rewrite Hs, (IH vals Hrest). reflexivity.
Qed.

Lemma in_int64_range (z : Z) :
  int64 z -> (Pandas.int64_min <=? z) && (z <=? Pandas.int64_max) = true.
Proof.
  unfold int64, Pandas.int64_min, Pandas.int64_max. intros [Hlo Hhi].
  apply andb_true_iff. split; apply Z.leb_le; assumption.
Qed.

Lemma to_int64_wraps (z z' : Z) : wraps_to z z' -> Pandas.to_int64 z = z'.
Proof.
  unfold wraps_to, int64, Pandas.to_int64. intros [Hz (k & ->)].
  assert (E : 2 ^ 64 = 2 * 2 ^ 63) by reflexivity. rewrite E in *.
  set (p := 2 ^ 63) in *.
  replace (z + p) with (z + k * (2 * p) + p + (- k) * (2 * p)) by ring.
  rewrite Z.mod_add by lia. rewrite Z.mod_small by lia. lia.
Qed.

(** [astype(int)] on a column of values that stand for integers gives
    those integers, whatever the dtype of the column. *)
Lemma astype_int_nominal (W : World) (nominal : column) (noms : list Z) :
  coerced W nominal noms ->
  Pandas.astype_int (py_int W) nominal = Ok (ColInt noms).
Proof.
  intros Hof.
  destruct nominal as [l | l | l]; cbn [coerced Pandas.astype_int] in *.
  - replace (map Pandas.to_int64 l) with noms; [reflexivity|].
    induction Hof as [|z z' l noms Hz Hof IH]; [reflexivity|].
    cbn [map]. rewrite (to_int64_wraps z z' Hz), <- IH. reflexivity.
  - enough (E : Pandas.traverse Pandas.float_to_int64 l = Ok noms) by (rewrite E; reflexivity).
    induction Hof as [|f z l noms [Ht Hz] Hof IH]; [reflexivity|].
    cbn [Pandas.traverse]. unfold Pandas.float_to_int64 at 1. rewrite Ht.
    rewrite in_int64_range by exact Hz. rewrite IH. reflexivity.
  - enough (E : Pandas.traverse (Pandas.cell_to_int (py_int W)) l = Ok noms)
      by (rewrite E; reflexivity).
    induction Hof as [|v z l noms [Hv Hz] Hof IH]; [reflexivity|].
    cbn [Pandas.traverse].
    assert (Hcell : Pandas.cell_to_int (py_int W) v = Ok z).
    { inversion Hv as [z' | f z' Ht | str z' Hs]; subst;
        cbn [Pandas.cell_to_int]; rewrite ?Ht, ?Hs;
        unfold Pandas.in_int64; rewrite in_int64_range by exact Hz; reflexivity. }
    rewrite Hcell, IH. reflexivity.
Qed.

Lemma columns_named_rename (mapping : list (string * string)) (t : string)
      (cols : list (string * column)) :
  Pandas.columns_named t
    (map (fun nc => (Pandas.rename_label mapping (fst nc), snd nc)) cols) =
  map (fun nc => (Pandas.rename_label mapping (fst nc), snd nc))
      (filter (fun nc => String.eqb (Pandas.rename_label mapping (fst nc)) t) cols).
Proof.
  unfold Pandas.columns_named. induction cols as [|[n c] cols IH]; simpl; [reflexivity|].
  destruct (String.eqb _ t); simpl; rewrite IH; reflexivity.
Qed.

Lemma rename_label_cases (n : string) :
  (n = "CharCode" /\ Pandas.rename_label renaming n = "CurrencyCode")
  \/ (n = "Name" /\ Pandas.rename_label renaming n = "CurrencyName")
  \/ (n <> "CharCode" /\ n <> "Name" /\ Pandas.rename_label renaming n = n).
Proof.
  unfold Pandas.rename_label, renaming. cbn [find fst snd].
  destruct (String.eqb_spec "CharCode" n) as [<-|H1]; [left; auto|].
  destruct (String.eqb_spec "Name" n) as [<-|H2]; [right; left; auto|].
  right; right. repeat split; congruence.
Qed.

(** After the renaming, the columns labelled [t] are the one column that
    was labelled [k]. *)
Lemma renamed_column (t k : string) (c : column) (cols : list (string * column)) :
  NoDup (map fst cols) ->
  Pandas.lookup k cols = Some c ->
  Pandas.rename_label renaming k = t ->
  (forall n, In n (map fst cols) -> Pandas.rename_label renaming n = t -> n = k) ->
  Pandas.columns_named t
    (map (fun nc => (Pandas.rename_label renaming (fst nc), snd nc)) cols) = [(t, c)].
Proof.
  intros Hnd Hl Hk Hall. rewrite columns_named_rename.
  rewrite (filter_single (fun n => String.eqb (Pandas.rename_label renaming n) t) k c).
  - simpl. rewrite Hk. reflexivity.
  - exact Hnd.
  - exact Hl.
  - apply String.eqb_eq. exact Hk.
  - intros n Hin E. apply String.eqb_eq in E. auto.
Qed.

Ltac label_cases n :=
  destruct (rename_label_cases n) as [[? ?] | [[? ?] | [? [? ?]]]];
  subst; try congruence.

Lemma transform_provider_frame (W : World) (df : DataFrame) (date : Z)
      (codes names nominal : column) (noms : list Z) (raw : list string)
      (vals : list float) :
  provider_frame W df codes names nominal noms raw vals ->
  transform W (Pandas.setitem_scalar df "Date" (VDate date)) =
  Ok (canonical_frame (index_len df) date codes names noms vals).
Proof.
  intros [Hd Hc Hn Hnom Hint Hv Hp Hnc Hnn].
  apply distinct_NoDup in Hd. apply existsb_eqb_not_In in Hnc, Hnn.
  unfold column_names in *.
  unfold transform, Pandas.getitem, Pandas.setitem_scalar, Pandas.setitem.
  cbn [columns index_len Pandas.broadcast].
  set (cols1 := Pandas.set_col "Date" _ (columns df)).
  assert (L1 : Pandas.lookup "Value" cols1 = Some (ColObj (map VStr raw)))
    by (subst cols1; rewrite lookup_set_col_other by discriminate; exact Hv).
  rewrite L1. cbn [and_then]. rewrite str_replace_strings. cbn [and_then].
  rewrite (astype_float_strings _ _ vals) by (rewrite map_map; exact Hp).
  cbn [and_then].
  set (cols2 := Pandas.set_col "Value" _ cols1).
  assert (L2 : Pandas.lookup "Nominal" cols2 = Some nominal)
    by (subst cols2 cols1; rewrite !lookup_set_col_other by discriminate; exact Hnom).
  rewrite L2. cbn [and_then].
  rewrite (astype_int_nominal W nominal noms Hint). cbn [and_then].
  set (cols3 := Pandas.set_col "Nominal" _ cols2).
  assert (L3 : Pandas.lookup "Value" cols3 = Some (ColFloat vals)).
  { subst cols3 cols2. rewrite lookup_set_col_other by discriminate.
    apply lookup_set_col_same. }
  assert (L4 : Pandas.lookup "Nominal" cols3 = Some (ColInt noms))
    by (subst cols3; apply lookup_set_col_same).
  rewrite L3. cbn [and_then]. rewrite L4. cbn [and_then Pandas.truediv].
  fold (rates vals noms).
  set (cols4 := Pandas.set_col "Rate" _ cols3).
  assert (Hnd4 : NoDup (map fst cols4))
    by (subst cols4 cols3 cols2 cols1; repeat apply NoDup_set_col; exact Hd).
  assert (Hin4 : forall n, In n (map fst cols4) ->
                           In n (map fst (columns df)) \/ n = "Date" \/ n = "Value"
                           \/ n = "Nominal" \/ n = "Rate").
  { subst cols4 cols3 cols2 cols1. intros n H.
    repeat (apply In_names_set_col in H; destruct H as [H | H]); auto. }
  assert (Hfresh : forall n, In n (map fst cols4) ->
                             n <> "CurrencyCode" /\ n <> "CurrencyName").
  { intros n H. apply Hin4 in H.
    destruct H as [H | [-> | [-> | [-> | ->]]]];
      try (split; discriminate).
    split; intros ->; contradiction. }
  assert (LD : Pandas.lookup "Date" cols4 =
               Some (ColObj (repeat (VDate date) (index_len df)))).
  { subst cols4 cols3 cols2 cols1. rewrite !lookup_set_col_other by discriminate.
    apply lookup_set_col_same. }
  assert (LC : Pandas.lookup "CharCode" cols4 = Some codes)
    by (subst cols4 cols3 cols2 cols1;
        rewrite !lookup_set_col_other by discriminate; exact Hc).
  assert (LN : Pandas.lookup "Name" cols4 = Some names)
    by (subst cols4 cols3 cols2 cols1;
        rewrite !lookup_set_col_other by discriminate; exact Hn).
  assert (LNom : Pandas.lookup "Nominal" cols4 = Some (ColInt noms))
    by (subst cols4; rewrite lookup_set_col_other by discriminate; exact L4).
  assert (LV : Pandas.lookup "Value" cols4 = Some (ColFloat vals))
    by (subst cols4; rewrite lookup_set_col_other by discriminate; exact L3).
  assert (LR : Pandas.lookup "Rate" cols4 = Some (ColFloat (rates vals noms)))
    by (subst cols4; apply lookup_set_col_same).
  unfold Pandas.select, Pandas.rename, out_columns, canonical_frame.
  cbn [columns index_len Pandas.select_cols].
  rewrite (renamed_column "Date" "Date" _ cols4 Hnd4 LD eq_refl)
    by (intros n Hin E; pose proof (Hfresh n Hin); label_cases n).
  rewrite (renamed_column "CurrencyCode" "CharCode" _ cols4 Hnd4 LC eq_refl)
    by (intros n Hin E; pose proof (Hfresh n Hin) as [? ?]; label_cases n).
  rewrite (renamed_column "CurrencyName" "Name" _ cols4 Hnd4 LN eq_refl)
    by (intros n Hin E; pose proof (Hfresh n Hin) as [? ?]; label_cases n).
  rewrite (renamed_column "Nominal" "Nominal" _ cols4 Hnd4 LNom eq_refl)
    by (intros n Hin E; pose proof (Hfresh n Hin); label_cases n).
  rewrite (renamed_column "Value" "Value" _ cols4 Hnd4 LV eq_refl)
    by (intros n Hin E; pose proof (Hfresh n Hin); label_cases n).
  rewrite (renamed_column "Rate" "Rate" _ cols4 Hnd4 LR eq_refl)
    by (intros n Hin E; pose proof (Hfresh n Hin); label_cases n).
  reflexivity.
Qed.

(** A [Value] column the XML parser read as numbers, because no value
    carries a comma, has no [.str] accessor: the steps raise. *)
Lemma transform_numeric_value (W : World) (df : DataFrame) (v : cell) (l : list Z) :
  Pandas.lookup "Value" (columns df) = Some (ColInt l) ->
  exists e,
    transform W (Pandas.setitem_scalar df "Date" v) = Raise e
    /\ exn_class_of e = AttributeError.
Proof.
  intros Hval. unfold transform, Pandas.getitem, Pandas.setitem_scalar.
  cbn [columns Pandas.setitem].
  rewrite lookup_set_col_other by discriminate. rewrite Hval.
  cbn. eexists. split; reflexivity.
Qed.

(* ------------------------------------------------------------------ *)
(** ** RateSource *)

(** C1. For a valid provider response, [get_cbr_rates] of either loader
    returns the canonical table: each [Value] parsed as a float after its
    comma is replaced by a dot, [Nominal] converted to integers whatever
    dtype it was read with, [Rate = Value / Nominal], [CharCode] and [Name]
    renamed, and the columns in the order Date, CurrencyCode, CurrencyName,
    Nominal, Value, Rate. The incremental loader parses the date back from
    the request string, which takes a year of four digits. *)
Theorem fetch_canonical_table (W : World) (date status : Z) (text : string)
        (df : DataFrame) (codes names nominal : column) (noms : list Z)
        (raw : list string) (vals : list float) (s : State) :
  valid_date date ->
  requests_get W (cbr_url (Calendar.strftime_dmY date)) = HttpResponse status text ->
  ~ (400 <= status < 600) ->
  read_xml W text = Ok df ->
  provider_frame W df codes names nominal noms raw vals ->
  (1000 <= year_of date ->
   Incremental.get_cbr_rates W (Some date) s =
     (Ok (canonical_frame (index_len df) date codes names noms vals),
      add_event (request_of date) s))
  /\ Backfill.get_cbr_rates W date s =
    (Ok (canonical_frame (index_len df) date codes names noms vals),
     add_event (request_of date) s).
Proof.
  intros Hdate Hget Hst Hxml Hpf.
  assert (Htext : response_text W (cbr_url (Calendar.strftime_dmY date)) = Ok text).
  { unfold response_text. rewrite Hget.
    replace ((400 <=? status) && (status <? 600)) with false; [reflexivity|].
    symmetry. apply andb_false_iff. lia. }
  split.
  - intros Hyear. rewrite get_cbr_rates_incremental_run.
    unfold parse_incremental, requested.
    rewrite Htext. cbn [and_then]. rewrite Hxml. cbn [and_then].
    rewrite (strptime_strftime date Hdate Hyear). cbn [and_then].
    rewrite (transform_provider_frame W df date codes names nominal noms raw vals Hpf).
    reflexivity.
  - rewrite get_cbr_rates_backfill_run. unfold parse_backfill.
    rewrite Htext. cbn [and_then]. rewrite Hxml. cbn [and_then].
    rewrite (transform_provider_frame W df date codes names nominal noms raw vals Hpf).
    reflexivity.
Qed.

Lemma sample_provider_frame (W : World) (nominal : column) (noms : list Z) :
  py_float W = sample_float ->
  coerced W nominal noms ->
  provider_frame W
                 (mk_df 2 [("ID", ColObj [VStr "R01235"; VStr "R01820"]);
                           ("NumCode", ColInt [840; 392]);
                           ("CharCode", ColObj [VStr "USD"; VStr "JPY"]);
                           ("Nominal", nominal);
                           ("Name", ColObj [VStr "US Dollar"; VStr "Yen"]);
                           ("Value", ColObj [VStr "90,50"; VStr "25,00"])])
                 (ColObj [VStr "USD"; VStr "JPY"]) (ColObj [VStr "US Dollar"; VStr "Yen"])
                 nominal noms ["90,50"; "25,00"] [90.5%float; 25%float].
Proof.
  intros E Hof. constructor; try reflexivity; try assumption.
  rewrite E. reflexivity.
Defined.

Lemma int64_small (z : Z) : -1000 <= z <= 1000 -> int64 z.
Proof.
  unfold int64. assert (H : 2 ^ 63 = 9223372036854775808) by reflexivity.
  rewrite H. lia.
Defined.

Lemma wraps_to_small (z : Z) : -1000 <= z <= 1000 -> wraps_to z z.
Proof.
  intros H. split; [exact (int64_small z H)|]. exists 0. ring.
Defined.

Lemma fetch_canonical_table_witness :
  let W := sample_world day_2024_03_01 [] None None None None in
  let canonical :=
    mk_df 2 [("Date", ColObj [VDate day_2024_03_01; VDate day_2024_03_01]);
             ("CurrencyCode", ColObj [VStr "USD"; VStr "JPY"]);
             ("CurrencyName", ColObj [VStr "US Dollar"; VStr "Yen"]);
             ("Nominal", ColInt [1; 100]);
             ("Value", ColFloat [90.5%float; 25%float]);
             ("Rate", ColFloat [90.5%float; 0.25%float])] in
  (Incremental.get_cbr_rates W (Some day_2024_03_01) initial_state
   = (Ok canonical, add_event (request_of day_2024_03_01) initial_state)
   /\ Backfill.get_cbr_rates W day_2024_03_01 initial_state
      = (Ok canonical, add_event (request_of day_2024_03_01) initial_state))
  /\ (Incremental.get_cbr_rates (with_frame sample_frame_text W) (Some day_2024_03_01)
                                initial_state
      = (Ok canonical, add_event (request_of day_2024_03_01) initial_state)
      /\ Backfill.get_cbr_rates (with_frame sample_frame_text W) day_2024_03_01
                                initial_state
         = (Ok canonical, add_event (request_of day_2024_03_01) initial_state))
  /\ (Incremental.get_cbr_rates (with_frame sample_frame_float W) (Some day_2024_03_01)
                                initial_state
      = (Ok canonical, add_event (request_of day_2024_03_01) initial_state)
      /\ Backfill.get_cbr_rates (with_frame sample_frame_float W) day_2024_03_01
                                initial_state
         = (Ok canonical, add_event (request_of day_2024_03_01) initial_state))
  /\ (exists out s',
         Backfill.get_cbr_rates (with_frame sample_frame_uint64 W) day_2024_03_01
                                initial_state = (Ok out, s')
         /\ Pandas.lookup "Nominal" (columns out) = Some (ColInt [1; - 2 ^ 63])).
Proof.
  intros W canonical.
  assert (Hdate : valid_date day_2024_03_01)
    by (unfold valid_date, day_2024_03_01, Calendar.MAXORDINAL; lia).
  assert (Hyear : 1000 <= year_of day_2024_03_01) by (vm_compute; discriminate).
  assert (Hst : ~ (400 <= 200 < 600)) by lia.
  assert (H1 : -1000 <= 1 <= 1000) by lia.
  assert (H100 : -1000 <= 100 <= 1000) by lia.
  split; [|split; [|split]].
  - destruct (fetch_canonical_table
                W day_2024_03_01 200 "<ValCurs/>" sample_frame
                (ColObj [VStr "USD"; VStr "JPY"]) (ColObj [VStr "US Dollar"; VStr "Yen"])
                (ColInt [1; 100]) [1; 100] ["90,50"; "25,00"] [90.5%float; 25%float]
                initial_state Hdate eq_refl Hst eq_refl) as [Hinc Hback].
    + apply sample_provider_frame; [reflexivity|].
      repeat constructor; apply wraps_to_small; assumption.
    + split; [exact (Hinc Hyear) | exact Hback].
  - destruct (fetch_canonical_table
                (with_frame sample_frame_text W) day_2024_03_01 200 "<ValCurs/>"
                sample_frame_text
                (ColObj [VStr "USD"; VStr "JPY"]) (ColObj [VStr "US Dollar"; VStr "Yen"])
                (ColObj [VStr "1"; VStr "100"]) [1; 100] ["90,50"; "25,00"]
                [90.5%float; 25%float]
                initial_state Hdate eq_refl Hst eq_refl) as [Hinc Hback].
    + apply sample_provider_frame; [reflexivity|].
      repeat constructor; apply int64_small; assumption.
    + split; [exact (Hinc Hyear) | exact Hback].
  - destruct (fetch_canonical_table
                (with_frame sample_frame_float W) day_2024_03_01 200 "<ValCurs/>"
                sample_frame_float
                (ColObj [VStr "USD"; VStr "JPY"]) (ColObj [VStr "US Dollar"; VStr "Yen"])
                (ColFloat [1%float; 100.5%float]) [1; 100] ["90,50"; "25,00"]
                [90.5%float; 25%float]
                initial_state Hdate eq_refl Hst eq_refl) as [Hinc Hback].
    + apply sample_provider_frame; [reflexivity|].
      repeat constructor; apply int64_small; assumption.
    + split; [exact (Hinc Hyear) | exact Hback].
  - destruct (fetch_canonical_table
                (with_frame sample_frame_uint64 W) day_2024_03_01 200 "<ValCurs/>"
                sample_frame_uint64
                (ColObj [VStr "USD"; VStr "JPY"]) (ColObj [VStr "US Dollar"; VStr "Yen"])
                (ColInt [1; 2 ^ 63]) [1; - 2 ^ 63] ["90,50"; "25,00"]
                [90.5%float; 25%float]
                initial_state Hdate eq_refl Hst eq_refl) as [_ Hback].
    + apply sample_provider_frame; [reflexivity|].
      constructor; [apply wraps_to_small; assumption|].
      constructor; [|constructor].
      split; [unfold int64; lia | exists (-1); reflexivity].
    + eexists _, _. split; [exact Hback | reflexivity].
Defined.



(* ------------------------------------------------------------------ *)
(** ** Persistence Gateway *)

Lemma get_db_engine_incremental_run (W : World) (s : State) :
  Incremental.get_db_engine W s =
  match connect_fault W with
  | None => (Ok (Some PgEngine), add_log connected_record s)
  | Some e => (Ok None, add_log (connect_error_record e) s)
  end.
Proof.
  unfold Incremental.get_db_engine, try_except, bind, lift, logger, ret.
  destruct (connect_fault W) as [e|]; [|reflexivity].
  unfold connect_error_record. destruct (exn_class_of e); try reflexivity.
  destruct (contains "password authentication failed" (exn_msg e)); [reflexivity|].
  destruct (contains "database" (exn_msg e) && contains "does not exist" (exn_msg e));
    reflexivity.
Qed.

Lemma get_db_engine_backfill_run (W : World) (s : State) :
  Backfill.get_db_engine W s =
  match connect_fault W with
  | None => (Ok (Some PgEngine), add_log connected_record s)
  | Some e => (Ok None, add_log (connect_error_record_backfill e) s)
  end.
Proof.
  unfold Backfill.get_db_engine, try_except, bind, lift, logger, ret.
  destruct (connect_fault W) as [e|]; reflexivity.
Qed.

Lemma save_data_store_run (W : World) (df : DataFrame) (g : Engine) (s : State) :
  Incremental.save_data W df (Some g) s =
  match to_sql_fault W df with
  | Some e => (Ok false, add_log (sql_error_record e) (add_event (EvToSql df) s))
  | None =>
      (Ok true,
       add_log (sql_saved_record df) (append_rows (rows_of df) (add_event (EvToSql df) s)))
  end.
Proof.
  unfold Incremental.save_data, try_except, to_sql, bind, emit, logger, ret.
  cbn. destruct (to_sql_fault W df); reflexivity.
Qed.

Lemma save_data_file_run (W : World) (df : DataFrame) (s : State) :
  Incremental.save_data W df None s =
  match to_csv_fault W df with
  | Some e =>
      (Ok false,
       add_log (csv_error_record e)
               match to_csv_flushed W df with
               | None => add_event (EvToCsv (negb (file_exists s)) df) s
               | Some k =>
                   append_lines (firstn k (lines_of (negb (file_exists s)) df))
                                (add_event (EvToCsv (negb (file_exists s)) df) s)
               end)
  | None =>
      (Ok true,
       add_log csv_saved_record
               (append_lines (lines_of (negb (file_exists s)) df)
                             (add_event (EvToCsv (negb (file_exists s)) df) s)))
  end.
Proof.
  unfold Incremental.save_data, try_except, to_csv, csv_exists, bind, emit, logger, ret,
    file_exists.
  cbn. destruct (to_csv_fault W df); [|reflexivity].
  destruct (to_csv_flushed W df); reflexivity.
Qed.

Lemma save_data_backfill_run (W : World) (df : DataFrame) (g : Engine) (s : State) :
  Backfill.save_data W df g s =
  match to_sql_fault W df with
  | Some e => (Ok false, add_log (save_error_record e) (add_event (EvToSql df) s))
  | None =>
      match Backfill.first_date df with
      | Ok v =>
          (Ok true,
           add_log (saved_record df v)
                   (append_rows (rows_of df) (add_event (EvToSql df) s)))
      | Raise e =>
          (Ok false,
           add_log (save_error_record e)
                   (append_rows (rows_of df) (add_event (EvToSql df) s)))
      end
  end.
Proof.
  unfold Backfill.save_data, try_except, to_sql, bind, emit, logger, ret, lift.
  cbn. destruct (to_sql_fault W df); [reflexivity|].
  destruct (Backfill.first_date df); reflexivity.
Qed.

(** C3. [save_data] never raises, in either loader: it returns a boolean,
    and when the write to the store or to the fallback file raises an error
    it logs one error record and returns [False]. *)
Theorem save_data_catches (W : World) (df : DataFrame) (engine : option Engine)
        (g : Engine) (s : State) :
  (exists b s',
      Incremental.save_data W df engine s = (Ok b, s')
      /\ forall e, write_fault W df engine = Some e ->
                   b = false
                   /\ exists r, log s' = log s ++ [r] /\ level_of r = ERROR)
  /\ (exists b s',
         Backfill.save_data W df g s = (Ok b, s')
         /\ forall e, to_sql_fault W df = Some e ->
                      b = false
                      /\ exists r, log s' = log s ++ [r] /\ level_of r = ERROR).
Proof.
  split.
  - destruct engine as [g'|]; cbn [write_fault].
    + rewrite save_data_store_run. destruct (to_sql_fault W df) as [e|].
      * eexists _, _. split; [reflexivity|]. intros e' _.
        split; [reflexivity|]. eexists. split; reflexivity.
      * eexists _, _. split; [reflexivity|]. discriminate.
    + rewrite save_data_file_run. destruct (to_csv_fault W df) as [e|].
      * eexists _, _. split; [reflexivity|]. intros e' _.
        split; [reflexivity|]. eexists.
        split; [destruct (to_csv_flushed W df) |]; reflexivity.
      * eexists _, _. split; [reflexivity|]. discriminate.
  - rewrite save_data_backfill_run. destruct (to_sql_fault W df) as [e|].
    + eexists _, _. split; [reflexivity|]. intros e' _.
      split; [reflexivity|]. eexists. split; reflexivity.
    + destruct (Backfill.first_date df); eexists _, _; (split; [reflexivity|]);
        discriminate.
Qed.

Lemma save_data_catches_witness :
  let W := sample_world day_2024_03_01 [] None None (Some server_gone) (Some disk_full) in
  (exists s', Incremental.save_data W sample_frame (Some PgEngine) initial_state
              = (Ok false, s'))
  /\ (exists s', Incremental.save_data W sample_frame None initial_state = (Ok false, s'))
  /\ (exists s', Backfill.save_data W sample_frame PgEngine initial_state = (Ok false, s')).
Proof.
  intros W.
  destruct (save_data_catches W sample_frame (Some PgEngine) PgEngine initial_state)
    as [(b1 & s1 & R1 & F1) (b3 & s3 & R3 & F3)].
  destruct (save_data_catches W sample_frame None PgEngine initial_state)
    as [(b2 & s2 & R2 & F2) _].
  destruct (F1 server_gone eq_refl) as [-> _].
  destruct (F2 disk_full eq_refl) as [-> _].
  destruct (F3 server_gone eq_refl) as [-> _].
  repeat split; eauto.
Defined.

Lemma rows_of_records (df : DataFrame) : rows_of df = records df.
Proof. reflexivity. Qed.

Lemma data_lines_record_lines (df : DataFrame) : data_lines df = record_lines df.
Proof. reflexivity. Qed.

Lemma header_count_app (a b : list csv_line) :
  header_count (a ++ b) = (header_count a + header_count b)%nat.
Proof. unfold header_count. rewrite filter_app, length_app. reflexivity. Qed.

Lemma header_count_record_lines (df : DataFrame) : header_count (record_lines df) = O.
Proof.
  unfold header_count, record_lines.
  induction (records df) as [|r rows IH]; simpl; [reflexivity | exact IH].
Qed.

Lemma header_count_firstn (k : nat) (l : list csv_line) :
  header_count l = O -> header_count (firstn k l) = O.
Proof.
  unfold header_count. revert k. induction l as [|a l IH]; intros [|k] H;
    cbn [firstn filter] in *; try reflexivity.
  destruct (is_header a); [discriminate|]. apply IH. exact H.
Qed.

Lemma header_count_flat_map (calls : list (World * DataFrame)) :
  header_count (flat_map (fun c => record_lines (snd c)) calls) = O.
Proof.
  induction calls as [|c calls IH]; simpl; [reflexivity|].
  rewrite header_count_app, header_count_record_lines, IH. reflexivity.
Qed.

(** Once the file exists, fallback writes only add data lines. *)
Lemma fallback_writes_data_only (calls : list (World * DataFrame)) (s : State)
      (lines : list csv_line) :
  csv_file s = Some lines ->
  exists extra,
    csv_file (fallback_writes calls s) = Some (lines ++ extra)
    /\ header_count extra = O.
Proof.
  revert s lines. induction calls as [|[W df] calls IH]; intros s lines Hs;
    cbn [fallback_writes].
  - exists []. rewrite app_nil_r. split; [exact Hs | reflexivity].
  - rewrite save_data_file_run. unfold file_exists. rewrite Hs.
    cbn [negb lines_of app].
    destruct (to_csv_fault W df) as [e|]; [destruct (to_csv_flushed W df) as [k|]|];
      cbn [snd].
    + match goal with |- context [fallback_writes calls ?s1] =>
        destruct (IH s1 (lines ++ firstn k (data_lines df))) as (extra & -> & Hx) end.
      { cbn. rewrite Hs. reflexivity. }
      exists (firstn k (data_lines df) ++ extra). rewrite app_assoc.
      split; [reflexivity|]. rewrite header_count_app, Hx.
      rewrite header_count_firstn; [reflexivity | apply header_count_record_lines].
    + apply IH. exact Hs.
    + match goal with |- context [fallback_writes calls ?s1] =>
        destruct (IH s1 (lines ++ data_lines df)) as (extra & -> & Hx) end.
      { cbn. rewrite Hs. reflexivity. }
      exists (data_lines df ++ extra). rewrite app_assoc.
      split; [reflexivity|]. rewrite header_count_app, Hx.
      rewrite data_lines_record_lines, header_count_record_lines. reflexivity.
Qed.

(** With no write failing midway, the lines added to an existing file are
    the records of the writes that went through. *)
Lemma fallback_writes_existing (calls : list (World * DataFrame)) (s : State)
      (lines : list csv_line) :
  forallb clean calls = true ->
  csv_file s = Some lines ->
  csv_file (fallback_writes calls s) =
  Some (lines ++ flat_map (fun c => record_lines (snd c)) (filter written calls)).
Proof.
  revert s lines. induction calls as [|[W df] calls IH]; intros s lines Hclean Hs;
    cbn [fallback_writes filter flat_map forallb] in *.
  - rewrite app_nil_r. exact Hs.
  - apply andb_prop in Hclean. destruct Hclean as [Hc Hclean].
    rewrite save_data_file_run. unfold clean, opens_file, written in *.
    cbn [fst snd] in *.
    destruct (to_csv_fault W df) as [e|]; cbn [snd].
    + destruct (to_csv_flushed W df) as [k|]; [discriminate|].
      apply IH; assumption.
    + rewrite (IH _ (lines ++ data_lines df) Hclean).
      * cbn [flat_map snd]. rewrite app_assoc. reflexivity.
      * unfold file_exists. cbn. rewrite Hs. reflexivity.
Qed.

(** C7, as amended. Without a live engine [save_data] appends to the
    fallback file and asks for the header line exactly when the file does
    not exist at that moment. Over any sequence of fallback writes starting
    without the file, a header line can only be the first line of the file.
    When no write fails midway, the file holds the header of the first
    write that went through, then the records of every such write, and so
    one header line in all; a write that fails after it created the file
    can leave it without one. The engine is missing whenever the probe of
    [get_db_engine] fails. *)
Theorem fallback_header_once (calls : list (World * DataFrame)) (s : State) :
  csv_file s = None ->
  (forall W df s0,
      trace (snd (Incremental.save_data W df None s0))
      = trace s0 ++ [EvToCsv (negb (file_exists s0)) df])
  /\ (forall W df s0,
         to_csv_fault W df = None ->
         exists s1,
           Incremental.save_data W df None s0 = (Ok true, s1)
           /\ csv_file s1 =
              Some (match csv_file s0 with
                    | Some old => old ++ record_lines df
                    | None => CsvHeader (column_names df) :: record_lines df
                    end))
  /\ match file_lines (fallback_writes calls s) with
     | [] => True
     | _ :: rest => header_count rest = O
     end
  /\ (forallb clean calls = true ->
      csv_file (fallback_writes calls s) =
        match filter written calls with
        | [] => None
        | (W, df) :: _ =>
            Some (CsvHeader (column_names df)
                  :: flat_map (fun c => record_lines (snd c)) (filter written calls))
        end
      /\ forall lines, csv_file (fallback_writes calls s) = Some lines ->
                       header_count lines = 1%nat)
  /\ (forall W e s0,
         connect_fault W = Some e ->
         Incremental.get_db_engine W s0 = (Ok None, add_log (connect_error_record e) s0)).
Proof.
  intros Hs. split; [|split; [|split; [|split]]].
  - intros W df s0. rewrite save_data_file_run.
    destruct (to_csv_fault W df); [destruct (to_csv_flushed W df)|]; reflexivity.
  - intros W df s0 Hok. rewrite save_data_file_run, Hok. eexists.
    split; [reflexivity|].
    unfold file_exists. cbn. destruct (csv_file s0); reflexivity.
  - revert s Hs. induction calls as [|[W df] calls IH]; intros s Hs;
      cbn [fallback_writes].
    + unfold file_lines. rewrite Hs. exact I.
    + rewrite save_data_file_run. unfold file_exists. rewrite Hs.
      cbn [negb lines_of app].
      assert (Hfrom : forall k s1,
                 csv_file s1 = Some (firstn k (CsvHeader (column_names df)
                                                         :: data_lines df)) ->
                 match file_lines (fallback_writes calls s1) with
                 | [] => True
                 | _ :: rest => header_count rest = O
                 end).
      { intros k s1 Hs1.
        destruct (fallback_writes_data_only calls s1 _ Hs1) as (extra & Hf & Hx).
        unfold file_lines. rewrite Hf.
        destruct k as [|k]; cbn [firstn app].
        - destruct extra as [|l extra]; [exact I|].
          unfold header_count in *. cbn [filter] in Hx.
          destruct (is_header l); [discriminate | exact Hx].
        - rewrite header_count_app, Hx.
          rewrite header_count_firstn; [reflexivity | apply header_count_record_lines]. }
      destruct (to_csv_fault W df) as [e|]; [destruct (to_csv_flushed W df) as [k|]|];
        cbn [snd].
      * apply (Hfrom k). cbn. rewrite Hs. reflexivity.
      * apply IH. exact Hs.
      * apply (Hfrom (S (List.length (data_lines df)))). cbn [firstn].
        rewrite firstn_all. cbn. rewrite Hs. reflexivity.
  - intros Hclean.
    assert (Hmain :
              csv_file (fallback_writes calls s) =
              match filter written calls with
              | [] => None
              | (W, df) :: _ =>
                  Some (CsvHeader (column_names df)
                        :: flat_map (fun c => record_lines (snd c))
                                    (filter written calls))
              end).
    { revert s Hs Hclean. induction calls as [|[W df] calls IH]; intros s Hs Hclean;
        cbn [fallback_writes filter forallb] in *.
      - exact Hs.
      - apply andb_prop in Hclean. destruct Hclean as [Hc Hclean].
        rewrite save_data_file_run. unfold clean, opens_file, written in *.
        cbn [fst snd] in *.
        destruct (to_csv_fault W df) as [e|]; cbn [snd].
        + destruct (to_csv_flushed W df) as [k|]; [discriminate|].
          apply IH; assumption.
        + rewrite (fallback_writes_existing calls _ (CsvHeader (column_names df)
                                                     :: data_lines df) Hclean).
          * cbn [flat_map snd]. reflexivity.
          * unfold file_exists. cbn. rewrite Hs. reflexivity. }
    split; [exact Hmain|].
    intros lines Hl. rewrite Hmain in Hl.
    destruct (filter written calls) as [|[W df] rest] eqn:E; [discriminate|].
    injection Hl as <-.
    unfold header_count. cbn [filter is_header]. cbn [List.length]. f_equal.
    exact (header_count_flat_map ((W, df) :: rest)).
  - intros W e s0 He. rewrite get_db_engine_incremental_run, He. reflexivity.
Qed.

Lemma fallback_header_once_witness :
  let W := sample_world day_2024_03_01 [] (Some server_gone) None None None in
  let W' := sample_world day_2024_03_01 [] (Some server_gone) None None (Some disk_full) in
  csv_file (fallback_writes [(W', sample_frame); (W, sample_frame); (W, sample_frame)]
                            initial_state) =
  Some [CsvHeader ["ID"; "NumCode"; "CharCode"; "Nominal"; "Name"; "Value"];
        CsvRow [VStr "R01235"; VInt 840; VStr "USD"; VInt 1; VStr "US Dollar";
                VStr "90,50"];
        CsvRow [VStr "R01820"; VInt 392; VStr "JPY"; VInt 100; VStr "Yen";
                VStr "25,00"];
        CsvRow [VStr "R01235"; VInt 840; VStr "USD"; VInt 1; VStr "US Dollar";
                VStr "90,50"];
        CsvRow [VStr "R01820"; VInt 392; VStr "JPY"; VInt 100; VStr "Yen";
                VStr "25,00"]].
Proof.
  intros W W'.
  destruct (fallback_header_once
              [(W', sample_frame); (W, sample_frame); (W, sample_frame)]
              initial_state eq_refl) as (_ & _ & _ & Hclean & _).
  exact (proj1 (Hclean eq_refl)).
Defined.

(** C7, as stated, fails: a first write that fails after it created the
    file leaves the file without a header for good, since every later
    write finds the file and appends data lines only. *)
Lemma fallback_header_lost_after_failed_write :
  let W := sample_world day_2024_03_01 [] (Some server_gone) None None None in
  let W' := failing_midway disk_full 0 W in
  csv_file (fallback_writes [(W', sample_frame); (W, sample_frame)] initial_state) =
  Some [CsvRow [VStr "R01235"; VInt 840; VStr "USD"; VInt 1; VStr "US Dollar";
                VStr "90,50"];
        CsvRow [VStr "R01820"; VInt 392; VStr "JPY"; VInt 100; VStr "Yen";
                VStr "25,00"]]
  /\ header_count
       (file_lines (fallback_writes [(W', sample_frame); (W, sample_frame)]
                                    initial_state)) = O.
Proof. split; reflexivity. Qed.

(* ------------------------------------------------------------------ *)
(** ** Watermark Tracker *)

(** Arithmetic on the sample days. *)
Ltac sample_dates :=
  unfold clock_ok, valid_date, Calendar.MAXORDINAL in *; cbn in *;
  unfold day_2024_01_04, day_2024_01_05, day_2024_02_29, day_2024_03_01,
    day_2024_03_02, day_2024_03_03 in *;
  lia.


Lemma yesterday_run (W : World) (s : State) :
  clock_ok W -> Incremental.yesterday W s = (Ok (now_date W - 1), s).
Proof.
  intros H. unfold clock_ok in H. unfold Incremental.yesterday, lift, Calendar.add_days.
  replace (now_date W + -1) with (now_date W - 1) by lia.
  replace ((0 <? now_date W - 1) && (now_date W - 1 <=? Calendar.MAXORDINAL)) with true
    by (symmetry; apply andb_true_iff; lia).
  reflexivity.
Qed.

Lemma get_last_loaded_date_run (W : World) (g : Engine) (s : State) :
  clock_ok W ->
  Incremental.get_last_loaded_date W (Some g) s =
  match max_query W s with
  | Ok (Some d) => (Ok d, s)
  | Ok None => (Ok (now_date W - 1), s)
  | Raise e => (Ok (now_date W - 1), add_log (watermark_error_record e) s)
  end.
Proof.
  intros H.
  unfold Incremental.get_last_loaded_date, try_except, bind, select_max_date, max_query,
    raise, ret, logger.
  destruct (query_fault W) as [e|].
  - rewrite yesterday_run by exact H. reflexivity.
  - destruct (db_table s) as [rows|].
    + destruct (max_date rows) as [d|]; [reflexivity|].
      rewrite yesterday_run by exact H. reflexivity.
    + rewrite yesterday_run by exact H. reflexivity.
Qed.

Lemma get_last_loaded_date_no_engine (W : World) (s : State) :
  clock_ok W ->
  exists e,
    Incremental.get_last_loaded_date W None s =
    (Ok (now_date W - 1), add_log (watermark_error_record e) s).
Proof.
  intros H. unfold Incremental.get_last_loaded_date, try_except, bind, raise, logger.
  eexists. rewrite yesterday_run by exact H. reflexivity.
Qed.

Lemma max_opt_spec (a b : option Z) (m : Z) :
  max_opt a b = Some m ->
  (a = Some m \/ b = Some m)
  /\ (forall d, a = Some d -> d <= m) /\ (forall d, b = Some d -> d <= m).
Proof.
  destruct a as [x|], b as [y|]; simpl; intros E; inversion E; subst.
  - split; [destruct (Z.max_spec x y) as [[_ ->] | [_ ->]]; auto|].
    split; intros d Hd; inversion Hd; subst; lia.
  - split; [auto|]. split; intros d Hd; inversion Hd; lia.
  - split; [auto|]. split; intros d Hd; inversion Hd; lia.
Qed.

Lemma max_date_greatest (rows : list row) (m : Z) :
  max_date rows = Some m -> greatest_date rows m.
Proof.
  revert m. induction rows as [|r rows IH]; intros m H; [discriminate|].
  cbn [max_date fold_right] in H. fold (max_date rows) in H.
  apply max_opt_spec in H. destruct H as (Hor & Ha & Hb).
  split.
  - destruct Hor as [H | H].
    + exists r. split; [left; reflexivity | exact H].
    + destruct (IH m H) as [(r' & Hin & Hr') _]. exists r'. split; [right|]; assumption.
  - intros r' d [<- | Hin] Hd; [apply Ha; exact Hd|].
    destruct (max_date rows) as [m'|] eqn:E.
    + destruct (IH m' eq_refl) as [_ Hle]. specialize (Hle r' d Hin Hd).
      specialize (Hb m' eq_refl). lia.
    + exfalso. clear - E Hin Hd.
      induction rows as [|x rows IH]; [contradiction|].
      cbn [max_date fold_right] in E. fold (max_date rows) in E.
      destruct Hin as [-> | Hin].
      * rewrite Hd in E. destruct (max_date rows); discriminate.
      * destruct (row_date x), (max_date rows); try discriminate. auto.
Qed.

(** C4. [get_last_loaded_date] returns the greatest persisted date, the
    result of the [MAX] aggregate over the [Date] column; when the query
    raises an error, or the aggregate is null because the table holds no
    rows, it returns today minus one day. *)
Theorem last_loaded_date_or_yesterday (W : World) (g : Engine) (s : State) :
  clock_ok W ->
  (forall rows m,
      query_fault W = None -> db_table s = Some rows -> max_date rows = Some m ->
      Incremental.get_last_loaded_date W (Some g) s = (Ok m, s)
      /\ greatest_date rows m)
  /\ (forall e,
         max_query W s = Raise e ->
         Incremental.get_last_loaded_date W (Some g) s =
         (Ok (now_date W - 1), add_log (watermark_error_record e) s))
  /\ (query_fault W = None -> db_table s = Some [] ->
      Incremental.get_last_loaded_date W (Some g) s = (Ok (now_date W - 1), s))
  /\ (exists e,
         Incremental.get_last_loaded_date W None s =
         (Ok (now_date W - 1), add_log (watermark_error_record e) s)).
Proof.
  intros H. split; [|split; [|split]].
  - intros rows m Hq Hdb Hm. split; [|apply max_date_greatest; exact Hm].
    rewrite get_last_loaded_date_run by exact H. unfold max_query.
    rewrite Hq, Hdb, Hm. reflexivity.
  - intros e He. rewrite get_last_loaded_date_run by exact H. rewrite He. reflexivity.
  - intros Hq Hdb. rewrite get_last_loaded_date_run by exact H. unfold max_query.
    rewrite Hq, Hdb. reflexivity.
  - apply get_last_loaded_date_no_engine. exact H.
Qed.

Lemma last_loaded_date_or_yesterday_witness :
  let W := sample_world day_2024_01_05 [] None None None None in
  let W' := sample_world day_2024_01_05 [] None (Some server_gone) None None in
  let s := mk_state [] [] (Some [stored_row day_2024_01_04 "USD";
                                 stored_row day_2024_03_01 "USD";
                                 stored_row day_2024_01_05 "USD"]) None in
  let s0 := mk_state [] [] (Some []) None in
  Incremental.get_last_loaded_date W (Some PgEngine) s = (Ok day_2024_03_01, s)
  /\ Incremental.get_last_loaded_date W (Some PgEngine) s0
     = (Ok (day_2024_01_05 - 1), s0)
  /\ Incremental.get_last_loaded_date W' (Some PgEngine) s
     = (Ok (day_2024_01_05 - 1), add_log (watermark_error_record server_gone) s).
Proof.
  intros W W' s s0.
  assert (Hc : clock_ok W) by sample_dates.
  assert (Hc' : clock_ok W') by sample_dates.
  destruct (last_loaded_date_or_yesterday W PgEngine s Hc) as (Hmax & _).
  destruct (last_loaded_date_or_yesterday W PgEngine s0 Hc) as (_ & _ & Hnone & _).
  destruct (last_loaded_date_or_yesterday W' PgEngine s Hc') as (_ & Herr & _).
  split; [|split].
  - exact (proj1 (Hmax _ day_2024_03_01 eq_refl eq_refl eq_refl)).
  - exact (Hnone eq_refl eq_refl).
  - exact (Herr server_gone eq_refl).
Defined.

(* ------------------------------------------------------------------ *)
(** ** Orchestrator: the incremental run *)

Lemma state_eq (s s' : State) :
  log s = log s' -> trace s = trace s' -> db_table s = db_table s' ->
  csv_file s = csv_file s' -> s = s'.
Proof. destruct s, s'; simpl; intros; subst; reflexivity. Qed.

Ltac state_eq :=
  apply state_eq; cbn; rewrite ?app_nil_r; rewrite <- ?app_assoc; try reflexivity.

Lemma fetch_all_run (W : World) (dates : list Z) (all_data : list DataFrame) (s : State) :
  Incremental.fetch_all W dates all_data s =
  (Ok (all_data ++ batch W dates), after_fetches W dates s).
Proof.
  revert all_data s. induction dates as [|d dates IH]; intros all_data s.
  - cbn [Incremental.fetch_all]. unfold ret, batch, after_fetches. cbn.
    rewrite app_nil_r. f_equal. state_eq.
  - cbn [Incremental.fetch_all]. unfold bind at 1.
    rewrite get_cbr_rates_incremental_run. cbn [requested].
    unfold batch, fetched_incremental, after_fetches. cbn [map flat_map filter].
    unfold fetch_log at 1.
    destruct (parse_incremental W d) as [df|e]; cbn [frame_or_empty].
    + change (negb (df_empty df)) with (nonempty df).
      destruct (nonempty df).
      * unfold bind, logger. rewrite IH. rewrite <- app_assoc. f_equal. state_eq.
      * rewrite IH. f_equal. state_eq.
    + change (negb (df_empty empty_frame)) with false.
      change (nonempty empty_frame) with false. cbn iota.
      rewrite IH. f_equal. state_eq.
Qed.

Lemma add_days_one (w : Z) :
  valid_date (w + 1) -> Calendar.add_days w 1 = Ok (w + 1).
Proof.
  unfold valid_date, Calendar.add_days. intros H.
  replace ((0 <? w + 1) && (w + 1 <=? Calendar.MAXORDINAL)) with true
    by (symmetry; apply andb_true_iff; lia).
  reflexivity.
Qed.

(** The run of the body of [main], phase by phase. *)
Lemma main_body_run (W : World) (s : State) :
  clock_ok W ->
  Incremental.main_body W s =
  let s1 := add_logs (watermark_logs W s) s in
  let w := watermark W s in
  match Calendar.add_days w 1 with
  | Raise e => (Raise e, s1)
  | Ok start_date =>
      if now_date W <? start_date then (Ok tt, add_log (no_new_record w) s1)
      else
        let dates := Calendar.date_range start_date (now_date W) in
        let s2 := after_fetches W dates
                                (add_log (loading_record start_date (now_date W)) s1) in
        match batch W dates with
        | [] => (Ok tt, add_log nothing_record s2)
        | all_data =>
            match Pandas.concat all_data with
            | Raise e => (Raise e, s2)
            | Ok final_df =>
                (Ok tt, snd (Incremental.save_data W final_df (engine_of W) s2))
            end
        end
  end.
Proof.
  intros Hclock. cbv zeta.
  unfold Incremental.main_body. unfold bind at 1.
  rewrite get_db_engine_incremental_run.
  unfold watermark, watermark_logs, engine_of.
  assert (Hloop : forall (w : Z) (s1 : State) (engine : option Engine),
             (start_date <- lift (Calendar.add_days w 1) ;;
              (if now_date W <? start_date
               then logger INFO [Lit "Нет новых данных для загрузки (последняя дата: ";
                                 FDate w; Lit ")"]
               else
                 logger INFO [Lit "Загрузка данных с "; FDate start_date; Lit " по ";
                              FDate (now_date W)] ;;
                 all_data <- Incremental.fetch_all
                               W (Calendar.date_range start_date (now_date W)) [] ;;
                 match all_data with
                 | [] => logger WARNING [Lit "Нет новых данных для сохранения"]
                 | _ :: _ =>
                     final_df <- lift (Pandas.concat all_data) ;;
                     Incremental.save_data W final_df engine ;; ret tt
                 end)) s1 =
             match Calendar.add_days w 1 with
             | Raise e => (Raise e, s1)
             | Ok start_date =>
                 if now_date W <? start_date then (Ok tt, add_log (no_new_record w) s1)
                 else
                   let dates := Calendar.date_range start_date (now_date W) in
                   let s2 := after_fetches
                               W dates
                               (add_log (loading_record start_date (now_date W)) s1) in
                   match batch W dates with
                   | [] => (Ok tt, add_log nothing_record s2)
                   | all_data =>
                       match Pandas.concat all_data with
                       | Raise e => (Raise e, s2)
                       | Ok final_df =>
                           (Ok tt, snd (Incremental.save_data W final_df engine s2))
                       end
                   end
             end).
  { intros w s1 engine. unfold bind at 1. unfold lift at 1.
    destruct (Calendar.add_days w 1) as [start|e]; [|reflexivity].
    destruct (now_date W <? start); [reflexivity|].
    unfold bind at 1. unfold logger at 1. unfold bind at 1.
    rewrite fetch_all_run. cbn [app]. cbv zeta.
    fold (add_log (loading_record start (now_date W)) s1).
    destruct (batch W (Calendar.date_range start (now_date W))) as [|f fs];
      [reflexivity|].
    unfold bind at 1. unfold lift at 1.
    destruct (Pandas.concat (f :: fs)) as [final|e]; [|reflexivity].
    unfold bind, ret.
    destruct (Incremental.save_data W final engine _) as [[b|e] s3] eqn:E.
    - reflexivity.
    - exfalso. destruct engine as [g|].
      + rewrite save_data_store_run in E. destruct (to_sql_fault W final); discriminate.
      + rewrite save_data_file_run in E. destruct (to_csv_fault W final); discriminate. }
  destruct (connect_fault W) as [e|].
  - unfold bind at 1. unfold logger at 1. unfold bind at 1.
    rewrite yesterday_run by exact Hclock.
    rewrite Hloop.
    replace (add_logs [connect_error_record e; no_engine_record] s)
      with (mk_state
              (log (add_log (connect_error_record e) s)
               ++ [(ERROR,
                    [Lit "Не удалось подключиться к БД, используем резервное сохранение"])])
              (trace (add_log (connect_error_record e) s))
              (db_table (add_log (connect_error_record e) s))
              (csv_file (add_log (connect_error_record e) s)))
      by state_eq.
    reflexivity.
  - unfold bind at 1. unfold ret at 1. unfold bind at 1.
    rewrite get_last_loaded_date_run by exact Hclock.
    replace (max_query W (add_log connected_record s)) with (max_query W s) by reflexivity.
    destruct (max_query W s) as [[d|]|e]; rewrite Hloop.
    + replace (add_logs [connected_record] s) with (add_log connected_record s)
        by state_eq.
      reflexivity.
    + replace (add_logs [connected_record] s) with (add_log connected_record s)
        by state_eq.
      reflexivity.
    + replace (add_logs [connected_record; watermark_error_record e] s)
        with (add_log (watermark_error_record e) (add_log connected_record s))
        by state_eq.
      reflexivity.
Qed.

Lemma main_run (W : World) (s : State) :
  Incremental.main W s =
  match Incremental.main_body W s with
  | (Ok _, s') => (Ok tt, s')
  | (Raise e, s') => (Ok tt, add_log (critical_record e) s')
  end.
Proof.
  unfold Incremental.main, try_except.
  destruct (Incremental.main_body W s) as [[[]|e] s']; reflexivity.
Qed.

Lemma requests_app (a b : list event) : requests (a ++ b) = requests a ++ requests b.
Proof. apply filter_app. Qed.

Lemma writes_app (a b : list event) : writes (a ++ b) = writes a ++ writes b.
Proof. apply filter_app. Qed.

Lemma requests_request_of (dates : list Z) :
  requests (map request_of dates) = map request_of dates.
Proof. induction dates as [|d dates IH]; cbn; [reflexivity | f_equal; exact IH]. Qed.

Lemma writes_request_of (dates : list Z) : writes (map request_of dates) = [].
Proof. induction dates as [|d dates IH]; cbn; [reflexivity | exact IH]. Qed.

Ltac flushed_cases :=
  repeat match goal with
         | |- context [match to_csv_flushed ?W ?d with _ => _ end] =>
             destruct (to_csv_flushed W d)
         end.

(** What one call of the incremental [save_data] does to the state: one
    write event, one log record, and the rows or lines appended when the
    write goes through; a write to the file that fails midway leaves the
    lines it got out. *)
Lemma save_data_effect (W : World) (df : DataFrame) (engine : option Engine) (s : State) :
  exists (b : bool) (ev : event) (r : log_record),
    Incremental.save_data W df engine s
    = (Ok b, add_log r (if b
                        then match engine with
                             | Some _ => append_rows (rows_of df) (add_event ev s)
                             | None =>
                                 append_lines (lines_of (negb (file_exists s)) df)
                                              (add_event ev s)
                             end
                        else match engine, to_csv_flushed W df with
                             | None, Some k =>
                                 append_lines
                                   (firstn k (lines_of (negb (file_exists s)) df))
                                   (add_event ev s)
                             | _, _ => add_event ev s
                             end))
    /\ is_write ev = true
    /\ (b = true <-> write_fault W df engine = None).
Proof.
  destruct engine as [g|]; cbn [write_fault].
  - rewrite save_data_store_run. destruct (to_sql_fault W df) as [e|].
    + exists false, (EvToSql df), (sql_error_record e).
      repeat split; try reflexivity; discriminate.
    + exists true, (EvToSql df), (sql_saved_record df). repeat split; reflexivity.
  - rewrite save_data_file_run. destruct (to_csv_fault W df) as [e|].
    + exists false, (EvToCsv (negb (file_exists s)) df), (csv_error_record e).
      split; [destruct (to_csv_flushed W df); reflexivity|].
      repeat split; try reflexivity; discriminate.
    + exists true, (EvToCsv (negb (file_exists s)) df), csv_saved_record.
      repeat split; reflexivity.
Qed.

(** The requests of a run of [main] are those of the planned range, in
    order, whatever the fetches return. *)
Lemma main_requests (W : World) (s : State) :
  clock_ok W -> valid_date (watermark W s + 1) ->
  requests (trace (snd (Incremental.main W s))) =
  requests (trace s)
  ++ map request_of (Calendar.date_range (watermark W s + 1) (now_date W)).
Proof.
  intros Hc Hd. rewrite main_run, main_body_run by exact Hc. cbv zeta.
  rewrite add_days_one by exact Hd.
  destruct (now_date W <? watermark W s + 1) eqn:E.
  - apply Z.ltb_lt in E. rewrite date_range_empty by exact E.
    cbn. rewrite app_nil_r. reflexivity.
  - set (dates := Calendar.date_range _ _).
    destruct (batch W dates) as [|f fs].
    + cbn. rewrite requests_app, requests_request_of. reflexivity.
    + destruct (Pandas.concat (f :: fs)) as [final|e].
      * destruct (save_data_effect W final (engine_of W)
                    (after_fetches W dates
                       (add_log (loading_record (watermark W s + 1) (now_date W))
                          (add_logs (watermark_logs W s) s))))
          as (b & ev & r & -> & Hev & _).
        cbn [snd]. destruct b, (engine_of W); flushed_cases; cbn;
          rewrite !requests_app, requests_request_of; cbn;
          destruct ev; try discriminate; cbn; rewrite app_nil_r; reflexivity.
      * cbn. rewrite requests_app, requests_request_of. reflexivity.
Qed.

Lemma last_record_app (l : list log_record) (r : log_record) :
  last_record (l ++ [r]) = Some r.
Proof. unfold last_record. rewrite rev_app_distr. reflexivity. Qed.

(** C5. In the incremental run the planned range is every day from the
    watermark plus one day through today, both ends included, ascending by
    day, and the provider is asked for exactly these days; when the start
    is after today the range is empty and the run ends normally with an
    informational record, requesting and persisting nothing. *)
Theorem incremental_range (W : World) (s : State) :
  clock_ok W -> valid_date (watermark W s + 1) ->
  let start_date := watermark W s + 1 in
  let dates := Calendar.date_range start_date (now_date W) in
  (forall d, In d dates <-> start_date <= d <= now_date W)
  /\ (forall i, (i < List.length dates)%nat -> nth i dates 0 = start_date + Z.of_nat i)
  /\ exists s',
      Incremental.main W s = (Ok tt, s')
      /\ requests (trace s') = requests (trace s) ++ map request_of dates
      /\ (now_date W < start_date ->
          dates = []
          /\ trace s' = trace s /\ db_table s' = db_table s /\ csv_file s' = csv_file s
          /\ log s' = log s ++ watermark_logs W s ++ [no_new_record (watermark W s)]).
Proof.
  intros Hc Hd start_date dates. split; [|split].
  - intros d. apply date_range_In.
  - intros i Hi. apply date_range_nth. subst dates.
    rewrite date_range_length in Hi. exact Hi.
  - pose proof (main_requests W s Hc Hd) as Hreq.
    destruct (Incremental.main W s) as [r s'] eqn:Hmain.
    assert (r = Ok tt) as ->.
    { rewrite main_run in Hmain.
      destruct (Incremental.main_body W s) as [[[]|e] s1]; congruence. }
    exists s'. split; [reflexivity|]. split; [exact Hreq|].
    intros Hlt. split; [apply date_range_empty; exact Hlt|].
    rewrite main_run, main_body_run in Hmain by exact Hc. cbv zeta in Hmain.
    rewrite add_days_one in Hmain by exact Hd.
    fold start_date in Hmain.
    replace (now_date W <? start_date) with true in Hmain
      by (symmetry; apply Z.ltb_lt; exact Hlt).
    injection Hmain as <-. cbn. rewrite <- app_assoc. repeat split; reflexivity.
Qed.

Lemma incremental_range_witness :
  let W := sample_world day_2024_01_05 [] None None None None in
  let s := mk_state [] [] (Some [stored_row day_2024_01_04 "USD";
                                 stored_row day_2024_01_05 "USD"]) None in
  watermark W s = day_2024_01_05
  /\ Calendar.date_range (watermark W s + 1) (now_date W) = []
  /\ exists s',
      Incremental.main W s = (Ok tt, s')
      /\ trace s' = [] /\ db_table s' = db_table s /\ csv_file s' = None
      /\ log s' = [connected_record; no_new_record day_2024_01_05].
Proof.
  intros W s.
  assert (Hc : clock_ok W) by sample_dates.
  assert (Hd : valid_date (watermark W s + 1)) by sample_dates.
  destruct (incremental_range W s Hc Hd) as (_ & _ & s' & Hmain & _ & Hempty).
  assert (Hlt : now_date W < watermark W s + 1) by sample_dates.
  destruct (Hempty Hlt) as (Hdates & Ht & Hdb & Hcsv & Hlog).
  split; [reflexivity|]. split; [exact Hdates|].
  exists s'. repeat split; assumption.
Defined.

(** C10. In the incremental run, when the planned range is not empty but
    every fetch returns an empty table, nothing is written: [save_data] is
    not called, the store and the fallback file stay as they were, and the
    run returns after logging a warning. *)
Theorem empty_batch_writes_nothing (W : World) (s : State) :
  clock_ok W -> valid_date (watermark W s + 1) ->
  watermark W s + 1 <= now_date W ->
  (forall d, watermark W s + 1 <= d <= now_date W ->
             df_empty (fetched_incremental W d) = true) ->
  exists s',
    Incremental.main W s = (Ok tt, s')
    /\ writes (trace s') = writes (trace s)
    /\ db_table s' = db_table s /\ csv_file s' = csv_file s
    /\ last_record (log s') = Some nothing_record
    /\ requests (trace s') =
       requests (trace s)
       ++ map request_of (Calendar.date_range (watermark W s + 1) (now_date W)).
Proof.
  intros Hc Hd Hle Hall.
  pose proof (main_requests W s Hc Hd) as Hreq.
  rewrite main_run, main_body_run in * by exact Hc. cbv zeta in *.
  rewrite add_days_one in * by exact Hd.
  replace (now_date W <? watermark W s + 1) with false in *
    by (symmetry; apply Z.ltb_ge; exact Hle).
  assert (Hbatch : batch W (Calendar.date_range (watermark W s + 1) (now_date W)) = []).
  { unfold batch. apply filter_none. intros df Hin. apply in_map_iff in Hin.
    destruct Hin as (d & <- & Hin). apply date_range_In in Hin.
    unfold nonempty. rewrite (Hall d Hin). reflexivity. }
  rewrite Hbatch in *. eexists. split; [reflexivity|].
  split; [|split; [reflexivity | split; [reflexivity | split]]].
  - cbn. rewrite writes_app, writes_request_of, app_nil_r. reflexivity.
  - cbn [log add_log]. apply last_record_app.
  - exact Hreq.
Qed.

Lemma empty_batch_writes_nothing_witness :
  let W := sample_world day_2024_03_03 [day_2024_03_02; day_2024_03_03]
                        None None None None in
  let s := mk_state [] [] (Some [stored_row day_2024_03_01 "USD"]) None in
  exists s',
    Incremental.main W s = (Ok tt, s')
    /\ writes (trace s') = []
    /\ db_table s' = Some [stored_row day_2024_03_01 "USD"] /\ csv_file s' = None
    /\ last_record (log s') = Some nothing_record
    /\ requests (trace s') = [request_of day_2024_03_02; request_of day_2024_03_03].
Proof.
  intros W s.
  assert (Hc : clock_ok W) by sample_dates.
  assert (Hd : valid_date (watermark W s + 1)) by sample_dates.
  assert (Hle : watermark W s + 1 <= now_date W) by sample_dates.
  assert (Hall : forall d, watermark W s + 1 <= d <= now_date W ->
                           df_empty (fetched_incremental W d) = true).
  { intros d Hd'.
    assert (d = day_2024_03_02 \/ d = day_2024_03_03) as [-> | ->] by sample_dates;
      reflexivity. }
  exact (empty_batch_writes_nothing W s Hc Hd Hle Hall).
Defined.

(* ------------------------------------------------------------------ *)
(** ** Orchestrator: the backfill run *)

Lemma extend_table_app (db : option (list row)) (a b : list DataFrame) :
  extend_table db (a ++ b) = extend_table (extend_table db a) b.
Proof. apply fold_left_app. Qed.

Lemma attempted_cons (W : World) (d : Z) (dates : list Z) :
  attempted W (d :: dates) =
  (if nonempty (fetched_backfill W d) then [fetched_backfill W d] else [])
  ++ attempted W dates.
Proof.
  unfold attempted. cbn [map filter].
  destruct (nonempty (fetched_backfill W d)); reflexivity.
Qed.

Lemma stored_cons (W : World) (d : Z) (dates : list Z) :
  stored W (d :: dates) =
  (if nonempty (fetched_backfill W d)
   then match to_sql_fault W (fetched_backfill W d) with
        | None => [fetched_backfill W d]
        | Some _ => []
        end
   else [])
  ++ stored W dates.
Proof.
  unfold stored. rewrite attempted_cons.
  destruct (nonempty (fetched_backfill W d)); [|reflexivity].
  cbn [app filter]. destruct (to_sql_fault W (fetched_backfill W d)); reflexivity.
Qed.

(** The loop of the backfill never raises: it asks for every date, and
    stores the table of each date whose fetch gives one and whose write goes
    through. *)
Lemma load_all_run (W : World) (g : Engine) (dates : list Z) (s : State) :
  exists s',
    Backfill.load_all W g dates s = (Ok tt, s')
    /\ requests (trace s') = requests (trace s) ++ map request_of dates
    /\ writes (trace s') = writes (trace s) ++ map EvToSql (attempted W dates)
    /\ db_table s' = extend_table (db_table s) (stored W dates)
    /\ csv_file s' = csv_file s.
Proof.
  revert s. induction dates as [|d dates IH]; intros s.
  - exists s. cbn. rewrite !app_nil_r. repeat split; reflexivity.
  - rewrite attempted_cons, stored_cons, map_app, extend_table_app.
    cbn [Backfill.load_all]. unfold bind at 1.
    rewrite get_cbr_rates_backfill_run. unfold fetched_backfill.
    assert (Hstep :
              forall s0 : State,
                requests (trace s0) = requests (trace s) ++ [request_of d] ->
                writes (trace s0) =
                writes (trace s)
                ++ map EvToSql (if nonempty (frame_or_empty (parse_backfill W d))
                                then [frame_or_empty (parse_backfill W d)] else []) ->
                db_table s0 =
                extend_table
                  (db_table s)
                  (if nonempty (frame_or_empty (parse_backfill W d))
                   then match to_sql_fault W (frame_or_empty (parse_backfill W d)) with
                        | None => [frame_or_empty (parse_backfill W d)]
                        | Some _ => []
                        end
                   else []) ->
                csv_file s0 = csv_file s ->
                exists s',
                  Backfill.load_all W g dates s0 = (Ok tt, s')
                  /\ requests (trace s') =
                     requests (trace s) ++ map request_of (d :: dates)
                  /\ writes (trace s') =
                     writes (trace s)
                     ++ map EvToSql
                          (if nonempty (frame_or_empty (parse_backfill W d))
                           then [frame_or_empty (parse_backfill W d)] else [])
                     ++ map EvToSql (attempted W dates)
                  /\ db_table s' =
                     extend_table
                       (extend_table
                          (db_table s)
                          (if nonempty (frame_or_empty (parse_backfill W d))
                           then match to_sql_fault
                                        W (frame_or_empty (parse_backfill W d)) with
                                | None => [frame_or_empty (parse_backfill W d)]
                                | Some _ => []
                                end
                           else []))
                       (stored W dates)
                  /\ csv_file s' = csv_file s).
    { intros s0 Hr0 Hw0 Hdb0 Hcsv0.
      destruct (IH s0) as (s' & Hrun & Hr & Hw & Hdb & Hcsv).
      exists s'. split; [exact Hrun|].
      rewrite Hr, Hw, Hdb, Hcsv, Hr0, Hw0, Hdb0, Hcsv0, <- !app_assoc.
      repeat split; reflexivity. }
    destruct (parse_backfill W d) as [df|e]; cbn [frame_or_empty] in *.
    + change (negb (df_empty df)) with (nonempty df).
      destruct (nonempty df) eqn:Hne.
      * unfold bind at 1. unfold bind at 1. rewrite save_data_backfill_run.
        destruct (to_sql_fault W df) as [e|].
        -- cbn [negb]. unfold logger at 1. unfold bind at 1. unfold emit at 1.
           apply Hstep; cbn; rewrite ?requests_app, ?writes_app; cbn;
             rewrite ?app_nil_r, <- ?app_assoc; reflexivity.
        -- destruct (Backfill.first_date df) as [v|e]; cbn [negb].
           ++ unfold ret at 1. unfold bind at 1. unfold emit at 1.
              apply Hstep; cbn; rewrite ?requests_app, ?writes_app; cbn;
                rewrite ?app_nil_r, <- ?app_assoc; reflexivity.
           ++ unfold logger at 1. unfold bind at 1. unfold emit at 1.
              apply Hstep; cbn; rewrite ?requests_app, ?writes_app; cbn;
                rewrite ?app_nil_r, <- ?app_assoc; reflexivity.
      * unfold bind at 1. unfold logger at 1. unfold bind at 1. unfold emit at 1.
        apply Hstep; cbn; rewrite ?requests_app, ?writes_app; cbn;
          rewrite ?app_nil_r, <- ?app_assoc; reflexivity.
    + change (negb (df_empty empty_frame)) with false.
      change (nonempty empty_frame) with false in *. cbn iota in *.
      unfold bind at 1. unfold logger at 1. unfold bind at 1. unfold emit at 1.
      apply Hstep; cbn; rewrite ?requests_app, ?writes_app; cbn;
        rewrite ?app_nil_r, <- ?app_assoc; reflexivity.
Qed.

Lemma backfill_main_run (W : World) (s : State) :
  match connect_fault W with
  | Some e =>
      Backfill.main W s
      = (Ok (Backfill.SysExit 1), add_log (connect_error_record_backfill e) s)
  | None =>
      exists s',
        Backfill.main W s = (Ok Backfill.Returned, add_log backfill_done_record s')
        /\ requests (trace s') =
           requests (trace s)
           ++ map request_of (Calendar.date_range Backfill.start_date Backfill.end_date)
        /\ db_table s' =
           extend_table (db_table s)
                        (stored W (Calendar.date_range Backfill.start_date
                                                       Backfill.end_date))
        /\ csv_file s' = csv_file s
  end.
Proof.
  pose proof (get_db_engine_backfill_run W s) as Hengine.
  destruct (connect_fault W) as [e|];
    unfold Backfill.main; unfold bind at 1; rewrite Hengine; [reflexivity|].
  unfold bind at 1. unfold logger at 1. unfold bind at 1.
  match goal with |- context [Backfill.load_all W PgEngine ?ds ?s0] =>
    destruct (load_all_run W PgEngine ds s0) as (s' & -> & Hr & _ & Hdb & Hcsv) end.
  exists s'. split; [reflexivity|].
  cbn [trace log db_table csv_file] in Hr, Hdb, Hcsv. auto.
Qed.






(* ------------------------------------------------------------------ *)
(** ** Stacking tables of one shape *)

Lemma alike_cols_labels (x y : list (string * column)) :
  alike_cols x y = true -> map fst x = map fst y.
Proof.
  revert y. induction x as [|[n c] x IH]; intros [|[m d] y] H; try discriminate;
    [reflexivity|].
  cbn in H. apply andb_prop in H. destruct H as [H Hxy].
  apply andb_prop in H. destruct H as [Hn _]. apply String.eqb_eq in Hn.
  cbn. f_equal; [exact Hn | apply IH; exact Hxy].
Qed.

Lemma cells_stack (c d : column) :
  same_dtype c d = true ->
  column_cells (Pandas.stack c d) = column_cells c ++ column_cells d.
Proof.
  destruct c, d; try discriminate; intros _; cbn; rewrite ?map_app; reflexivity.
Qed.

Lemma same_dtype_stack (c d e : column) :
  same_dtype c d = true -> same_dtype (Pandas.stack c d) e = same_dtype c e.
Proof. destruct c, d; try discriminate; reflexivity. Qed.

Lemma alike_cols_stack (x y z : list (string * column)) :
  alike_cols x y = true ->
  alike_cols (Pandas.zip_with (fun a b => (fst a, Pandas.stack (snd a) (snd b))) x y) z
  = alike_cols x z.
Proof.
  revert y z. induction x as [|[n c] x IH]; intros [|[m d] y] z H; try discriminate;
    [reflexivity|].
  cbn in H. apply andb_prop in H. destruct H as [H Hxy].
  apply andb_prop in H. destruct H as [_ Hcd].
  destruct z as [|[k e] z]; [reflexivity|].
  cbn. rewrite (same_dtype_stack c d e Hcd), (IH y z Hxy). reflexivity.
Qed.

Lemma map_seq_from {A : Type} (f : nat -> A) (n m : nat) :
  map f (seq n m) = map (fun j => f (n + j)%nat) (seq 0 m).
Proof.
  revert n. induction m as [|m IH]; intros n; cbn; [reflexivity|].
  rewrite Nat.add_0_r. f_equal. rewrite (IH (S n)), <- seq_shift, map_map.
  apply map_ext. intros j. f_equal. lia.
Qed.

Lemma cells_at_stack_left (x y : list (string * column)) (n i : nat) :
  alike_cols x y = true ->
  forallb (fun nc => Nat.eqb (column_len (snd nc)) n) x = true ->
  (i < n)%nat ->
  cells_at i (Pandas.zip_with (fun a b => (fst a, Pandas.stack (snd a) (snd b))) x y)
  = cells_at i x.
Proof.
  revert y. induction x as [|[k c] x IH]; intros [|[m d] y] H Hlen Hi; try discriminate;
    [reflexivity|].
  cbn in H. apply andb_prop in H. destruct H as [H Hxy].
  apply andb_prop in H. destruct H as [_ Hcd].
  cbn in Hlen. apply andb_prop in Hlen. destruct Hlen as [Hc Hlen].
  apply Nat.eqb_eq in Hc. unfold column_len in Hc.
  cbn. rewrite (cells_stack c d Hcd), app_nth1 by lia.
  f_equal. apply IH; assumption.
Qed.

Lemma cells_at_stack_right (x y : list (string * column)) (n j : nat) :
  alike_cols x y = true ->
  forallb (fun nc => Nat.eqb (column_len (snd nc)) n) x = true ->
  cells_at (n + j) (Pandas.zip_with (fun a b => (fst a, Pandas.stack (snd a) (snd b))) x y)
  = cells_at j y.
Proof.
  revert y. induction x as [|[k c] x IH]; intros [|[m d] y] H Hlen; try discriminate;
    [reflexivity|].
  cbn in H. apply andb_prop in H. destruct H as [H Hxy].
  apply andb_prop in H. destruct H as [Hkm Hcd]. apply String.eqb_eq in Hkm.
  cbn in Hlen. apply andb_prop in Hlen. destruct Hlen as [Hc Hlen].
  apply Nat.eqb_eq in Hc. unfold column_len in Hc.
  cbn. rewrite (cells_stack c d Hcd), app_nth2 by lia.
  replace (n + j - List.length (column_cells c))%nat with j by lia.
  rewrite Hkm. f_equal. apply IH; assumption.
Qed.

Lemma forallb_len_stack (x y : list (string * column)) (n m : nat) :
  alike_cols x y = true ->
  forallb (fun nc => Nat.eqb (column_len (snd nc)) n) x = true ->
  forallb (fun nc => Nat.eqb (column_len (snd nc)) m) y = true ->
  forallb (fun nc => Nat.eqb (column_len (snd nc)) (n + m))
          (Pandas.zip_with (fun a b => (fst a, Pandas.stack (snd a) (snd b))) x y) = true.
Proof.
  revert y. induction x as [|[k c] x IH]; intros [|[l d] y] H Hx Hy; try discriminate;
    [reflexivity|].
  cbn in H. apply andb_prop in H. destruct H as [H Hxy].
  apply andb_prop in H. destruct H as [_ Hcd].
  cbn in Hx, Hy. apply andb_prop in Hx, Hy. destruct Hx as [Hc Hx], Hy as [Hd Hy].
  apply Nat.eqb_eq in Hc, Hd. unfold column_len in *.
  cbn. rewrite (cells_stack c d Hcd), length_app, Hc, Hd, Nat.eqb_refl.
  apply IH; assumption.
Qed.

(** Stacking two tables of one shape puts the records of the second under
    those of the first, and keeps the shape. *)
Lemma stack_alike (a b : DataFrame) :
  well_formed a = true -> well_formed b = true -> alike a b = true ->
  Pandas.concat2 a b = Ok (Pandas.stack_positional a b)
  /\ rows_of (Pandas.stack_positional a b) = rows_of a ++ rows_of b
  /\ well_formed (Pandas.stack_positional a b) = true
  /\ forall c, alike (Pandas.stack_positional a b) c = alike a c.
Proof.
  intros Ha Hb Hab. unfold well_formed, alike in *. repeat split.
  - unfold Pandas.concat2, Pandas.same_labels, column_names.
    rewrite (alike_cols_labels _ _ Hab).
    destruct (list_eq_dec _ _ _); [reflexivity | contradiction].
  - unfold rows_of, Pandas.stack_positional. cbn [index_len].
    rewrite seq_app, map_app. f_equal.
    + apply map_ext_in. intros i Hi. apply in_seq in Hi.
      apply (cells_at_stack_left _ _ (index_len a)); [assumption | assumption | lia].
    + cbn [Nat.add]. rewrite map_seq_from.
      apply map_ext. intros j.
      apply (cells_at_stack_right _ _ (index_len a)); assumption.
  - apply forallb_len_stack; assumption.
  - intros c. apply alike_cols_stack. exact Hab.
Qed.

Lemma concat_onto_uniform (acc : DataFrame) (frames : list DataFrame) :
  well_formed acc = true ->
  Forall (fun x => well_formed x = true /\ alike acc x = true) frames ->
  exists final_df,
    Pandas.concat_onto acc frames = Ok final_df
    /\ rows_of final_df = rows_of acc ++ flat_map rows_of frames.
Proof.
  revert acc. induction frames as [|f frames IH]; intros acc Hacc Hall.
  - exists acc. cbn. rewrite app_nil_r. split; reflexivity.
  - inversion Hall as [|? ? [Hf Haf] Hrest]; subst.
    destruct (stack_alike acc f Hacc Hf Haf) as (Hcat & Hrows & Hwf & Halike).
    cbn [Pandas.concat_onto]. rewrite Hcat.
    destruct (IH (Pandas.stack_positional acc f) Hwf) as (final & Hfinal & Hfr).
    + apply Forall_forall. intros x Hx.
      rewrite Forall_forall in Hrest. destruct (Hrest x Hx) as [Hx1 Hx2].
      rewrite Halike. split; assumption.
    + exists final. split; [exact Hfinal|].
      rewrite Hfr, Hrows. cbn [flat_map]. rewrite app_assoc. reflexivity.
Qed.

(** Concatenating tables of one shape keeps every record, in order. *)
Lemma concat_uniform (frames : list DataFrame) :
  uniform frames -> frames <> [] ->
  exists final_df,
    Pandas.concat frames = Ok final_df
    /\ rows_of final_df = flat_map rows_of frames.
Proof.
  destruct frames as [|f fs]; [intros _ H; contradiction|].
  intros [Hf Hall] _. cbn [Pandas.concat flat_map].
  apply concat_onto_uniform; assumption.
Qed.

(** Canonical tables with text codes and names have one shape. *)
Lemma canonical_frames_alike (n n' : nat) (d d' : Z) (codes names codes' names' : list cell)
      (noms noms' : list Z) (vals vals' : list float) :
  alike (canonical_frame n d (ColObj codes) (ColObj names) noms vals)
        (canonical_frame n' d' (ColObj codes') (ColObj names') noms' vals') = true.
Proof. reflexivity. Qed.

Lemma canonical_frame_well_formed (n : nat) (d : Z) (codes names : list cell)
      (noms : list Z) (vals : list float) :
  List.length codes = n -> List.length names = n ->
  List.length noms = n -> List.length vals = n ->
  well_formed (canonical_frame n d (ColObj codes) (ColObj names) noms vals) = true.
Proof.
  intros Hc Hn Hnom Hv. unfold well_formed, canonical_frame, column_len, rates.
  cbn [columns index_len forallb snd column_cells].
  assert (Hz : forall (A B C : Type) (f : A -> B -> C) (x : list A) (y : list B),
             List.length x = List.length y ->
             List.length (Pandas.zip_with f x y) = List.length x).
  { intros A B C f x. induction x as [|a x IH]; intros [|b y] H; try discriminate;
      [reflexivity|]. cbn. f_equal. apply IH. injection H as H. exact H. }
  rewrite repeat_length, !length_map, Hz by congruence.
  rewrite Hc, Hn, Hnom, Hv, Nat.eqb_refl. reflexivity.
Qed.

(* ------------------------------------------------------------------ *)
(** ** Failure isolation *)

Lemma table_rows_extend (db : option (list row)) (frames : list DataFrame) :
  match extend_table db frames with Some rows => rows | None => [] end
  = match db with Some rows => rows | None => [] end ++ flat_map rows_of frames.
Proof.
  revert db. induction frames as [|f frames IH]; intros db.
  - cbn. rewrite app_nil_r. reflexivity.
  - unfold extend_table in *. cbn [fold_left flat_map]. rewrite IH.
    destruct db; cbn; rewrite ?app_assoc; reflexivity.
Qed.

Lemma flat_map_batch (W : World) (dates : list Z) :
  flat_map rows_of (batch W dates)
  = flat_map (fun d => records (fetched_incremental W d)) (yielding_incremental W dates).
Proof.
  unfold batch, yielding_incremental.
  induction dates as [|d dates IH]; cbn [map filter flat_map]; [reflexivity|].
  destruct (nonempty (fetched_incremental W d)); cbn [flat_map]; rewrite IH; reflexivity.
Qed.

Lemma attempted_yielding (W : World) (dates : list Z) :
  attempted W dates = map (fetched_backfill W) (yielding_backfill W dates).
Proof.
  unfold attempted, yielding_backfill.
  induction dates as [|d dates IH]; cbn [map filter]; [reflexivity|].
  destruct (nonempty (fetched_backfill W d)); cbn [map]; rewrite IH; reflexivity.
Qed.

Lemma flat_map_stored (W : World) (dates : list Z) :
  flat_map rows_of (stored W dates)
  = flat_map (fun d => records (fetched_backfill W d)) (stored_dates W dates).
Proof.
  unfold stored, stored_dates. rewrite attempted_yielding.
  induction (yielding_backfill W dates) as [|d ds IH]; cbn [map filter flat_map];
    [reflexivity|].
  destruct (to_sql_fault W (fetched_backfill W d)); cbn [flat_map]; rewrite IH;
    reflexivity.
Qed.

(** C6. A failed or empty fetch for one date does not stop the loop. In
    the incremental run every date of the planned range is requested; when
    the tables fetched have one shape, the table written holds exactly the
    records of the dates that yielded one, date after date, and once the
    write goes through these records stand in the store, or in the
    fallback file, behind what was there. In the backfill every date is
    requested, the table of each date that yields one is written on its
    own, and the store ends with the records of every date whose write
    went through. A date whose fetch fails contributes nothing. *)
Theorem failure_isolation (W : World) (s : State) (g : Engine) (range : list Z) :
  clock_ok W -> valid_date (watermark W s + 1) ->
  let dates := Calendar.date_range (watermark W s + 1) (now_date W) in
  (exists s',
      Incremental.main W s = (Ok tt, s')
      /\ requests (trace s') = requests (trace s) ++ map request_of dates
      /\ (uniform (batch W dates) -> yielding_incremental W dates <> [] ->
          exists final_df,
            Pandas.concat (batch W dates) = Ok final_df
            /\ records final_df
               = flat_map (fun d => records (fetched_incremental W d))
                          (yielding_incremental W dates)
            /\ (write_fault W final_df (engine_of W) = None ->
                match engine_of W with
                | Some _ => table_rows s' = table_rows s ++ records final_df
                | None =>
                    file_lines s'
                    = file_lines s
                      ++ (if file_exists s then []
                          else [CsvHeader (column_names final_df)])
                      ++ record_lines final_df
                end)))
  /\ (exists s',
         Backfill.load_all W g range s = (Ok tt, s')
         /\ requests (trace s') = requests (trace s) ++ map request_of range
         /\ writes (trace s') =
            writes (trace s)
            ++ map (fun d => EvToSql (fetched_backfill W d)) (yielding_backfill W range)
         /\ table_rows s'
            = table_rows s
              ++ flat_map (fun d => records (fetched_backfill W d))
                          (stored_dates W range)).
Proof.
  intros Hc Hd dates. split.
  - pose proof (main_requests W s Hc Hd) as Hreq.
    destruct (Incremental.main W s) as [r s'] eqn:Hmain.
    assert (r = Ok tt) as ->.
    { rewrite main_run in Hmain.
      destruct (Incremental.main_body W s) as [[[]|e] s1]; congruence. }
    exists s'. split; [reflexivity|]. split; [exact Hreq|].
    intros Hu Hne.
    assert (Hb : batch W dates <> []).
    { intros E. apply Hne. pose proof (flat_map_batch W dates) as Hfm.
      unfold batch, yielding_incremental in *. clear - E.
      induction dates as [|d ds IH]; [reflexivity|]. cbn [map filter] in *.
      destruct (nonempty (fetched_incremental W d)); [discriminate | exact (IH E)]. }
    destruct (concat_uniform _ Hu Hb) as (final & Hcat & Hrows).
    exists final. split; [exact Hcat|].
    split; [rewrite <- rows_of_records, Hrows; apply flat_map_batch|].
    intros Hok.
    rewrite main_run, main_body_run in Hmain by exact Hc. cbv zeta in Hmain.
    rewrite add_days_one in Hmain by exact Hd. fold dates in Hmain.
    destruct (now_date W <? watermark W s + 1) eqn:E.
    { apply Z.ltb_lt in E. unfold dates in Hb.
      rewrite date_range_empty in Hb by exact E. contradiction Hb. reflexivity. }
    destruct (batch W dates) as [|f fs] eqn:Hbatch; [contradiction Hb; reflexivity|].
    rewrite Hcat in Hmain.
    destruct (engine_of W) as [g'|]; cbn [write_fault] in Hok.
    + rewrite save_data_store_run, Hok in Hmain. injection Hmain as <-.
      unfold table_rows. cbn. destruct (db_table s); reflexivity.
    + rewrite save_data_file_run, Hok in Hmain. injection Hmain as <-.
      unfold file_lines, file_exists. cbn. destruct (csv_file s); reflexivity.
  - destruct (load_all_run W g range s) as (s' & Hrun & Hr & Hw & Hdb & _).
    exists s'. split; [exact Hrun|]. split; [exact Hr|]. split.
    + rewrite Hw, attempted_yielding, map_map. reflexivity.
    + unfold table_rows. rewrite Hdb, table_rows_extend, flat_map_stored. reflexivity.
Qed.

Lemma failure_isolation_witness :
  let W := sample_world day_2024_03_03 [day_2024_03_02] None None None None in
  let s := mk_state [] [] (Some [stored_row day_2024_02_29 "USD"]) None in
  let usd d := [("Date", VDate d); ("CurrencyCode", VStr "USD");
                ("CurrencyName", VStr "US Dollar"); ("Nominal", VInt 1);
                ("Value", VFloat 90.5%float); ("Rate", VFloat 90.5%float)] in
  let jpy d := [("Date", VDate d); ("CurrencyCode", VStr "JPY");
                ("CurrencyName", VStr "Yen"); ("Nominal", VInt 100);
                ("Value", VFloat 25%float); ("Rate", VFloat 0.25%float)] in
  (exists s',
      Incremental.main W s = (Ok tt, s')
      /\ requests (trace s')
         = [request_of day_2024_03_01; request_of day_2024_03_02;
            request_of day_2024_03_03]
      /\ table_rows s'
         = [stored_row day_2024_02_29 "USD";
            usd day_2024_03_01; jpy day_2024_03_01;
            usd day_2024_03_03; jpy day_2024_03_03])
  /\ (exists s',
         Backfill.load_all W PgEngine [day_2024_03_01; day_2024_03_02; day_2024_03_03] s
         = (Ok tt, s')
         /\ table_rows s'
            = [stored_row day_2024_02_29 "USD";
               usd day_2024_03_01; jpy day_2024_03_01;
               usd day_2024_03_03; jpy day_2024_03_03]).
Proof.
  intros W s usd jpy.
  assert (Hc : clock_ok W) by sample_dates.
  assert (Hd : valid_date (watermark W s + 1)) by sample_dates.
  destruct (failure_isolation W s PgEngine
                              [day_2024_03_01; day_2024_03_02; day_2024_03_03] Hc Hd)
    as [(s' & Hmain & Hreq & Hsave) (s'' & Hload & _ & _ & Hrows'')].
  split.
  - destruct Hsave as (final & _ & Hrecords & Hstore).
    + replace (batch W (Calendar.date_range (watermark W s + 1) (now_date W)))
        with [fetched_incremental W day_2024_03_01; fetched_incremental W day_2024_03_03]
        by (vm_compute; reflexivity).
      split; [vm_compute; reflexivity|].
      constructor; [split; vm_compute; reflexivity | constructor].
    + vm_compute. discriminate.
    + exists s'. split; [exact Hmain|]. split; [exact Hreq|].
      specialize (Hstore eq_refl). cbn [engine_of W sample_world connect_fault] in Hstore.
      rewrite Hstore, Hrecords. vm_compute. reflexivity.
  - exists s''. split; [exact Hload|]. rewrite Hrows''. vm_compute. reflexivity.
Defined.

(* ------------------------------------------------------------------ *)
(** ** Watermark progress *)

(** The table only grows in a run: [to_sql] appends. *)
Lemma main_table_grows (W : World) (s : State) :
  clock_ok W ->
  exists extra, table_rows (snd (Incremental.main W s)) = table_rows s ++ extra.
Proof.
  intros Hc. rewrite main_run, main_body_run by exact Hc. cbv zeta.
  destruct (Calendar.add_days (watermark W s) 1) as [start|e];
    [|exists []; rewrite app_nil_r; reflexivity].
  destruct (now_date W <? start); [exists []; rewrite app_nil_r; reflexivity|].
  destruct (batch W _) as [|f fs]; [exists []; rewrite app_nil_r; reflexivity|].
  destruct (Pandas.concat (f :: fs)) as [final|e];
    [|exists []; rewrite app_nil_r; reflexivity].
  match goal with |- context [Incremental.save_data W final ?en ?s0] =>
    destruct (save_data_effect W final en s0) as (b & ev & r & -> & _ & _) end.
  destruct b, (engine_of W); flushed_cases; unfold table_rows; cbn;
    try (exists []; rewrite app_nil_r; reflexivity).
  exists (rows_of final). destruct (db_table s); reflexivity.
Qed.

Lemma run_all_table_grows (worlds : list World) (s : State) :
  Forall clock_ok worlds ->
  exists extra, table_rows (run_all worlds s) = table_rows s ++ extra.
Proof.
  revert s. induction worlds as [|W worlds IH]; intros s Hall.
  - exists []. cbn. rewrite app_nil_r. reflexivity.
  - inversion Hall as [|? ? HW Hrest]; subst. cbn [run_all].
    destruct (IH (snd (Incremental.main W s)) Hrest) as [extra ->].
    destruct (main_table_grows W s HW) as [extra' ->].
    exists (extra' ++ extra). rewrite app_assoc. reflexivity.
Qed.

Lemma max_date_In (rows : list row) (r : row) (d : Z) :
  In r rows -> row_date r = Some d -> exists m, max_date rows = Some m /\ d <= m.
Proof.
  induction rows as [|x rows IH]; intros Hin Hd; [contradiction|].
  cbn [max_date fold_right]. fold (max_date rows).
  destruct Hin as [-> | Hin].
  - rewrite Hd. destruct (max_date rows) as [m|]; cbn.
    + exists (Z.max d m). split; [reflexivity | lia].
    + exists d. split; [reflexivity | lia].
  - destruct (IH Hin Hd) as (m & -> & Hle).
    destruct (row_date x) as [y|]; cbn.
    + exists (Z.max y m). split; [reflexivity | lia].
    + exists m. split; [reflexivity | exact Hle].
Qed.

(** C9, as the code has it. Once a run has left in the store a record of
    date [D], every later run whose [MAX] query answers resolves a watermark
    of [D] or later, whatever runs happen in between: the table only grows
    and the watermark is its greatest date. *)
Theorem watermark_never_regresses (W1 W2 : World) (between : list World)
        (s0 : State) (g : Engine) (r : row) (D : Z) :
  clock_ok W1 -> Forall clock_ok between -> clock_ok W2 ->
  let s1 := snd (Incremental.main W1 s0) in
  let s2 := run_all between s1 in
  In r (table_rows s1) -> row_date r = Some D ->
  connect_fault W2 = None -> query_fault W2 = None ->
  exists w,
    Incremental.get_last_loaded_date W2 (Some g) s2 = (Ok w, s2)
    /\ watermark W2 s2 = w
    /\ D <= w.
Proof.
  intros H1 Hb H2 s1 s2 Hin HD Hconn Hq.
  destruct (run_all_table_grows between s1 Hb) as [extra Hgrow]. fold s2 in Hgrow.
  assert (Hin2 : In r (table_rows s2)) by (rewrite Hgrow; apply in_or_app; auto).
  unfold table_rows in Hin2.
  destruct (db_table s2) as [rows|] eqn:Hdb; [|contradiction].
  destruct (max_date_In rows r D Hin2 HD) as (m & Hm & Hle).
  exists m. rewrite get_last_loaded_date_run by exact H2.
  unfold watermark, engine_of, max_query. rewrite Hconn, Hq, Hdb, Hm.
  split; [reflexivity|]. split; [reflexivity | exact Hle].
Qed.

Lemma watermark_never_regresses_witness :
  let W := sample_world day_2024_03_01 [] None None None None in
  let s0 := mk_state [] [] (Some [stored_row day_2024_02_29 "USD"]) None in
  exists w,
    Incremental.get_last_loaded_date
      W (Some PgEngine) (run_all [W; W] (snd (Incremental.main W s0)))
    = (Ok w, run_all [W; W] (snd (Incremental.main W s0)))
    /\ day_2024_03_01 <= w.
Proof.
  intros W s0.
  assert (Hc : clock_ok W) by sample_dates.
  destruct (watermark_never_regresses
              W W [W; W] s0 PgEngine
              (row_at (fetched_incremental W day_2024_03_01) 0) day_2024_03_01
              Hc (Forall_cons _ Hc (Forall_cons _ Hc (Forall_nil _))) Hc)
    as (w & Hw & _ & Hle).
  - vm_compute. right. left. reflexivity.
  - vm_compute. reflexivity.
  - reflexivity.
  - reflexivity.
  - exists w. split; assumption.
Defined.

(** C9 as stated fails: a run persists today's records; a second run on
    the same day whose [MAX] query fails resolves yesterday, a watermark
    before the date already persisted. *)
Lemma watermark_regresses_when_query_fails :
  let W1 := sample_world day_2024_03_01 [] None None None None in
  let W2 := sample_world day_2024_03_01 [] None (Some server_gone) None None in
  let s0 := mk_state [] [] (Some [stored_row day_2024_02_29 "USD"]) None in
  let s1 := snd (Incremental.main W1 s0) in
  (exists r, In r (table_rows s1) /\ row_date r = Some day_2024_03_01)
  /\ Incremental.get_last_loaded_date W2 (Some PgEngine) s1
     = (Ok day_2024_02_29, add_log (watermark_error_record server_gone) s1)
  /\ watermark W2 s1 = day_2024_02_29
  /\ day_2024_02_29 < day_2024_03_01.
Proof.
  intros W1 W2 s0 s1. split; [|split; [|split]].
  - exists (row_at (fetched_incremental W1 day_2024_03_01) 0). split.
    + vm_compute. right. left. reflexivity.
    + vm_compute. reflexivity.
  - vm_compute. reflexivity.
  - vm_compute. reflexivity.
  - reflexivity.
Qed.

(* ------------------------------------------------------------------ *)
(** ** Further properties: what a fetched table holds *)

Lemma astype_float_is_float (pf : string -> option float) (c out : column) :
  Pandas.astype_float pf c = Ok out -> exists vals, out = ColFloat vals.
Proof.
  destruct c; cbn; intros H.
  - injection H as <-. eauto.
  - injection H as <-. eauto.
  - destruct (Pandas.traverse _ l); [injection H as <-; eauto | discriminate].
Qed.

Lemma astype_int_is_int (pi : string -> option Z) (c out : column) :
  Pandas.astype_int pi c = Ok out -> exists noms, out = ColInt noms.
Proof.
  destruct c; cbn; intros H.
  - injection H as <-. eauto.
  - destruct (Pandas.traverse _ l); [injection H as <-; eauto | discriminate].
  - destruct (Pandas.traverse _ l); [injection H as <-; eauto | discriminate].
Qed.

(** What a successful pass through the processing steps went through. *)
Lemma transform_inv (W : World) (df out : DataFrame) :
  transform W df = Ok out ->
  exists value replaced vals nominal noms,
    Pandas.lookup "Value" (columns df) = Some value
    /\ Pandas.str_replace "," "." value = Ok replaced
    /\ Pandas.astype_float (py_float W) replaced = Ok (ColFloat vals)
    /\ Pandas.lookup "Nominal" (Pandas.set_col "Value" (ColFloat vals) (columns df))
       = Some nominal
    /\ Pandas.astype_int (py_int W) nominal = Ok (ColInt noms)
    /\ Pandas.select
         out_columns
         (Pandas.rename
            renaming
            (mk_df (index_len df)
                   (Pandas.set_col
                      "Rate" (ColFloat (rates vals noms))
                      (Pandas.set_col
                         "Nominal" (ColInt noms)
                         (Pandas.set_col "Value" (ColFloat vals) (columns df))))))
       = Ok out.
Proof.
  unfold transform, Pandas.getitem, Pandas.setitem. cbn [columns index_len].
  intros H.
  destruct (Pandas.lookup "Value" (columns df)) as [value|] eqn:Hv; [|discriminate].
  cbn [and_then] in H.
  destruct (Pandas.str_replace "," "." value) as [replaced|] eqn:Hr; [|discriminate].
  cbn [and_then] in H.
  destruct (Pandas.astype_float (py_float W) replaced) as [fl|] eqn:Hf; [|discriminate].
  destruct (astype_float_is_float _ _ _ Hf) as [vals ->].
  cbn [and_then] in H.
  destruct (Pandas.lookup "Nominal" _) as [nominal|] eqn:Hn; [|discriminate].
  cbn [and_then] in H.
  destruct (Pandas.astype_int (py_int W) nominal) as [il|] eqn:Hi; [|discriminate].
  destruct (astype_int_is_int _ _ _ Hi) as [noms ->].
  cbn [and_then] in H.
  rewrite lookup_set_col_other in H by discriminate.
  rewrite !lookup_set_col_same in H. cbn [and_then Pandas.truediv] in H.
  exists value, replaced, vals, nominal, noms. repeat split; assumption.
Qed.

Lemma lookup_columns_named (t : string) (cols : list (string * column)) :
  Pandas.lookup t cols =
  match Pandas.columns_named t cols with
  | [] => None
  | nc :: _ => Some (snd nc)
  end.
Proof.
  unfold Pandas.columns_named. induction cols as [|[n c] cols IH]; cbn; [reflexivity|].
  destruct (String.eqb n t); [reflexivity | exact IH].
Qed.

Lemma columns_named_head (t : string) (cols : list (string * column))
      (nc : string * column) (rest : list (string * column)) :
  Pandas.columns_named t cols = nc :: rest -> fst nc = t.
Proof.
  intros H. assert (Hin : In nc (Pandas.columns_named t cols)) by (rewrite H; left; auto).
  apply filter_In in Hin. destruct Hin as [_ E]. apply String.eqb_eq. exact E.
Qed.

(** The first column a selection returns under its first label is the
    first column of the frame under that label. *)
Lemma lookup_select_first (t : string) (names : list string)
      (cols out : list (string * column)) :
  Pandas.select_cols (t :: names) cols = Ok out ->
  Pandas.lookup t out = Pandas.lookup t cols.
Proof.
  cbn [Pandas.select_cols]. intros H. rewrite (lookup_columns_named t cols).
  destruct (Pandas.columns_named t cols) as [|nc found] eqn:E; [discriminate|].
  destruct (Pandas.select_cols names cols) as [more|]; [|discriminate].
  injection H as <-. pose proof (columns_named_head _ _ _ _ E) as Hfst.
  destruct nc as [n c]. cbn in Hfst. subst n. cbn. rewrite String.eqb_refl. reflexivity.
Qed.

Lemma lookup_rename_fixed (t : string) (cols : list (string * column)) :
  (forall n, Pandas.rename_label renaming n = t <-> n = t) ->
  Pandas.lookup t (map (fun nc => (Pandas.rename_label renaming (fst nc), snd nc)) cols)
  = Pandas.lookup t cols.
Proof.
  intros Hfix. induction cols as [|[n c] cols IH]; cbn; [reflexivity|].
  destruct (String.eqb_spec (Pandas.rename_label renaming n) t) as [E|E];
    destruct (String.eqb_spec n t) as [E'|E']; try reflexivity; try exact IH.
  - exfalso. apply E'. apply (proj1 (Hfix n)). exact E.
  - exfalso. apply E. apply (proj2 (Hfix n)). exact E'.
Qed.

Lemma rename_fixes_date (n : string) : Pandas.rename_label renaming n = "Date" <-> n = "Date".
Proof. label_cases n; split; intros; congruence. Qed.

Lemma cell_of_cells_at (t : string) (i : nat) (cols : list (string * column)) :
  cell_of t (cells_at i cols) =
  match Pandas.lookup t cols with
  | Some c => Some (nth i (column_cells c) (VFloat nan))
  | None => None
  end.
Proof.
  induction cols as [|[n c] cols IH]; cbn; [reflexivity|].
  destruct (String.eqb n t); [reflexivity | exact IH].
Qed.

Lemma nth_repeat_lt {A : Type} (a d : A) (n i : nat) :
  (i < n)%nat -> nth i (repeat a n) d = a.
Proof.
  revert i. induction n as [|n IH]; intros i Hi; [lia|].
  destruct i as [|i]; cbn; [reflexivity | apply IH; lia].
Qed.

(** Every record of a processed table carries the date its [Date] column
    was set to. *)
Lemma transform_rows_date (W : World) (df out : DataFrame) (d : Z) :
  transform W (Pandas.setitem_scalar df "Date" (VDate d)) = Ok out ->
  forall r, In r (rows_of out) -> row_date r = Some d.
Proof.
  intros H r Hr. apply transform_inv in H.
  destruct H as (value & replaced & vals & nominal & noms & _ & _ & _ & _ & _ & Hsel).
  unfold Pandas.select, Pandas.rename in Hsel. cbn [columns index_len] in Hsel.
  destruct (Pandas.select_cols out_columns _) as [cols|] eqn:Hcols; [|discriminate].
  injection Hsel as <-.
  unfold rows_of in Hr. cbn [index_len columns] in Hr.
  apply in_map_iff in Hr. destruct Hr as (i & <- & Hi). apply in_seq in Hi.
  unfold row_date, row_at. cbn [columns].
  change (map (fun nc => (fst nc, nth i (column_cells (snd nc)) (VFloat nan))) cols)
    with (cells_at i cols).
  rewrite cell_of_cells_at.
  unfold out_columns in Hcols. rewrite (lookup_select_first _ _ _ _ Hcols).
  rewrite lookup_rename_fixed by exact rename_fixes_date.
  rewrite !lookup_set_col_other by discriminate.
  unfold Pandas.setitem_scalar, Pandas.setitem. cbn [columns Pandas.broadcast index_len].
  rewrite lookup_set_col_same. cbn [column_cells date_of_cell].
  rewrite nth_repeat_lt by lia. reflexivity.
Qed.

(** A table of the incremental fetch is the provider's table of some
    response, processed under the requested date: the date parsed back is
    the one that was formatted. *)
Lemma parse_incremental_inv (W : World) (date : Z) (out : DataFrame) :
  valid_date date -> parse_incremental W date = Ok out ->
  exists text df0,
    read_xml W text = Ok df0
    /\ transform W (Pandas.setitem_scalar df0 "Date" (VDate date)) = Ok out.
Proof.
  intros Hd H. unfold parse_incremental in H.
  destruct (response_text W _) as [text|e]; [|discriminate]. cbn [and_then] in H.
  destruct (read_xml W text) as [df0|e] eqn:Hx; [|discriminate]. cbn [and_then] in H.
  destruct (Calendar.strptime_dmY _) as [d|e] eqn:Hparse; [|discriminate].
  apply strptime_strftime_inv in Hparse; [|exact Hd]. subst d.
  cbn [and_then] in H. eauto.
Qed.

Lemma parse_incremental_rows_date (W : World) (date : Z) (out : DataFrame) :
  valid_date date -> parse_incremental W date = Ok out ->
  forall r, In r (rows_of out) -> row_date r = Some date.
Proof.
  intros Hd H. destruct (parse_incremental_inv W date out Hd H) as (text & df0 & _ & Ht).
  exact (transform_rows_date W df0 out date Ht).
Qed.

Lemma parse_backfill_rows_date (W : World) (date : Z) (out : DataFrame) :
  parse_backfill W date = Ok out ->
  forall r, In r (rows_of out) -> row_date r = Some date.
Proof.
  intros H. unfold parse_backfill in H.
  destruct (response_text W _) as [text|e]; [|discriminate]. cbn [and_then] in H.
  destruct (read_xml W text) as [df0|e]; [|discriminate]. cbn [and_then] in H.
  exact (transform_rows_date W df0 out date H).
Qed.

(** X1. Every record of a table [get_cbr_rates] returns carries the date
    that was asked for, in both loaders: the incremental one gets it back
    from the formatted request date, the backfill takes it from the
    argument. *)
Theorem fetched_rows_carry_requested_date (W : World) (date_req : option Z) (date : Z)
        (s : State) :
  valid_date (requested W date_req) ->
  (forall df s' r,
      Incremental.get_cbr_rates W date_req s = (Ok df, s') ->
      In r (rows_of df) -> row_date r = Some (requested W date_req))
  /\ (forall df s' r,
         Backfill.get_cbr_rates W date s = (Ok df, s') ->
         In r (rows_of df) -> row_date r = Some date).
Proof.
  intros Hd. split; intros df s' r Hrun Hr.
  - rewrite get_cbr_rates_incremental_run in Hrun.
    destruct (parse_incremental W _) as [out|e] eqn:Hp;
      injection Hrun as <- _; [|destruct Hr].
    exact (parse_incremental_rows_date W _ out Hd Hp r Hr).
  - rewrite get_cbr_rates_backfill_run in Hrun.
    destruct (parse_backfill W date) as [out|e] eqn:Hp;
      injection Hrun as <- _; [|destruct Hr].
    exact (parse_backfill_rows_date W date out Hp r Hr).
Qed.

Lemma lookup_None_not_In (k : string) (cols : list (string * column)) :
  Pandas.lookup k cols = None -> ~ In k (map fst cols).
Proof.
  induction cols as [|[n c] cols IH]; cbn; [tauto|].
  destruct (String.eqb_spec n k); [discriminate|]. intros H [E | Hin]; [contradiction|].
  exact (IH H Hin).
Qed.

Lemma renamed_column_missing (t k : string) (cols : list (string * column)) :
  Pandas.lookup k cols = None ->
  (forall n, In n (map fst cols) -> Pandas.rename_label renaming n = t -> n = k) ->
  Pandas.columns_named t
    (map (fun nc => (Pandas.rename_label renaming (fst nc), snd nc)) cols) = [].
Proof.
  intros Hl Hall. rewrite columns_named_rename.
  rewrite filter_none; [reflexivity|].
  intros [n c] Hin. cbn [fst].
  destruct (String.eqb_spec (Pandas.rename_label renaming n) t) as [E|E]; [|reflexivity].
  exfalso. apply (lookup_None_not_In _ _ Hl).
  assert (Hn : In n (map fst cols)) by (apply in_map_iff; exists (n, c); auto).
  rewrite <- (Hall n Hn E). exact Hn.
Qed.

(** Selecting the six output labels, after the renaming, from columns of
    distinct labels none of which is canonical already: the selection
    succeeds only if [CharCode] and [Name] are there, and then gives the
    six columns in order. *)
Lemma select_canonical_columns (cols out : list (string * column))
      (dc nc vc rc : column) :
  NoDup (map fst cols) ->
  (forall n, In n (map fst cols) -> n <> "CurrencyCode" /\ n <> "CurrencyName") ->
  Pandas.lookup "Date" cols = Some dc ->
  Pandas.lookup "Nominal" cols = Some nc ->
  Pandas.lookup "Value" cols = Some vc ->
  Pandas.lookup "Rate" cols = Some rc ->
  Pandas.select_cols
    out_columns (map (fun x => (Pandas.rename_label renaming (fst x), snd x)) cols)
  = Ok out ->
  exists codes names,
    Pandas.lookup "CharCode" cols = Some codes
    /\ Pandas.lookup "Name" cols = Some names
    /\ out = [("Date", dc); ("CurrencyCode", codes); ("CurrencyName", names);
              ("Nominal", nc); ("Value", vc); ("Rate", rc)].
Proof.
  intros Hnd Hfresh LD LNom LV LR H.
  unfold out_columns in H. cbn [Pandas.select_cols] in H.
  rewrite (renamed_column "Date" "Date" _ cols Hnd LD eq_refl) in H
    by (intros n Hin E; pose proof (Hfresh n Hin); label_cases n).
  rewrite (renamed_column "Nominal" "Nominal" _ cols Hnd LNom eq_refl) in H
    by (intros n Hin E; pose proof (Hfresh n Hin); label_cases n).
  rewrite (renamed_column "Value" "Value" _ cols Hnd LV eq_refl) in H
    by (intros n Hin E; pose proof (Hfresh n Hin); label_cases n).
  rewrite (renamed_column "Rate" "Rate" _ cols Hnd LR eq_refl) in H
    by (intros n Hin E; pose proof (Hfresh n Hin); label_cases n).
  destruct (Pandas.lookup "CharCode" cols) as [codes|] eqn:LC.
  - rewrite (renamed_column "CurrencyCode" "CharCode" _ cols Hnd LC eq_refl) in H
      by (intros n Hin E; pose proof (Hfresh n Hin) as [? ?]; label_cases n).
    destruct (Pandas.lookup "Name" cols) as [names|] eqn:LN.
    + rewrite (renamed_column "CurrencyName" "Name" _ cols Hnd LN eq_refl) in H
        by (intros n Hin E; pose proof (Hfresh n Hin) as [? ?]; label_cases n).
      cbn in H. injection H as <-. exists codes, names. repeat split.
    + rewrite (renamed_column_missing "CurrencyName" "Name" cols LN) in H
        by (intros n Hin E; pose proof (Hfresh n Hin) as [? ?]; label_cases n).
      discriminate.
  - rewrite (renamed_column_missing "CurrencyCode" "CharCode" cols LC) in H
      by (intros n Hin E; pose proof (Hfresh n Hin) as [? ?]; label_cases n).
    discriminate.
Qed.

(** A table that passes the processing steps is the canonical one. *)
Lemma transform_schema (W : World) (df out : DataFrame) (d : Z) :
  Pandas.distinct (column_names df) = true ->
  existsb (String.eqb "CurrencyCode") (column_names df) = false ->
  existsb (String.eqb "CurrencyName") (column_names df) = false ->
  transform W (Pandas.setitem_scalar df "Date" (VDate d)) = Ok out ->
  exists codes names noms vals,
    Pandas.lookup "CharCode" (columns df) = Some codes
    /\ Pandas.lookup "Name" (columns df) = Some names
    /\ out = canonical_frame (index_len df) d codes names noms vals.
Proof.
  intros Hd Hnc Hnn H. apply distinct_NoDup in Hd.
  apply existsb_eqb_not_In in Hnc, Hnn. unfold column_names in *.
  apply transform_inv in H.
  destruct H as (value & replaced & vals & nominal & noms & _ & _ & _ & _ & _ & Hsel).
  unfold Pandas.select, Pandas.rename, Pandas.setitem_scalar, Pandas.setitem in Hsel.
  cbn [columns index_len Pandas.broadcast] in Hsel.
  set (cols4 := Pandas.set_col "Rate" _ _) in Hsel.
  destruct (Pandas.select_cols out_columns _) as [cols|] eqn:Hcols; [|discriminate].
  injection Hsel as <-.
  assert (Hnd4 : NoDup (map fst cols4))
    by (subst cols4; repeat apply NoDup_set_col; exact Hd).
  assert (Hfresh : forall n, In n (map fst cols4) ->
                             n <> "CurrencyCode" /\ n <> "CurrencyName").
  { subst cols4. intros n Hin.
    repeat (apply In_names_set_col in Hin; destruct Hin as [Hin | Hin]);
      try (subst n; split; discriminate).
    split; intros ->; contradiction. }
  destruct (select_canonical_columns
              cols4 cols (ColObj (repeat (VDate d) (index_len df)))
              (ColInt noms) (ColFloat vals) (ColFloat (rates vals noms)) Hnd4 Hfresh)
    as (codes & names & LC & LN & ->); try exact Hcols.
  - subst cols4. rewrite !lookup_set_col_other by discriminate.
    apply lookup_set_col_same.
  - subst cols4. rewrite lookup_set_col_other by discriminate.
    apply lookup_set_col_same.
  - subst cols4. rewrite !lookup_set_col_other by discriminate.
    apply lookup_set_col_same.
  - subst cols4. apply lookup_set_col_same.
  - exists codes, names, noms, vals. subst cols4.
    rewrite !lookup_set_col_other in LC, LN by discriminate.
    repeat split; assumption.
Qed.

(** X2. All or nothing: whatever the provider sends, [get_cbr_rates] of
    either loader returns the empty table or the complete canonical table
    of the day - the six columns in order, [Nominal] integers, [Value] and
    [Rate] floats with [Rate = Value / Nominal] - never a partly processed
    one. *)
Theorem fetch_all_or_nothing (W : World) (date : Z) (s : State) :
  parser_ok W -> valid_date date ->
  forall out s',
    Incremental.get_cbr_rates W (Some date) s = (Ok out, s')
    \/ Backfill.get_cbr_rates W date s = (Ok out, s') ->
    out = empty_frame
    \/ exists n codes names noms vals, out = canonical_frame n date codes names noms vals.
Proof.
  intros Hp Hd out s' [Hrun | Hrun].
  - rewrite get_cbr_rates_incremental_run in Hrun. cbn [requested] in Hrun.
    destruct (parse_incremental W date) as [out'|e] eqn:Hparse;
      [|injection Hrun as <- _; left; reflexivity].
    destruct (parse_incremental_inv W date out' Hd Hparse) as (text & df0 & Hx & Ht).
    injection Hrun as <- _. right. destruct (Hp text df0 Hx) as (H1 & H2 & H3).
    destruct (transform_schema W df0 out' date H1 H2 H3 Ht)
      as (codes & names & noms & vals & _ & _ & ->).
    eauto 6.
  - rewrite get_cbr_rates_backfill_run in Hrun. unfold parse_backfill in Hrun.
    destruct (response_text W _) as [text|e]; cbn [and_then] in Hrun;
      [|injection Hrun as <- _; left; reflexivity].
    destruct (read_xml W text) as [df0|e] eqn:Hx; cbn [and_then] in Hrun;
      [|injection Hrun as <- _; left; reflexivity].
    destruct (transform W _) as [out'|e] eqn:Ht;
      [|injection Hrun as <- _; left; reflexivity].
    injection Hrun as <- _. right. destruct (Hp text df0 Hx) as (H1 & H2 & H3).
    destruct (transform_schema W df0 out' date H1 H2 H3 Ht)
      as (codes & names & noms & vals & _ & _ & ->).
    eauto 6.
Qed.

Lemma sample_parser_ok (today : Z) (down : list Z) (connect query sql csv : option exn) :
  parser_ok (sample_world today down connect query sql csv).
Proof. intros text df H. injection H as <-. repeat split. Qed.

Lemma fetched_rows_carry_requested_date_witness :
  let W := sample_world day_2024_03_01 [] None None None None in
  Forall (fun r => row_date r = Some day_2024_03_01)
         (rows_of (fetched_incremental W day_2024_03_01))
  /\ Forall (fun r => row_date r = Some day_2024_03_02)
            (rows_of (fetched_backfill W day_2024_03_02))
  /\ List.length (rows_of (fetched_incremental W day_2024_03_01)) = 2%nat.
Proof.
  intros W.
  assert (Hd : valid_date (requested W (Some day_2024_03_01))) by sample_dates.
  destruct (fetched_rows_carry_requested_date
              W (Some day_2024_03_01) day_2024_03_02 initial_state Hd) as [Hi Hb].
  split; [|split; [|reflexivity]]; apply Forall_forall; intros r Hr.
  - apply (Hi (fetched_incremental W day_2024_03_01)
              (add_event (request_of day_2024_03_01) initial_state) r);
      [reflexivity | exact Hr].
  - apply (Hb (fetched_backfill W day_2024_03_02)
              (add_event (request_of day_2024_03_02) initial_state) r);
      [reflexivity | exact Hr].
Defined.

Lemma fetch_all_or_nothing_witness :
  let W := sample_world day_2024_03_02 [day_2024_03_02] None None None None in
  (fetched_incremental W day_2024_03_01 = empty_frame
   \/ exists n codes names noms vals,
       fetched_incremental W day_2024_03_01
       = canonical_frame n day_2024_03_01 codes names noms vals)
  /\ (fetched_backfill W day_2024_03_02 = empty_frame
      \/ exists n codes names noms vals,
          fetched_backfill W day_2024_03_02
          = canonical_frame n day_2024_03_02 codes names noms vals).
Proof.
  intros W.
  assert (Hp : parser_ok W) by apply sample_parser_ok.
  split.
  - apply (fetch_all_or_nothing
             W day_2024_03_01 initial_state Hp ltac:(sample_dates)
             (fetched_incremental W day_2024_03_01)
             (add_event (request_of day_2024_03_01) initial_state)).
    left. reflexivity.
  - apply (fetch_all_or_nothing
             W day_2024_03_02 initial_state Hp ltac:(sample_dates)
             (fetched_backfill W day_2024_03_02)
             (add_log (fetch_error_record_for day_2024_03_02 timeout)
                      (add_event (request_of day_2024_03_02) initial_state))).
    right. reflexivity.
Defined.

(* ------------------------------------------------------------------ *)
(** ** Further properties: [check_data_exists] *)

Lemma existsb_date_found (date : Z) (rows : list row) :
  existsb (fun r => match cell_of "date" r with
                    | Some (VDate d) => d =? date
                    | _ => false
                    end) rows = true ->
  exists r, In r rows /\ cell_of "date" r = Some (VDate date).
Proof.
  intros H. apply existsb_exists in H. destruct H as (r & Hin & E).
  exists r. split; [exact Hin|].
  destruct (cell_of "date" r) as [[| | |d]|]; try discriminate.
  apply Z.eqb_eq in E. subst. reflexivity.
Qed.

(** X3. [check_data_exists] never raises and logs nothing; it answers
    [True] only when some stored row has the date in a column named [date],
    and [False] on every error. The loaders store the date under [Date], so
    on a table none of whose rows has a column [date] the answer is [False]
    for every date, stored or not. *)
Theorem check_data_exists_answers (W : World) (engine : option Engine) (date : Z)
        (s : State) :
  exists b,
    Incremental.check_data_exists W engine date s = (Ok b, s)
    /\ (b = true ->
        exists r, In r (table_rows s) /\ cell_of "date" r = Some (VDate date))
    /\ (engine = None \/ query_fault W <> None \/ db_table s = None -> b = false)
    /\ ((forall r, In r (table_rows s) -> cell_of "date" r = None) -> b = false).
Proof.
  unfold Incremental.check_data_exists, try_except, bind, raise, ret,
    select_one_where_date, table_rows.
  destruct engine as [g|].
  2:{ exists false. repeat split; try discriminate; reflexivity. }
  destruct (query_fault W) as [e|].
  { exists false. repeat split; try discriminate; reflexivity. }
  destruct (db_table s) as [rows|].
  2:{ exists false. repeat split; try discriminate; reflexivity. }
  destruct (forallb _ rows) eqn:Hall.
  2:{ exists false. repeat split; try discriminate; reflexivity. }
  destruct (existsb _ rows) eqn:Hex.
  - exists true. split; [reflexivity|]. split; [|split].
    + intros _. apply (existsb_date_found date rows Hex).
    + intros [H | [H | H]]; [discriminate | contradiction | discriminate].
    + intros Hnone. destruct (existsb_date_found date rows Hex) as (r & Hin & Hr).
      rewrite (Hnone r Hin) in Hr. discriminate.
  - exists false. repeat split; try discriminate; reflexivity.
Qed.

Lemma check_data_exists_answers_witness :
  let W := sample_world day_2024_03_01 [] None None None None in
  let s0 := mk_state [] [] (Some [stored_row day_2024_02_29 "USD"]) None in
  let s1 := snd (Incremental.main W s0) in
  (exists r, In r (table_rows s1) /\ row_date r = Some day_2024_03_01)
  /\ Incremental.check_data_exists W (Some PgEngine) day_2024_03_01 s1 = (Ok false, s1).
Proof.
  intros W s0 s1. split.
  - exists (row_at (fetched_incremental W day_2024_03_01) 0). split.
    + vm_compute. right. left. reflexivity.
    + vm_compute. reflexivity.
  - destruct (check_data_exists_answers W (Some PgEngine) day_2024_03_01 s1)
      as (b & Hrun & _ & _ & Hnone).
    rewrite Hrun, Hnone; [reflexivity|].
    intros r Hr. vm_compute in Hr.
    destruct Hr as [<- | [<- | [<- | []]]]; reflexivity.
Defined.

(* ------------------------------------------------------------------ *)
(** ** Further properties: connection and the order of events *)

(** X4. [get_db_engine] never raises, in either loader: it returns the
    engine exactly when the probe goes through, and logs one record,
    informational on success and an error otherwise. *)
Theorem get_db_engine_outcome (W : World) (s : State) :
  (exists engine r,
      Incremental.get_db_engine W s = (Ok engine, add_log r s)
      /\ (engine = None <-> connect_fault W <> None)
      /\ level_of r = match engine with Some _ => INFO | None => ERROR end)
  /\ (exists engine r,
         Backfill.get_db_engine W s = (Ok engine, add_log r s)
         /\ (engine = None <-> connect_fault W <> None)
         /\ level_of r = match engine with Some _ => INFO | None => ERROR end).
Proof.
  rewrite get_db_engine_incremental_run, get_db_engine_backfill_run.
  destruct (connect_fault W) as [e|]; split; eexists _, _;
    (split; [reflexivity|]); (split; [split; congruence|]); try reflexivity.
  unfold connect_error_record. destruct (exn_class_of e); try reflexivity.
  destruct (contains "password authentication failed" (exn_msg e)); [reflexivity|].
  destruct (contains "database" (exn_msg e) && contains "does not exist" (exn_msg e));
    reflexivity.
Qed.

(** The write the incremental run attempts, if any: the concatenation of
    the batch, to the store with an engine and to the file without. *)
Lemma main_trace (W : World) (s : State) :
  clock_ok W -> valid_date (watermark W s + 1) ->
  trace (snd (Incremental.main W s)) =
  trace s
  ++ map request_of (Calendar.date_range (watermark W s + 1) (now_date W))
  ++ match Pandas.concat
             (batch W (Calendar.date_range (watermark W s + 1) (now_date W))) with
     | Ok final_df =>
         [match engine_of W with
          | Some _ => EvToSql final_df
          | None => EvToCsv (negb (file_exists s)) final_df
          end]
     | Raise _ => []
     end.
Proof.
  intros Hc Hd. rewrite main_run, main_body_run by exact Hc. cbv zeta.
  rewrite add_days_one by exact Hd.
  destruct (now_date W <? watermark W s + 1) eqn:E.
  - apply Z.ltb_lt in E. rewrite date_range_empty by exact E.
    cbn. rewrite app_nil_r. reflexivity.
  - set (dates := Calendar.date_range _ _).
    destruct (batch W dates) as [|f fs]; [cbn; rewrite app_nil_r; reflexivity|].
    destruct (Pandas.concat (f :: fs)) as [final|e];
      [|cbn; rewrite app_nil_r; reflexivity].
    destruct (engine_of W) as [g|].
    + rewrite save_data_store_run. destruct (to_sql_fault W final);
        cbn; rewrite <- app_assoc; reflexivity.
    + rewrite save_data_file_run. destruct (to_csv_fault W final); flushed_cases;
        cbn; rewrite <- app_assoc; reflexivity.
Qed.

(** X5. An incremental run sends its requests first, one per day of the
    range in ascending order, and then attempts at most one write: the
    concatenation of all the tables fetched, to the store when there is an
    engine and to the fallback file when there is none. *)
Theorem incremental_requests_then_one_write (W : World) (s : State) :
  clock_ok W -> valid_date (watermark W s + 1) ->
  let dates := Calendar.date_range (watermark W s + 1) (now_date W) in
  exists s',
    Incremental.main W s = (Ok tt, s')
    /\ trace s' =
       trace s
       ++ map request_of dates
       ++ match Pandas.concat (batch W dates) with
          | Ok final_df =>
              [match engine_of W with
               | Some _ => EvToSql final_df
               | None => EvToCsv (negb (file_exists s)) final_df
               end]
          | Raise _ => []
          end
    /\ (List.length (writes (trace s')) <= List.length (writes (trace s)) + 1)%nat.
Proof.
  intros Hc Hd dates. pose proof (main_trace W s Hc Hd) as Ht. fold dates in Ht.
  destruct (Incremental.main W s) as [r s'] eqn:Hmain.
  assert (r = Ok tt) as ->.
  { rewrite main_run in Hmain.
    destruct (Incremental.main_body W s) as [[[]|e] s1]; congruence. }
  exists s'. split; [reflexivity|]. cbn [snd] in Ht. split; [exact Ht|].
  rewrite Ht, !writes_app, writes_request_of, !length_app.
  destruct (Pandas.concat (batch W dates)) as [final|e]; [|cbn; lia].
  destruct (engine_of W); cbn; lia.
Qed.

Lemma incremental_requests_then_one_write_witness :
  let W := sample_world day_2024_03_03 [day_2024_03_02] None None None None in
  let s := mk_state [] [] (Some [stored_row day_2024_02_29 "USD"]) None in
  exists s' final_df,
    Incremental.main W s = (Ok tt, s')
    /\ trace s' = [request_of day_2024_03_01; request_of day_2024_03_02;
                   request_of day_2024_03_03; EvToSql final_df]
    /\ index_len final_df = 4%nat.
Proof.
  intros W s.
  destruct (incremental_requests_then_one_write W s ltac:(sample_dates)
                                                ltac:(sample_dates))
    as (s' & Hmain & Ht & _).
  exists s'. eexists. split; [exact Hmain|]. split; [rewrite Ht|]; vm_compute; reflexivity.
Defined.

Lemma load_all_trace (W : World) (g : Engine) (dates : list Z) (s : State) :
  trace (snd (Backfill.load_all W g dates s)) = trace s ++ flat_map (visit W) dates.
Proof.
  revert s. induction dates as [|d dates IH]; intros s.
  - cbn. rewrite app_nil_r. reflexivity.
  - cbn [Backfill.load_all flat_map]. unfold bind at 1.
    rewrite get_cbr_rates_backfill_run. unfold visit at 1, fetched_backfill.
    destruct (parse_backfill W d) as [df|e]; cbn [frame_or_empty].
    + change (negb (df_empty df)) with (nonempty df).
      destruct (nonempty df).
      * unfold bind at 1. unfold bind at 1. rewrite save_data_backfill_run.
        destruct (to_sql_fault W df) as [e|].
        -- cbn [negb]. unfold logger at 1. unfold bind at 1. unfold emit at 1.
           rewrite IH. cbn. rewrite <- !app_assoc. reflexivity.
        -- destruct (Backfill.first_date df) as [v|e]; cbn [negb].
           ++ unfold ret at 1. unfold bind at 1. unfold emit at 1.
              rewrite IH. cbn. rewrite <- !app_assoc. reflexivity.
           ++ unfold logger at 1. unfold bind at 1. unfold emit at 1.
              rewrite IH. cbn. rewrite <- !app_assoc. reflexivity.
      * unfold bind at 1. unfold logger at 1. unfold bind at 1. unfold emit at 1.
        rewrite IH. cbn. rewrite <- !app_assoc. reflexivity.
    + change (negb (df_empty empty_frame)) with false.
      change (nonempty empty_frame) with false. cbn iota.
      unfold bind at 1. unfold logger at 1. unfold bind at 1. unfold emit at 1.
      rewrite IH. cbn. rewrite <- !app_assoc. reflexivity.
Qed.

Lemma sleeps_flat_map_visit (W : World) (dates : list Z) :
  List.length (filter is_sleep (flat_map (visit W) dates)) = List.length dates.
Proof.
  induction dates as [|d dates IH]; [reflexivity|].
  cbn [flat_map]. rewrite filter_app, length_app, IH. unfold visit.
  destruct (nonempty (fetched_backfill W d)); reflexivity.
Qed.

Lemma backfill_main_trace (W : World) (s : State) :
  trace (snd (Backfill.main W s)) =
  match connect_fault W with
  | None =>
      trace s
      ++ flat_map (visit W) (Calendar.date_range Backfill.start_date Backfill.end_date)
  | Some _ => trace s
  end.
Proof.
  pose proof (get_db_engine_backfill_run W s) as Hengine.
  destruct (connect_fault W) as [e|];
    unfold Backfill.main; unfold bind at 1; rewrite Hengine; [reflexivity|].
  unfold bind at 1. unfold logger at 1. unfold bind at 1.
  match goal with |- context [Backfill.load_all W PgEngine ?ds ?s0] =>
    pose proof (load_all_trace W PgEngine ds s0) as Hl;
    destruct (load_all_run W PgEngine ds s0) as (s1 & Hrun & _) end.
  rewrite Hrun in *. cbn [snd] in Hl. cbn [trace] in Hl.
  unfold bind, logger, ret. cbn [snd trace]. exact Hl.
Qed.

(** X6. The backfill works one date at a time, in ascending order over the
    fixed range: for each date the request, then the write of that day's
    table if the fetch gave one, then the pause - one pause per date. It
    never touches the fallback file; without a connection it sends no
    request at all. *)
Theorem backfill_one_date_at_a_time (W : World) (s : State) :
  let dates := Calendar.date_range Backfill.start_date Backfill.end_date in
  exists r s',
    Backfill.main W s = (Ok r, s')
    /\ csv_file s' = csv_file s
    /\ trace s' = match connect_fault W with
                  | None => trace s ++ flat_map (visit W) dates
                  | Some _ => trace s
                  end
    /\ (connect_fault W = None ->
        List.length (filter is_sleep (trace s'))
        = (List.length (filter is_sleep (trace s)) + List.length dates)%nat)
    /\ List.length dates = Z.to_nat 5653
    /\ (forall d, In d dates <-> Calendar.ymd2ord 2000 1 2 <= d <= Calendar.ymd2ord 2015 6 24).
Proof.
  intros dates.
  assert (Hlen : List.length dates = Z.to_nat 5653)
    by (unfold dates; rewrite date_range_length; reflexivity).
  assert (Hin : forall d, In d dates
                          <-> Calendar.ymd2ord 2000 1 2 <= d <= Calendar.ymd2ord 2015 6 24)
    by (intros d; apply date_range_In).
  pose proof (backfill_main_run W s) as H.
  destruct (connect_fault W) as [e|] eqn:Hconn.
  - eexists _, _. split; [exact H|].
    split; [reflexivity|]. split; [reflexivity|]. split; [discriminate|].
    split; [exact Hlen | exact Hin].
  - destruct H as (s' & H & _ & _ & Hcsv).
    pose proof (backfill_main_trace W s) as Ht. rewrite Hconn, H in Ht.
    cbn [snd trace add_log] in Ht. fold dates in Ht.
    eexists _, _. split; [exact H|]. cbn [csv_file add_log trace].
    split; [exact Hcsv|]. split; [exact Ht|]. split; [|split; [exact Hlen | exact Hin]].
    intros _. rewrite Ht, filter_app, length_app, sleeps_flat_map_visit. reflexivity.
Qed.

(* ------------------------------------------------------------------ *)
(** ** Further properties: the two sinks *)

Lemma parse_incremental_schema (W : World) (date : Z) (out : DataFrame) :
  parser_ok W -> valid_date date -> parse_incremental W date = Ok out ->
  exists n codes names noms vals, out = canonical_frame n date codes names noms vals.
Proof.
  intros Hp Hd H.
  destruct (parse_incremental_inv W date out Hd H) as (text & df0 & Hx & Ht).
  destruct (Hp text df0 Hx) as (H1 & H2 & H3).
  destruct (transform_schema W df0 out date H1 H2 H3 Ht)
    as (codes & names & noms & vals & _ & _ & ->).
  eauto 6.
Qed.

Lemma nonempty_fetched_incremental (W : World) (date : Z) :
  nonempty (fetched_incremental W date) = true ->
  parse_incremental W date = Ok (fetched_incremental W date).
Proof.
  unfold fetched_incremental. destruct (parse_incremental W date); [reflexivity|].
  discriminate.
Qed.

Lemma date_range_single (d : Z) : Calendar.date_range d d = [d].
Proof.
  unfold Calendar.date_range. replace (d - d + 1) with 1 by lia.
  change (Z.to_nat 1) with 1%nat. cbn [seq map]. change (Z.of_nat 0) with 0.
  rewrite Z.add_0_r. reflexivity.
Qed.

(** X7. Without a connection the incremental run takes yesterday as the
    watermark, so it asks the provider for today only; it leaves the table
    alone and, when today's table is not empty and the write goes through,
    appends its records to the fallback file, under a header if the file is
    new; when today's table is empty the file is left alone too. The header
    of a provider table is the six canonical labels in order. *)
Theorem run_without_store (W : World) (s : State) (e : exn) :
  connect_fault W = Some e -> clock_ok W ->
  let today_table := fetched_incremental W (now_date W) in
  exists s',
    Incremental.main W s = (Ok tt, s')
    /\ requests (trace s') = requests (trace s) ++ [request_of (now_date W)]
    /\ db_table s' = db_table s
    /\ (nonempty today_table = false -> csv_file s' = csv_file s)
    /\ (nonempty today_table = true -> to_csv_fault W today_table = None ->
        csv_file s' =
        Some (match csv_file s with
              | Some old => old ++ record_lines today_table
              | None => CsvHeader (column_names today_table)
                                  :: record_lines today_table
              end))
    /\ (parser_ok W -> nonempty today_table = true ->
        column_names today_table = out_columns).
Proof.
  intros Hconn Hc f.
  assert (Hw : watermark W s = now_date W - 1)
    by (unfold watermark, engine_of; rewrite Hconn; reflexivity).
  assert (Hd : valid_date (now_date W))
    by (unfold clock_ok in Hc; unfold valid_date; lia).
  rewrite main_run, main_body_run by exact Hc. cbv zeta.
  rewrite Hw. replace (now_date W - 1 + 1) with (now_date W) by lia.
  replace (Calendar.add_days (now_date W - 1) 1) with (@Ok Z (now_date W))
    by (rewrite add_days_one; [f_equal; lia |
        replace (now_date W - 1 + 1) with (now_date W) by lia; exact Hd]).
  rewrite Z.ltb_irrefl, date_range_single.
  unfold batch. cbn [map filter]. fold f.
  unfold engine_of. rewrite Hconn.
  assert (Hlabels : parser_ok W -> nonempty f = true -> column_names f = out_columns).
  { intros Hp Hne. apply nonempty_fetched_incremental in Hne.
    destruct (parse_incremental_schema W _ _ Hp Hd Hne)
      as (n & codes & names & noms & vals & E).
    fold f in E. rewrite E. reflexivity. }
  destruct (nonempty f) eqn:Hne.
  - cbn [Pandas.concat Pandas.concat_onto]. rewrite save_data_file_run.
    destruct (to_csv_fault W f) as [e'|].
    + eexists. split; [reflexivity|]. flushed_cases; cbn; rewrite ?requests_app; cbn;
        rewrite ?app_nil_r; (split; [reflexivity|]); (split; [reflexivity|]);
        (split; [discriminate|]); (split; [discriminate | exact Hlabels]).
    + eexists. split; [reflexivity|]. unfold file_exists. cbn.
      rewrite ?requests_app. cbn. rewrite ?app_nil_r.
      split; [reflexivity|]. split; [reflexivity|]. split; [discriminate|].
      split; [|exact Hlabels]. intros _ _.
      destruct (csv_file s); reflexivity.
  - eexists. split; [reflexivity|]. cbn. rewrite ?requests_app. cbn.
    rewrite ?app_nil_r. split; [reflexivity|]. split; [reflexivity|].
    split; [reflexivity|]. split; [discriminate | exact Hlabels].
Qed.

Lemma run_without_store_witness :
  let W := sample_world day_2024_03_01 [] (Some server_gone) None None None in
  let s := mk_state [] [] (Some [stored_row day_2024_01_05 "USD"]) None in
  exists s' s'',
    Incremental.main W s = (Ok tt, s')
    /\ Incremental.main W s' = (Ok tt, s'')
    /\ requests (trace s'')
       = [request_of day_2024_03_01; request_of day_2024_03_01]
    /\ db_table s'' = db_table s
    /\ csv_file s''
       = Some [CsvHeader out_columns;
               CsvRow [VDate day_2024_03_01; VStr "USD"; VStr "US Dollar"; VInt 1;
                       VFloat 90.5%float; VFloat 90.5%float];
               CsvRow [VDate day_2024_03_01; VStr "JPY"; VStr "Yen"; VInt 100;
                       VFloat 25%float; VFloat 0.25%float];
               CsvRow [VDate day_2024_03_01; VStr "USD"; VStr "US Dollar"; VInt 1;
                       VFloat 90.5%float; VFloat 90.5%float];
               CsvRow [VDate day_2024_03_01; VStr "JPY"; VStr "Yen"; VInt 100;
                       VFloat 25%float; VFloat 0.25%float]].
Proof.
  intros W s.
  assert (Hc : clock_ok W) by sample_dates.
  destruct (run_without_store W s server_gone eq_refl Hc)
    as (s' & H1 & Hr1 & Hdb1 & _ & Hcsv1 & Hl).
  destruct (run_without_store W s' server_gone eq_refl Hc)
    as (s'' & H2 & Hr2 & Hdb2 & _ & Hcsv2 & _).
  exists s', s''. split; [exact H1|]. split; [exact H2|].
  split; [rewrite Hr2, Hr1; reflexivity|]. split; [congruence|].
  rewrite (Hcsv2 eq_refl eq_refl), (Hcsv1 eq_refl eq_refl). vm_compute. reflexivity.
Defined.

(** X8. With a live engine the fallback file is never written, not even
    when the write to the store fails: then the run returns normally, the
    failure is the last log record, and the batch is persisted nowhere. *)
Theorem no_fallback_after_store_failure (W : World) (s : State) :
  connect_fault W = None -> clock_ok W -> valid_date (watermark W s + 1) ->
  exists s',
    Incremental.main W s = (Ok tt, s')
    /\ csv_file s' = csv_file s
    /\ forall final_df e,
        Pandas.concat (batch W (Calendar.date_range (watermark W s + 1) (now_date W)))
        = Ok final_df ->
        to_sql_fault W final_df = Some e ->
        db_table s' = db_table s
        /\ last_record (log s') = Some (sql_error_record e).
Proof.
  intros Hconn Hc Hd. rewrite main_run, main_body_run by exact Hc. cbv zeta.
  rewrite add_days_one by exact Hd. unfold engine_of. rewrite Hconn.
  destruct (now_date W <? watermark W s + 1) eqn:E.
  - apply Z.ltb_lt in E. rewrite date_range_empty by exact E.
    eexists. split; [reflexivity|]. split; [reflexivity|]. discriminate.
  - set (dates := Calendar.date_range _ _).
    destruct (batch W dates) as [|f fs].
    + eexists. split; [reflexivity|]. split; [reflexivity|]. discriminate.
    + destruct (Pandas.concat (f :: fs)) as [final|e0].
      * rewrite save_data_store_run.
        destruct (to_sql_fault W final) as [e1|] eqn:Hf.
        -- eexists. split; [reflexivity|]. split; [reflexivity|].
           intros final' e' Hcat Hfault. injection Hcat as <-.
           rewrite Hf in Hfault. injection Hfault as <-.
           split; [reflexivity|]. cbn [log add_log snd]. apply last_record_app.
        -- eexists. split; [reflexivity|]. split; [reflexivity|].
           intros final' e' Hcat Hfault. injection Hcat as <-. congruence.
      * eexists. split; [reflexivity|]. split; [reflexivity|]. discriminate.
Qed.

Lemma no_fallback_after_store_failure_witness :
  let W := sample_world day_2024_03_01 [] None None (Some server_gone) None in
  let s := mk_state [] [] (Some [stored_row day_2024_02_29 "USD"]) None in
  exists s',
    Incremental.main W s = (Ok tt, s')
    /\ csv_file s' = None
    /\ db_table s' = Some [stored_row day_2024_02_29 "USD"]
    /\ last_record (log s') = Some (sql_error_record server_gone).
Proof.
  intros W s.
  destruct (no_fallback_after_store_failure W s eq_refl ltac:(sample_dates)
                                            ltac:(sample_dates))
    as (s' & Hmain & Hcsv & Hfail).
  destruct (Hfail (fetched_incremental W day_2024_03_01) server_gone) as [Hdb Hlog];
    [vm_compute; reflexivity | reflexivity |].
  exists s'. repeat split; assumption.
Defined.

(* ------------------------------------------------------------------ *)
(** ** Further properties: runs one after another *)

Lemma max_date_exact (rows : list row) (T : Z) :
  (forall r d, In r rows -> row_date r = Some d -> d <= T) ->
  (exists r, In r rows /\ row_date r = Some T) ->
  max_date rows = Some T.
Proof.
  intros Hle (r & Hin & Hr).
  destruct (max_date_In rows r T Hin Hr) as (m & Hm & HT).
  destruct (max_date_greatest rows m Hm) as [(r' & Hin' & Hr') _].
  specialize (Hle r' m Hin' Hr'). rewrite Hm. f_equal. lia.
Qed.

Lemma nonempty_has_row (df : DataFrame) :
  nonempty df = true -> In (row_at df 0) (rows_of df).
Proof.
  unfold nonempty, df_empty, rows_of. intros H.
  destruct (index_len df) as [|n]; [discriminate|].
  apply in_map. apply in_seq. lia.
Qed.

(** The records of the batch carry dates of the range. *)
Lemma batch_rows_dated (W : World) (dates : list Z) (r : row) :
  (forall d, In d dates -> valid_date d) ->
  In r (flat_map rows_of (batch W dates)) ->
  exists d, In d dates /\ row_date r = Some d.
Proof.
  intros Hvalid Hr. apply in_flat_map in Hr. destruct Hr as (f & Hf & Hr).
  unfold batch in Hf. apply filter_In in Hf. destruct Hf as [Hf Hne].
  apply in_map_iff in Hf. destruct Hf as (d & <- & Hd).
  exists d. split; [exact Hd|].
  apply nonempty_fetched_incremental in Hne.
  exact (parse_incremental_rows_date W d _ (Hvalid d Hd) Hne r Hr).
Qed.

(** X9. A run that stores today's table makes the next run of the day a
    no-op: the second run resolves today as the watermark, and so sends no
    request and writes nothing - the range is what keeps a date from being
    loaded twice. *)
Theorem second_run_same_day_is_noop (W1 W2 : World) (s0 : State) :
  clock_ok W1 -> connect_fault W1 = None ->
  valid_date (watermark W1 s0 + 1) ->
  watermark W1 s0 < now_date W1 < Calendar.MAXORDINAL ->
  (forall r d, In r (table_rows s0) -> row_date r = Some d -> d <= now_date W1) ->
  let dates := Calendar.date_range (watermark W1 s0 + 1) (now_date W1) in
  nonempty (fetched_incremental W1 (now_date W1)) = true ->
  uniform (batch W1 dates) ->
  (forall final_df, Pandas.concat (batch W1 dates) = Ok final_df ->
                    to_sql_fault W1 final_df = None) ->
  now_date W2 = now_date W1 -> connect_fault W2 = None -> query_fault W2 = None ->
  let s1 := snd (Incremental.main W1 s0) in
  watermark W2 s1 = now_date W1
  /\ exists s2,
      Incremental.main W2 s1 = (Ok tt, s2)
      /\ trace s2 = trace s1 /\ db_table s2 = db_table s1 /\ csv_file s2 = csv_file s1.
Proof.
  intros Hc1 Hconn1 Hd1 [Hlt Hmax] Hold dates Htoday Hu Hsql Hnow Hconn2 Hq2 s1.
  assert (Hc2 : clock_ok W2) by (unfold clock_ok in *; rewrite Hnow; exact Hc1).
  assert (Hin_today : In (now_date W1) dates)
    by (apply date_range_In; lia).
  assert (Hb : batch W1 dates <> []).
  { intros E. assert (Hin : In (fetched_incremental W1 (now_date W1)) (batch W1 dates)).
    { unfold batch. apply filter_In. split; [apply in_map; exact Hin_today | exact Htoday]. }
    rewrite E in Hin. contradiction. }
  destruct (concat_uniform _ Hu Hb) as (final & Hcat & Hrows).
  assert (Hs1 : table_rows s1 = table_rows s0 ++ rows_of final
                /\ db_table s1 = Some (table_rows s0 ++ rows_of final)).
  { subst s1. rewrite main_run, main_body_run by exact Hc1. cbv zeta.
    rewrite add_days_one by exact Hd1. fold dates.
    replace (now_date W1 <? watermark W1 s0 + 1) with false
      by (symmetry; apply Z.ltb_ge; lia).
    destruct (batch W1 dates) as [|f fs] eqn:Eb; [contradiction|].
    rewrite Hcat. unfold engine_of. rewrite Hconn1.
    rewrite save_data_store_run, (Hsql final Hcat).
    unfold table_rows. cbn. destruct (db_table s0); split; reflexivity. }
  destruct Hs1 as [Hrows1 Hdb1].
  assert (Hvalid : forall d, In d dates -> valid_date d).
  { intros d Hd. apply date_range_In in Hd. unfold valid_date in *.
    unfold clock_ok in Hc1. lia. }
  assert (Hm : max_date (table_rows s0 ++ rows_of final) = Some (now_date W1)).
  { apply max_date_exact.
    - intros r d Hr Hrd. apply in_app_or in Hr. destruct Hr as [Hr | Hr].
      + exact (Hold r d Hr Hrd).
      + rewrite Hrows in Hr.
        destruct (batch_rows_dated W1 dates r Hvalid Hr) as (d' & Hd' & Hrd').
        apply date_range_In in Hd'. rewrite Hrd in Hrd'. injection Hrd' as ->. lia.
    - exists (row_at (fetched_incremental W1 (now_date W1)) 0). split.
      + apply in_or_app. right. rewrite Hrows. apply in_flat_map.
        exists (fetched_incremental W1 (now_date W1)). split.
        * unfold batch. apply filter_In.
          split; [apply in_map; exact Hin_today | exact Htoday].
        * apply nonempty_has_row. exact Htoday.
      + apply (parse_incremental_rows_date W1 (now_date W1) _ (Hvalid _ Hin_today)
                 (nonempty_fetched_incremental W1 _ Htoday)).
        apply nonempty_has_row. exact Htoday. }
  assert (Hw2 : watermark W2 s1 = now_date W1).
  { unfold watermark, engine_of, max_query. rewrite Hconn2, Hq2, Hdb1, Hm. reflexivity. }
  split; [exact Hw2|].
  rewrite main_run, main_body_run by exact Hc2. cbv zeta.
  rewrite Hw2, add_days_one by (unfold valid_date; unfold clock_ok in Hc1; lia).
  replace (now_date W2 <? now_date W1 + 1) with true
    by (symmetry; apply Z.ltb_lt; lia).
  eexists. split; [reflexivity|]. repeat split.
Qed.

Lemma second_run_same_day_is_noop_witness :
  let W := sample_world day_2024_03_01 [] None None None None in
  let s0 := mk_state [] [] (Some [stored_row day_2024_02_29 "USD"]) None in
  let s1 := snd (Incremental.main W s0) in
  writes (trace s1) = [EvToSql (fetched_incremental W day_2024_03_01)]
  /\ watermark W s1 = day_2024_03_01
  /\ exists s2,
      Incremental.main W s1 = (Ok tt, s2)
      /\ trace s2 = trace s1 /\ db_table s2 = db_table s1 /\ csv_file s2 = csv_file s1.
Proof.
  intros W s0 s1. split; [vm_compute; reflexivity|]. subst s1.
  apply (second_run_same_day_is_noop W W s0).
  - sample_dates.
  - reflexivity.
  - sample_dates.
  - sample_dates.
  - intros r d [<- | []] H. vm_compute in H. injection H as <-. sample_dates.
  - vm_compute. reflexivity.
  - split; [vm_compute; reflexivity | vm_compute; constructor].
  - reflexivity.
  - reflexivity.
  - reflexivity.
  - reflexivity.
Defined.

Lemma main_file_grows (W : World) (s : State) :
  clock_ok W ->
  exists extra, file_lines (snd (Incremental.main W s)) = file_lines s ++ extra.
Proof.
  intros Hc. rewrite main_run, main_body_run by exact Hc. cbv zeta.
  destruct (Calendar.add_days (watermark W s) 1) as [start|e];
    [|exists []; rewrite app_nil_r; reflexivity].
  destruct (now_date W <? start); [exists []; rewrite app_nil_r; reflexivity|].
  destruct (batch W _) as [|f fs]; [exists []; rewrite app_nil_r; reflexivity|].
  destruct (Pandas.concat (f :: fs)) as [final|e];
    [|exists []; rewrite app_nil_r; reflexivity].
  match goal with |- context [Incremental.save_data W final ?en ?s0] =>
    destruct (save_data_effect W final en s0) as (b & ev & r & -> & _ & _) end.
  destruct b, (engine_of W); flushed_cases; unfold file_lines; cbn;
    try (exists []; rewrite app_nil_r; reflexivity);
    eexists; destruct (csv_file s); reflexivity.
Qed.

Lemma backfill_table_rows (W : World) (s : State) :
  table_rows (snd (Backfill.main W s)) =
  table_rows s
  ++ match connect_fault W with
     | None =>
         flat_map rows_of
                  (stored W (Calendar.date_range Backfill.start_date Backfill.end_date))
     | Some _ => []
     end
  /\ csv_file (snd (Backfill.main W s)) = csv_file s.
Proof.
  pose proof (backfill_main_run W s) as H.
  destruct (connect_fault W) as [e|].
  - rewrite H. unfold table_rows. cbn. rewrite app_nil_r. split; reflexivity.
  - destruct H as (s' & -> & _ & Hdb & Hcsv). unfold table_rows.
    cbn [snd add_log db_table csv_file]. rewrite Hdb, Hcsv. split; [|reflexivity].
    apply table_rows_extend.
Qed.

(** X10. The loaders only append. After a run of either one the rows the
    table held are still there, in place, in front of what the run added,
    and so are the lines of the fallback file; the backfill leaves the file
    alone. *)
Theorem loaders_only_append (W : World) (s : State) :
  clock_ok W ->
  (exists rows lines,
      table_rows (snd (Incremental.main W s)) = table_rows s ++ rows
      /\ file_lines (snd (Incremental.main W s)) = file_lines s ++ lines)
  /\ (exists rows,
         table_rows (snd (Backfill.main W s)) = table_rows s ++ rows
         /\ csv_file (snd (Backfill.main W s)) = csv_file s).
Proof.
  intros Hc. split.
  - destruct (main_table_grows W s Hc) as [rows Hr].
    destruct (main_file_grows W s Hc) as [lines Hl]. eauto.
  - destruct (backfill_table_rows W s) as [Hr Hcsv]. eauto.
Qed.

Lemma loaders_only_append_witness :
  let W := sample_world day_2024_03_01 [] None None None None in
  let s := mk_state [] [] (Some [stored_row day_2024_02_29 "USD"]) None in
  exists rows,
    table_rows (snd (Incremental.main W s)) = stored_row day_2024_02_29 "USD" :: rows.
Proof.
  intros W s.
  destruct (loaders_only_append W s ltac:(sample_dates)) as [(rows & lines & Hr & _) _].
  exists rows. exact Hr.
Defined.

(** X11. The backfill has no memory of earlier runs: it asks for the whole
    fixed range whatever the table holds, so a second run with the same
    answers from the provider stores the same records a second time. *)
Theorem backfill_rerun_duplicates (W : World) (s : State) :
  connect_fault W = None ->
  let range := Calendar.date_range Backfill.start_date Backfill.end_date in
  let s1 := snd (Backfill.main W s) in
  let s2 := snd (Backfill.main W s1) in
  table_rows s2
  = table_rows s ++ flat_map rows_of (stored W range) ++ flat_map rows_of (stored W range)
  /\ requests (trace s2)
     = requests (trace s) ++ map request_of range ++ map request_of range.
Proof.
  intros Hconn range s1 s2. split.
  - subst s2 s1. destruct (backfill_table_rows W (snd (Backfill.main W s))) as [-> _].
    destruct (backfill_table_rows W s) as [-> _]. rewrite Hconn.
    rewrite <- app_assoc. reflexivity.
  - pose proof (backfill_main_run W s) as H1.
    pose proof (backfill_main_run W s1) as H2. rewrite Hconn in H1, H2.
    destruct H1 as (s1' & E1 & Hr1 & _). destruct H2 as (s2' & E2 & Hr2 & _).
    subst s2. rewrite E2. cbn [snd add_log trace]. rewrite Hr2.
    subst s1. rewrite E1. cbn [snd add_log trace]. rewrite Hr1.
    rewrite <- app_assoc. reflexivity.
Qed.

Lemma backfill_rerun_duplicates_witness :
  let W := sample_world day_2024_03_01 [] None None None None in
  let range := Calendar.date_range Backfill.start_date Backfill.end_date in
  table_rows (snd (Backfill.main W (snd (Backfill.main W initial_state))))
  = table_rows initial_state
    ++ flat_map rows_of (stored W range) ++ flat_map rows_of (stored W range)
  /\ requests (trace (snd (Backfill.main W (snd (Backfill.main W initial_state)))))
     = requests (trace initial_state) ++ map request_of range ++ map request_of range.
Proof.
  intros W range.
  exact (backfill_rerun_duplicates W initial_state eq_refl).
Defined.

(* ------------------------------------------------------------------ *)
(** ** Further properties: single calls *)

Lemma transform_date_column (W : World) (df out : DataFrame) (d : Z) :
  transform W (Pandas.setitem_scalar df "Date" (VDate d)) = Ok out ->
  Pandas.lookup "Date" (columns out) = Some (ColObj (repeat (VDate d) (index_len out))).
Proof.
  intros H. apply transform_inv in H.
  destruct H as (value & replaced & vals & nominal & noms & _ & _ & _ & _ & _ & Hsel).
  unfold Pandas.select, Pandas.rename in Hsel. cbn [columns index_len] in Hsel.
  destruct (Pandas.select_cols out_columns _) as [cols|] eqn:Hcols; [|discriminate].
  injection Hsel as <-. cbn [columns index_len].
  unfold out_columns in Hcols. rewrite (lookup_select_first _ _ _ _ Hcols).
  rewrite lookup_rename_fixed by exact rename_fixes_date.
  rewrite !lookup_set_col_other by discriminate.
  unfold Pandas.setitem_scalar, Pandas.setitem. cbn [columns Pandas.broadcast index_len].
  apply lookup_set_col_same.
Qed.

Lemma first_date_fetched_backfill (W : World) (d : Z) :
  nonempty (fetched_backfill W d) = true ->
  Backfill.first_date (fetched_backfill W d) = Ok (VDate d).
Proof.
  unfold fetched_backfill. intros Hne.
  destruct (parse_backfill W d) as [out|e] eqn:Hp; [|discriminate].
  cbn [frame_or_empty] in *. unfold parse_backfill in Hp.
  destruct (response_text W _) as [text|e]; [|discriminate]. cbn [and_then] in Hp.
  destruct (read_xml W text) as [df0|e]; [|discriminate]. cbn [and_then] in Hp.
  unfold Backfill.first_date, Pandas.getitem.
  rewrite (transform_date_column W df0 out d Hp). cbn [and_then column_cells].
  unfold nonempty, df_empty in Hne.
  destruct (index_len out) as [|n]; [discriminate | reflexivity].
Qed.

(** X12. In the backfill loop the answer of [save_data] is the truth: for
    a fetched table that is not empty it is [True] exactly when [to_sql]
    goes through, and then the records are in the table and the log names
    the count and the requested date. The log line is built after the
    write, though: on a table without a [Date] column, or without rows,
    [save_data] answers [False] after the rows were written. *)
Theorem backfill_save_outcome (W : World) (g : Engine) (s : State) :
  (forall d,
      nonempty (fetched_backfill W d) = true ->
      exists b s',
        Backfill.save_data W (fetched_backfill W d) g s = (Ok b, s')
        /\ (b = true <-> to_sql_fault W (fetched_backfill W d) = None)
        /\ (b = true ->
            table_rows s' = table_rows s ++ rows_of (fetched_backfill W d)
            /\ last_record (log s')
               = Some (saved_record (fetched_backfill W d) (VDate d))))
  /\ (forall df e,
         to_sql_fault W df = None -> Backfill.first_date df = Raise e ->
         exists s',
           Backfill.save_data W df g s = (Ok false, s')
           /\ table_rows s' = table_rows s ++ rows_of df
           /\ last_record (log s') = Some (save_error_record e)).
Proof.
  split.
  - intros d Hne. rewrite save_data_backfill_run, (first_date_fetched_backfill W d Hne).
    destruct (to_sql_fault W (fetched_backfill W d)) as [e|].
    + eexists _, _. split; [reflexivity|]. split; [split; discriminate | discriminate].
    + eexists _, _. split; [reflexivity|]. split; [split; reflexivity|].
      intros _. split.
      * unfold table_rows. cbn. destruct (db_table s); reflexivity.
      * cbn [log add_log]. apply last_record_app.
  - intros df e Hok Hfirst. rewrite save_data_backfill_run, Hok, Hfirst.
    eexists. split; [reflexivity|]. split.
    + unfold table_rows. cbn. destruct (db_table s); reflexivity.
    + cbn [log add_log]. apply last_record_app.
Qed.

Lemma backfill_save_outcome_witness :
  let W := sample_world day_2024_03_01 [] None None None None in
  (exists s',
      Backfill.save_data W (fetched_backfill W day_2024_03_01) PgEngine initial_state
      = (Ok true, s')
      /\ table_rows s' = rows_of (fetched_backfill W day_2024_03_01))
  /\ (exists s',
         Backfill.save_data W sample_frame PgEngine initial_state = (Ok false, s')
         /\ table_rows s' = rows_of sample_frame).
Proof.
  intros W.
  destruct (backfill_save_outcome W PgEngine initial_state) as [Hgood Hbad].
  split.
  - destruct (Hgood day_2024_03_01 eq_refl) as (b & s' & Hrun & Hb & Hrows).
    assert (b = true) as -> by (apply Hb; reflexivity).
    exists s'. split; [exact Hrun | exact (proj1 (Hrows eq_refl))].
  - destruct (Hbad sample_frame (Pandas.key_error "Date") eq_refl eq_refl)
      as (s' & Hrun & Hrows & _).
    exists s'. split; [exact Hrun | exact Hrows].
Defined.

(** X13. A call of [get_cbr_rates], in either loader, sends exactly one
    request - a failure is not retried - and touches neither the table nor
    the fallback file; it logs nothing on success and one error record on
    failure. *)
Theorem fetch_sends_one_request (W : World) (date_req : option Z) (date : Z) (s : State) :
  (exists df s',
      Incremental.get_cbr_rates W date_req s = (Ok df, s')
      /\ trace s' = trace s ++ [request_of (requested W date_req)]
      /\ db_table s' = db_table s /\ csv_file s' = csv_file s
      /\ (log s' = log s
          \/ df = empty_frame /\ exists r, log s' = log s ++ [r] /\ level_of r = ERROR))
  /\ (exists df s',
         Backfill.get_cbr_rates W date s = (Ok df, s')
         /\ trace s' = trace s ++ [request_of date]
         /\ db_table s' = db_table s /\ csv_file s' = csv_file s
         /\ (log s' = log s
             \/ df = empty_frame /\ exists r, log s' = log s ++ [r] /\ level_of r = ERROR)).
Proof.
  rewrite get_cbr_rates_incremental_run, get_cbr_rates_backfill_run.
  split.
  - destruct (parse_incremental W _) as [df|e]; eexists _, _;
      (split; [reflexivity|]); repeat (split; [reflexivity|]).
    + left. reflexivity.
    + right. split; [reflexivity|]. eexists. split; reflexivity.
  - destruct (parse_backfill W date) as [df|e]; eexists _, _;
      (split; [reflexivity|]); repeat (split; [reflexivity|]).
    + left. reflexivity.
    + right. split; [reflexivity|]. eexists. split; reflexivity.
Qed.


